(** * Reconciliation core of the ETL pipeline: validation, deduplication, upsert

    A shallow embedding of the Python sources
      src/validation/schemas.py, src/validation/validators.py,
      src/deduplication/dedup_engine.py, src/loading/sql_loader.py,
      src/utils/metrics.py and scripts/run_etl_pipeline.py,
    followed by the properties proved about them.

    Conventions of the embedding.
    - A pandas DataFrame is a list of column names and a list of rows; a row
      is a finite map from column names to cells.  The row index is the
      default RangeIndex (read_csv and reset_index(drop=True) produce it), so
      the label of a row is its position.
    - Python ints are [Z].  Amounts (Python floats, "decimal" in the data
      model) are exact rationals [Qc]; timestamps are [Z] ticks.
    - Text is a byte string; [str.encode()] is the identity.
    - A Python call that may raise returns a [result]; mutable objects
      (the report, the stats dictionaries, the metrics, the SQL table) are
      passed explicitly.
    - Library code that is not part of the repository is an argument of the
      function that calls it: the pandera schema run by [validate], the
      rendering of floats and timestamps by [str], the SQL Server MERGE. *)

From Stdlib Require Import ZArith QArith Qcanon Qcabs String Ascii List Lia.
From Stdlib Require Import OrdersEx Sorted.
From stdpp Require Import base gmap list strings numbers pretty.

Open Scope string_scope.
Open Scope Z_scope.

(** ** Python exceptions and results *)

Module Python.

(** An exception: its class name and the text [str(e)] returns. *)
Record exn := Exn { exn_type : string; exn_str : string }.

Inductive result (A : Type) : Type :=
| Ok (a : A)
| Raise (e : exn).
Arguments Ok {A} a.
Arguments Raise {A} e.

(** Sequencing: the first exception raised ends the computation. *)
#[global] Instance result_ret : MRet result := fun A a => Ok a.
#[global] Instance result_bind : MBind result := fun A B k m =>
  match m with
  | Ok a => k a
  | Raise e => Raise e
  end.

Definition returns {A} (m : result A) : Prop := exists a, m = Ok a.

#[global] Instance exn_eq_dec : EqDecision exn.
Proof. solve_decision. Defined.

#[global] Instance result_eq_dec {A} `{EqDecision A} : EqDecision (result A).
Proof. solve_decision. Defined.

End Python.
Export Python.

(** ** hashlib.sha256 (FIPS 180-4), on byte strings *)

Module Hashlib.

Definition w32 (x : Z) : Z := x mod 2^32.
Definition add32 (x y : Z) : Z := w32 (x + y).
Definition rotr (n x : Z) : Z := Z.lor (Z.shiftr x n) (w32 (Z.shiftl x (32 - n))).
Definition shr (n x : Z) : Z := Z.shiftr x n.
Definition Ch (x y z : Z) : Z :=
  Z.lxor (Z.land x y) (Z.land (Z.lxor x (2^32 - 1)) z).
Definition Maj (x y z : Z) : Z :=
  Z.lxor (Z.lxor (Z.land x y) (Z.land x z)) (Z.land y z).
Definition Sigma0 x := Z.lxor (Z.lxor (rotr 2 x) (rotr 13 x)) (rotr 22 x).
Definition Sigma1 x := Z.lxor (Z.lxor (rotr 6 x) (rotr 11 x)) (rotr 25 x).
Definition sigma0 x := Z.lxor (Z.lxor (rotr 7 x) (rotr 18 x)) (shr 3 x).
Definition sigma1 x := Z.lxor (Z.lxor (rotr 17 x) (rotr 19 x)) (shr 10 x).

(** The round constants are the first 32 bits of the fractional parts of the
    cube roots of the first 64 primes; the initial state, of the square
    roots of the first 8. *)
Definition primes : list Z :=
  [2; 3; 5; 7; 11; 13; 17; 19; 23; 29; 31; 37; 41; 43; 47; 53; 59; 61; 67; 71;
   73; 79; 83; 89; 97; 101; 103; 107; 109; 113; 127; 131; 137; 139; 149; 151;
   157; 163; 167; 173; 179; 181; 191; 193; 197; 199; 211; 223; 227; 229; 233;
   239; 241; 251; 257; 263; 269; 271; 277; 281; 283; 293; 307; 311].

(** The largest [r] below [2^n] above the start with [r^3 <= x]. *)
Fixpoint cube_root (n : nat) (x r : Z) : Z :=
  match n with
  | O => r
  | S n' =>
      let r' := r + 2 ^ Z.of_nat n' in
      if r' * r' * r' <=? x then cube_root n' x r' else cube_root n' x r
  end.

Definition frac_cube_root (p : Z) : Z := w32 (cube_root 36 (p * 2^96) 0).
Definition frac_square_root (p : Z) : Z := w32 (Z.sqrt (p * 2^64)).

Definition K256 : list Z := Eval vm_compute in map frac_cube_root primes.

Record state := St { ha : Z; hb : Z; hc : Z; hd : Z; he : Z; hf : Z; hg : Z; hh : Z }.

Definition H0 : state :=
  Eval vm_compute in
    St (frac_square_root 2) (frac_square_root 3) (frac_square_root 5)
       (frac_square_root 7) (frac_square_root 11) (frac_square_root 13)
       (frac_square_root 17) (frac_square_root 19).

Fixpoint be_bytes (n : nat) (x : Z) : list Z :=
  match n with
  | O => []
  | S n' => be_bytes n' (x / 256) ++ [x mod 256]
  end.

(** Padding: 0x80, zeros up to 56 modulo 64, the bit length on 8 bytes. *)
Definition pad (msg : list Z) : list Z :=
  let len := Z.of_nat (length msg) in
  msg ++ [0x80] ++ repeat 0 (Z.to_nat ((55 - len) mod 64)) ++ be_bytes 8 (8 * len).

Fixpoint words_of (n : nat) (bs : list Z) : list Z :=
  match n, bs with
  | S n', b0 :: b1 :: b2 :: b3 :: rest =>
      (((b0 * 256 + b1) * 256 + b2) * 256 + b3) :: words_of n' rest
  | _, _ => []
  end.

(** The message schedule, most recent word first. *)
Fixpoint schedule (n : nat) (rev_w : list Z) : list Z :=
  match n with
  | O => rev_w
  | S n' =>
      let w := add32 (add32 (sigma1 (nth 1 rev_w 0)) (nth 6 rev_w 0))
                     (add32 (sigma0 (nth 14 rev_w 0)) (nth 15 rev_w 0)) in
      schedule n' (w :: rev_w)
  end.

Definition round (s : state) (kw : Z * Z) : state :=
  let '(k, w) := kw in
  let t1 := add32 (add32 (add32 (hh s) (Sigma1 (he s)))
                         (add32 (Ch (he s) (hf s) (hg s)) k)) w in
  let t2 := add32 (Sigma0 (ha s)) (Maj (ha s) (hb s) (hc s)) in
  St (add32 t1 t2) (ha s) (hb s) (hc s) (add32 (hd s) t1) (he s) (hf s) (hg s).

Definition compress (s : state) (block : list Z) : state :=
  let w := List.rev (schedule 48 (List.rev (words_of 16 block))) in
  let r := fold_left round (combine K256 w) s in
  St (add32 (ha s) (ha r)) (add32 (hb s) (hb r)) (add32 (hc s) (hc r))
     (add32 (hd s) (hd r)) (add32 (he s) (he r)) (add32 (hf s) (hf r))
     (add32 (hg s) (hg r)) (add32 (hh s) (hh r)).

Fixpoint blocks (n : nat) (s : state) (bs : list Z) : state :=
  match n with
  | O => s
  | S n' =>
      match bs with
      | [] => s
      | _ => blocks n' (compress s (firstn 64 bs)) (skipn 64 bs)
      end
  end.

Definition hex_digit (d : Z) : ascii :=
  nth (Z.to_nat d) (list_ascii_of_string "0123456789abcdef") "0"%char.

Definition hex32 (x : Z) (tail : string) : string :=
  String (hex_digit (x / 2^28 mod 16)) (String (hex_digit (x / 2^24 mod 16))
 (String (hex_digit (x / 2^20 mod 16)) (String (hex_digit (x / 2^16 mod 16))
 (String (hex_digit (x / 2^12 mod 16)) (String (hex_digit (x / 2^8 mod 16))
 (String (hex_digit (x / 2^4 mod 16)) (String (hex_digit (x mod 16)) tail))))))).

Definition bytes_of_string (s : string) : list Z :=
  map (fun c => Z.of_nat (nat_of_ascii c)) (list_ascii_of_string s).

(** [hashlib.sha256(b).hexdigest()] *)
Definition sha256_hexdigest (s : string) : string :=
  let bs := pad (bytes_of_string s) in
  let r := blocks (length bs) H0 bs in
  hex32 (ha r) (hex32 (hb r) (hex32 (hc r) (hex32 (hd r)
 (hex32 (he r) (hex32 (hf r) (hex32 (hg r) (hex32 (hh r) ""))))))).

End Hashlib.

(** ** pandas: cells, rows, frames *)

Module Pandas.

(** A cell: text, a number, a timestamp, or a missing value (None, NaN,
    NaT: pandas treats them alike in isna, dropna and duplicated). *)
Inductive Cell :=
| VStr (s : string)
| VNum (q : Qc)
| VTime (t : Z)
| VNull.

#[global] Instance Cell_eq_dec : EqDecision Cell.
Proof. solve_decision. Defined.

Record DataFrame := Frame {
  df_columns : list string;
  df_rows : list (gmap string Cell)
}.

#[global] Instance DataFrame_eq_dec : EqDecision DataFrame.
Proof. solve_decision. Defined.

(** [len(df)] *)
Definition len (df : DataFrame) : Z := Z.of_nat (length (df_rows df)).

(** [col in df.columns] *)
Definition has_column (df : DataFrame) (col : string) : bool :=
  bool_decide (col ∈ df_columns df).

(** [row[col]] for a column of the frame; a cell the row does not hold is
    missing. *)
Definition cell (row : gmap string Cell) (col : string) : Cell :=
  default VNull (row !! col).

(** [pd.notna(v)] *)
Definition notna (c : Cell) : bool :=
  match c with VNull => false | _ => true end.

(** [df.empty]: some axis has length 0. *)
Definition empty (df : DataFrame) : bool :=
  match df_columns df, df_rows df with
  | [], _ | _, [] => true
  | _, _ => false
  end.

(** [df[mask]] for a boolean mask: the rows whose flag is set.  pandas
    refuses a mask whose length differs from the frame's. *)
Fixpoint select {A} (mask : list bool) (l : list A) : list A :=
  match mask, l with
  | b :: mask', x :: l' => if b then x :: select mask' l' else select mask' l'
  | _, _ => []
  end.

Definition getitem_mask (df : DataFrame) (mask : list bool) : result DataFrame :=
  if bool_decide (length mask = length (df_rows df))
  then Ok (Frame (df_columns df) (select mask (df_rows df)))
  else Raise (Exn "IndexingError" "Unalignable boolean Series provided as indexer").

(** [df.duplicated(subset, keep='first')]: a row is flagged when an earlier
    row has the same cells in every column of [subset]; missing values
    compare equal. *)
Definition key_of (subset : list string) (row : gmap string Cell) : list Cell :=
  map (cell row) subset.

Fixpoint duplicated_keys (seen : list (list Cell)) (keys : list (list Cell)) : list bool :=
  match keys with
  | [] => []
  | k :: keys' => bool_decide (k ∈ seen) :: duplicated_keys (k :: seen) keys'
  end.

Definition duplicated (df : DataFrame) (subset : list string) : result (list bool) :=
  if empty df then Ok []
  else if negb (forallb (has_column df) subset)
  then Raise (Exn "KeyError" "Index(diff)")
  else match subset with
       | [] => Raise (Exn "ValueError" "not enough values to unpack (expected 2, got 0)")
       | _ => Ok (duplicated_keys [] (map (key_of subset) (df_rows df)))
       end.

(** [mask.sum()] of a boolean Series. *)
Definition mask_sum (mask : list bool) : Z :=
  Z.of_nat (length (filter (fun b => b = true) mask)).

(** [df[col].sum()]: missing values are skipped; text and timestamps do
    not add to a number. *)
Fixpoint sum_cells (cs : list Cell) : result Qc :=
  match cs with
  | [] => Ok (Q2Qc 0)
  | VNum q :: cs' => s ← sum_cells cs'; Ok (q + s)%Qc
  | VNull :: cs' => sum_cells cs'
  | _ :: _ => Raise (Exn "TypeError" "unsupported operand type(s)")
  end.

Definition column_sum (df : DataFrame) (col : string) : result Qc :=
  if has_column df col
  then sum_cells (map (fun row => cell row col) (df_rows df))
  else Raise (Exn "KeyError" col).

End Pandas.
Export Pandas.


(** ** Python's [str] on cells

    How a float and a Timestamp print is the interpreter's and pandas'
    business; the three renderings are the interface [PyStr]. *)

Class PyStr := {
  str_float : Qc -> string;
  str_timestamp : Z -> string;
  str_null : string
}.

(** [str(v)] *)
Definition py_str `{PyStr} (c : Cell) : string :=
  match c with
  | VStr s => s
  | VNum q => str_float q
  | VTime t => str_timestamp t
  | VNull => str_null
  end.

(** ** pandera: what [schema.validate(df, lazy=True)] hands back *)

Module Pandera.

(** The [index] cell of a failure case: an integer row label, a missing
    value (column-level failures carry None), or a label [int()] rejects. *)
Inductive IndexVal :=
| IdxInt (z : Z)
| IdxNA
| IdxLabel (s : string).

#[global] Instance IndexVal_eq_dec : EqDecision IndexVal.
Proof. solve_decision. Defined.

(** One row of [SchemaErrors.failure_cases]. *)
Record FailureCase := Case {
  fc_index : IndexVal;
  fc_column : option string;
  fc_check : string
}.

(** [failure_cases]: whether the frame has an [index] column, and its rows. *)
Record FailureCases := Cases {
  fcs_has_index : bool;
  fcs_rows : list FailureCase
}.

Inductive SchemaOutcome :=
| Validated (df : DataFrame)
| SchemaErrors (failure_cases : FailureCases)
| SchemaFatal (e : exn).

#[global] Instance FailureCase_eq_dec : EqDecision FailureCase.
Proof. solve_decision. Defined.
#[global] Instance FailureCases_eq_dec : EqDecision FailureCases.
Proof. solve_decision. Defined.
#[global] Instance SchemaOutcome_eq_dec : EqDecision SchemaOutcome.
Proof. solve_decision. Defined.

(** A schema object, through its [validate(df, lazy=True)] method. *)
Definition DataFrameSchema := DataFrame -> SchemaOutcome.

End Pandera.
Export Pandera.

(** ** src/validation/schemas.py *)

Module Schemas.

(** An entry of [ValidationReport.errors]:
    [{'row': ..., 'column': ..., 'error': ...}] *)
Record ErrorEntry := Entry {
  err_row : IndexVal;
  err_column : option string;
  err_error : string
}.

#[global] Instance ErrorEntry_eq_dec : EqDecision ErrorEntry.
Proof. solve_decision. Defined.

Record ValidationReport := Report {
  total_rows : Z;
  valid_rows : Z;
  invalid_rows : Z;
  errors : list ErrorEntry;
  warnings : list string
}.

#[global] Instance ValidationReport_eq_dec : EqDecision ValidationReport.
Proof. solve_decision. Defined.

(** [ValidationReport()] *)
Definition new_report : ValidationReport := Report 0 0 0 [] [].

Definition set_total_rows (r : ValidationReport) (n : Z) : ValidationReport :=
  Report n (valid_rows r) (invalid_rows r) (errors r) (warnings r).
Definition set_valid_rows (r : ValidationReport) (n : Z) : ValidationReport :=
  Report (total_rows r) n (invalid_rows r) (errors r) (warnings r).
Definition set_invalid_rows (r : ValidationReport) (n : Z) : ValidationReport :=
  Report (total_rows r) (valid_rows r) n (errors r) (warnings r).

(** [ValidationReport.add_error] *)
Definition add_error (r : ValidationReport)
    (row_index : IndexVal) (column : option string) (error_msg : string)
    : ValidationReport :=
  Report (total_rows r) (valid_rows r) (invalid_rows r)
         (errors r ++ [Entry row_index column error_msg]) (warnings r).

(** [ValidationReport.add_warning] *)
Definition add_warning (r : ValidationReport) (message : string) : ValidationReport :=
  Report (total_rows r) (valid_rows r) (invalid_rows r)
         (errors r) (warnings r ++ [message]).

(** [tolerance = 0.01] *)
Definition tolerance : Qc := Q2Qc (1 # 100).

(** [OperationalSchema.validate_checksum] *)
Definition validate_checksum (df : DataFrame) (expected_total : option Qc) : result bool :=
  match expected_total with
  | None => Ok true
  | Some expected =>
      actual_total ← column_sum df "monto";
      Ok (bool_decide ([actual_total - expected] < tolerance)%Qc)
  end.

End Schemas.
Export Schemas.

(** ** src/validation/validators.py *)

Module Validators.
Section Validator.
Context `{PyStr}.

(** [int(idx)] inside the try block: [None] stands for ValueError/TypeError. *)
Definition int_of_index (idx : IndexVal) : option Z :=
  match idx with
  | IdxInt z => Some z
  | IdxNA | IdxLabel _ => None
  end.

(** [failure_cases['index'].dropna()] *)
Definition dropna (idxs : list IndexVal) : list IndexVal :=
  filter (fun idx => idx <> IdxNA) idxs.

(** The loop that fills [invalid_indices]. *)
Definition collect_invalid_indices (fcs : FailureCases) : gset Z :=
  if fcs_has_index fcs
  then list_to_set (omap int_of_index (dropna (map fc_index (fcs_rows fcs))))
  else ∅.

(** [case.get('index', -1)] *)
Definition case_index (fcs : FailureCases) (c : FailureCase) : IndexVal :=
  if fcs_has_index fcs then fc_index c else IdxInt (-1).

(** The loop over [failure_cases.iterrows()]. *)
Definition record_errors (r : ValidationReport) (fcs : FailureCases) : ValidationReport :=
  fold_left (fun r c => add_error r (case_index fcs c) (fc_column c) (fc_check c))
            (fcs_rows fcs) r.

(** [~df.index.isin(invalid_indices)] *)
Definition valid_mask (df : DataFrame) (invalid_indices : gset Z) : list bool :=
  map (fun i => bool_decide (Z.of_nat i ∉ invalid_indices))
      (seq 0 (length (df_rows df))).

(** [DataValidator._handle_schema_errors] *)
Definition _handle_schema_errors (r : ValidationReport) (df : DataFrame)
    (failure_cases : FailureCases) : DataFrame * ValidationReport :=
  let r := record_errors r failure_cases in
  let invalid_indices := collect_invalid_indices failure_cases in
  let valid_df :=
    if bool_decide (invalid_indices <> ∅)
    then Frame (df_columns df) (select (valid_mask df invalid_indices) (df_rows df))
    else df in
  (valid_df, set_valid_rows r (len valid_df)).

Definition checksum_warning (expected actual : Qc) : string :=
  "Checksum mismatch: expected " +:+ str_float expected +:+
  ", got " +:+ str_float actual.

(** [DataValidator.validate] *)
Definition validate (schema : DataFrameSchema) (df : DataFrame)
    (expected_checksum : option Qc) : result (DataFrame * ValidationReport) :=
  let report := set_total_rows new_report (len df) in
  '(validated_df, report) ←
    match schema df return result (DataFrame * ValidationReport) with
    | Validated validated_df =>
        Ok (validated_df, set_valid_rows report (len validated_df))
    | SchemaErrors e => Ok (_handle_schema_errors report df e)
    | SchemaFatal e => Raise e
    end;
  report ←
    match expected_checksum return result ValidationReport with
    | Some expected =>
        checksum_valid ← validate_checksum validated_df (Some expected);
        if checksum_valid : bool then Ok report
        else actual ← column_sum validated_df "monto";
             Ok (add_warning report (checksum_warning expected actual))
    | None => Ok report
    end;
  Ok (validated_df,
      set_invalid_rows report (total_rows report - valid_rows report)).

Definition hash_columns : list string :=
  ["numero_operacion"; "monto"; "fecha_operacion"; "cuenta_origen"].

(** The lambda of [DataValidator.generate_content_hash], on one row:
    [hashlib.sha256(''.join(str(row[col]) for col in hash_columns).encode())
     .hexdigest()[:16]] *)
Definition row_content_hash (row : gmap string Cell) : string :=
  String.substring 0 16
    (Hashlib.sha256_hexdigest
       (String.concat "" (map (fun col => py_str (cell row col)) hash_columns))).

(** [DataValidator.generate_content_hash]: [df[hash_columns]] raises
    KeyError when a hash column is absent; otherwise every row gets its
    hash (a frame without rows gets none). *)
Definition generate_content_hash (df : DataFrame) : result DataFrame :=
  if forallb (has_column df) hash_columns
  then Ok (Frame (df_columns df ++
                    (if has_column df "content_hash" then [] else ["content_hash"]))
                 (map (fun row => <["content_hash" := VStr (row_content_hash row)]> row)
                      (df_rows df)))
  else Raise (Exn "KeyError" "hash columns not in index").

End Validator.
End Validators.

(** ** src/deduplication/dedup_engine.py *)

Module Dedup.
Section Engine.
Context `{PyStr}.

(** [DeduplicationEngine.dedup_stats], the engine's mutable dictionary. *)
Record DedupStats := DStats {
  total_input : Z;
  duplicates_found : Z;
  duplicates_removed : Z;
  final_count : Z
}.

#[global] Instance DedupStats_eq_dec : EqDecision DedupStats.
Proof. solve_decision. Defined.

(** [DeduplicationEngine.__init__] *)
Definition new_engine : DedupStats := DStats 0 0 0 0.

Definition set_total_input (s : DedupStats) (n : Z) : DedupStats :=
  DStats n (duplicates_found s) (duplicates_removed s) (final_count s).
Definition set_duplicates_found (s : DedupStats) (n : Z) : DedupStats :=
  DStats (total_input s) n (duplicates_removed s) (final_count s).
Definition set_duplicates_removed (s : DedupStats) (n : Z) : DedupStats :=
  DStats (total_input s) (duplicates_found s) n (final_count s).
Definition set_final_count (s : DedupStats) (n : Z) : DedupStats :=
  DStats (total_input s) (duplicates_found s) (duplicates_removed s) n.

Definition hash_columns : list string :=
  ["numero_operacion"; "monto"; "fecha_operacion"; "cuenta_origen"].

(** [create_hash(row)]: the hash columns the frame does not have are
    skipped.  [str] and [join] do not raise on cells, so the [except]
    branch that returns None is never taken. *)
Definition create_hash (df : DataFrame) (row : gmap string Cell) : Cell :=
  let content :=
    String.concat ""
      (map (fun col => py_str (cell row col))
           (filter (fun col => has_column df col = true) hash_columns)) in
  VStr (String.substring 0 16 (Hashlib.sha256_hexdigest content)).

(** [df[col] = values]: the column is appended when the frame lacks it. *)
Definition assign_column (df : DataFrame) (col : string)
    (value : gmap string Cell -> Cell) : DataFrame :=
  Frame (df_columns df ++ (if has_column df col then [] else [col]))
        (map (fun row => <[col := value row]> row) (df_rows df)).

(** [DeduplicationEngine._generate_content_hash] *)
Definition _generate_content_hash (df : DataFrame) : DataFrame :=
  assign_column df "content_hash" (create_hash df).

(** [df[~duplicates_mask].reset_index(drop=True)] *)
Definition drop_flagged (df : DataFrame) (duplicates_mask : list bool) : result DataFrame :=
  getitem_mask df (map negb duplicates_mask).

(** [DeduplicationEngine._deduplicate_by_hash]: the engine's stats after
    the call, and the frame returned or the exception raised. *)
Definition _deduplicate_by_hash (self : DedupStats) (df : DataFrame)
    : DedupStats * result DataFrame :=
  let df := if has_column df "content_hash" then df else _generate_content_hash df in
  match duplicated df ["content_hash"] with
  | Raise e => (self, Raise e)
  | Ok duplicates_mask =>
      (set_duplicates_found self (mask_sum duplicates_mask),
       drop_flagged df duplicates_mask)
  end.

(** [DeduplicationEngine._deduplicate_by_key] *)
Definition _deduplicate_by_key (self : DedupStats) (df : DataFrame)
    (key_columns : list string) : DedupStats * result DataFrame :=
  match duplicated df key_columns with
  | Raise e => (self, Raise e)
  | Ok duplicates_mask =>
      (set_duplicates_found self (mask_sum duplicates_mask),
       drop_flagged df duplicates_mask)
  end.

(** [DeduplicationEngine.deduplicate]; the default [key_columns=None] is
    [None] here. *)
Definition deduplicate (self : DedupStats) (df : DataFrame) (strategy : string)
    (key_columns : option (list string))
    : DedupStats * result (DataFrame * DedupStats) :=
  let self := set_total_input self (len df) in
  let '(self, result_df) :=
    if bool_decide (strategy = "hash") then _deduplicate_by_hash self df
    else if bool_decide (strategy = "key") then
      _deduplicate_by_key self df (default ["numero_operacion"] key_columns)
    else (self, Raise (Exn "ValueError" ("Unknown strategy: " +:+ strategy))) in
  match result_df with
  | Raise e => (self, Raise e)
  | Ok result_df =>
      let self := set_final_count self (len result_df) in
      let self := set_duplicates_removed self (total_input self - final_count self) in
      (self, Ok (result_df, self))
  end.

(** [DeduplicationEngine.get_dedup_report]: the stats with the two rates. *)
Record DedupReport := DReport {
  report_stats : DedupStats;
  duplicate_rate : Qc;
  retention_rate : Qc
}.

Definition get_dedup_report (self : DedupStats) : DedupReport :=
  let duplicate_rate :=
    if bool_decide (0 < total_input self)
    then (Q2Qc (inject_Z (duplicates_removed self)) /
          Q2Qc (inject_Z (total_input self)))%Qc
    else Q2Qc 0 in
  DReport self duplicate_rate (Q2Qc 1 - duplicate_rate)%Qc.

End Engine.
End Dedup.

(** ** src/deduplication/dedup_engine.py: AdvancedDeduplicator *)

Module AdvancedDedup.

(** The order of the cells of one column, as [sort_values] with several
    [by] columns has it (the column is made an ordered Categorical, whose
    categories are the sorted distinct values): numbers by value,
    timestamps by time, text by code point; in a column that mixes text
    with numbers or timestamps, text comes after them.  Numbers and
    timestamps in one column have no order: [orderable] is false and the
    sort raises.  Missing cells are no category; they come last. *)
Definition kind_rank (c : Cell) : nat :=
  match c with
  | VNum _ => 0
  | VTime _ => 1
  | VStr _ => 2
  | VNull => 3
  end.

Definition cell_compare (a b : Cell) : comparison :=
  match a, b with
  | VNum p, VNum q => (p ?= q)%Qc
  | VTime s, VTime t => (s ?= t)%Z
  | VStr s, VStr t => String_as_OT.compare s t
  | _, _ => Nat.compare (kind_rank a) (kind_rank b)
  end.

Definition is_number (c : Cell) : bool :=
  match c with VNum _ => true | _ => false end.

Definition is_timestamp (c : Cell) : bool :=
  match c with VTime _ => true | _ => false end.

Definition orderable (cs : list Cell) : bool :=
  negb (existsb is_number cs && existsb is_timestamp cs).

(** The codes [lexsort_indexer] sorts by: descending reverses the order of
    the categories; a missing cell comes last in both directions
    ([na_position='last']). *)
Definition directed_compare (ascending : bool) (a b : Cell) : comparison :=
  match a, b with
  | VNull, VNull => Eq
  | VNull, _ => Gt
  | _, VNull => Lt
  | _, _ => if ascending then cell_compare a b else cell_compare b a
  end.

(** Rows compared by the [by] columns, the first column first. *)
Fixpoint by_compare (cols : list (string * bool)) (r1 r2 : gmap string Cell)
    : comparison :=
  match cols with
  | [] => Eq
  | (col, ascending) :: cols' =>
      match directed_compare ascending (cell r1 col) (cell r2 col) with
      | Eq => by_compare cols' r1 r2
      | c => c
      end
  end.

Definition by_le (cols : list (string * bool)) (r1 r2 : gmap string Cell) : bool :=
  match by_compare cols r1 r2 with
  | Gt => false
  | _ => true
  end.

(** [np.lexsort] is a stable sort: rows that compare equal keep their
    order.  Here by insertion, from the last row to the first. *)
Fixpoint insert_sorted {A} (le : A -> A -> bool) (x : A) (l : list A) : list A :=
  match l with
  | [] => [x]
  | y :: l' => if le x y then x :: l else y :: insert_sorted le x l'
  end.

Definition stable_sort {A} (le : A -> A -> bool) (l : list A) : list A :=
  fold_right (insert_sorted le) [] l.

(** [df.sort_values(by=..., ascending=[...])] with two or more [by]
    columns: KeyError for the first column the frame lacks, TypeError when
    a column cannot be ordered. *)
Definition sort_values (df : DataFrame) (cols : list (string * bool)) : result DataFrame :=
  match filter (fun c => c ∉ df_columns df) (map fst cols) with
  | c :: _ => Raise (Exn "KeyError" c)
  | [] =>
      if forallb (fun c => orderable (map (fun row => cell row c) (df_rows df)))
                 (map fst cols)
      then Ok (Frame (df_columns df) (stable_sort (by_le cols) (df_rows df)))
      else Raise (Exn "TypeError" "'values' is not ordered")
  end.

(** [df.drop_duplicates(subset=..., keep='first').reset_index(drop=True)]:
    an empty frame is returned as it is. *)
Definition drop_duplicates (df : DataFrame) (subset : list string) : result DataFrame :=
  if empty df then Ok df
  else mask ← duplicated df subset; Dedup.drop_flagged df mask.

(** All the cells that are not missing are of one kind. *)
Definition one_kind (cs : list Cell) : bool :=
  match filter (fun c => c <> VNull) cs with
  | [] => true
  | c :: cs' => forallb (fun c' => bool_decide (kind_rank c' = kind_rank c)) cs'
  end.

(** [AdvancedDeduplicator.deduplicate_with_priority].  With no key column
    there is one [by] column, and [sort_values] sorts by it alone with
    quicksort, which compares the cells themselves (TypeError across kinds)
    and leaves the order of equal cells open; [drop_duplicates(subset=[])]
    then returns a frame without rows as it is and raises on any other, so
    that order never shows. *)
Definition deduplicate_with_priority (df : DataFrame) (key_columns : list string)
    (priority_column priority_order : string) : result DataFrame :=
  let ascending := bool_decide (priority_order = "asc") in
  match key_columns with
  | [] =>
      if negb (has_column df priority_column)
      then Raise (Exn "KeyError" priority_column)
      else if bool_decide (df_rows df = []) then Ok df
      else if one_kind (map (fun row => cell row priority_column) (df_rows df))
      then Raise (Exn "ValueError" "not enough values to unpack (expected 2, got 0)")
      else Raise (Exn "TypeError" "'<' not supported between instances")
  | _ =>
      df_sorted ← sort_values df (map (fun c => (c, true)) key_columns
                                  ++ [(priority_column, ascending)])%list;
      drop_duplicates df_sorted key_columns
  end.

End AdvancedDedup.

(** ** src/loading/sql_loader.py *)

Module Loader.

(** Conversions done by Python and pandas on cells before they are bound
    to the UPDATE statement: [float(text)], and [pd.to_datetime] on a cell
    that is not already a timestamp. *)
Class PyConv := {
  float_of_text : string -> result Qc;
  datetime_of : Cell -> result Z
}.

(** A row of the table [operaciones]: the surrogate key [id] and the other
    columns ([NULL] where the map has no entry). *)
Record StoredRow := Stored {
  row_id : Z;
  row_data : gmap string Cell
}.

#[global] Instance StoredRow_eq_dec : EqDecision StoredRow.
Proof. solve_decision. Defined.

(** The body of [_upsert_sqlserver] up to its last line: the frame is
    normalised, staged in a temporary table and merged into the target
    inside one transaction ([engine.begin()]), by pandas and SQL Server.
    It yields the table after the commit, or raises and leaves the table as
    it was. *)
Class SqlServer := {
  merge_transaction : list StoredRow -> DataFrame -> Z -> result (list StoredRow)
}.

Section SQLLoader.
Context `{PyConv} `{SqlServer}.

(** [SQLLoader.load_stats] *)
Record LoadStats := LStats {
  rows_inserted : Z;
  rows_updated : Z;
  rows_failed : Z;
  total_processed : Z
}.

#[global] Instance LoadStats_eq_dec : EqDecision LoadStats.
Proof. solve_decision. Defined.

Definition set_rows_inserted (s : LoadStats) (n : Z) : LoadStats :=
  LStats n (rows_updated s) (rows_failed s) (total_processed s).
Definition set_rows_updated (s : LoadStats) (n : Z) : LoadStats :=
  LStats (rows_inserted s) n (rows_failed s) (total_processed s).
Definition set_rows_failed (s : LoadStats) (n : Z) : LoadStats :=
  LStats (rows_inserted s) (rows_updated s) n (total_processed s).

(** The loader object: [config.db_type], whether [engine] is set, and the
    stats dictionary. *)
Record SQLLoader := LoaderObj {
  db_type : string;
  engine : bool;
  load_stats : LoadStats
}.

(** [SQLLoader.__init__] *)
Definition new_loader (db_type : string) : SQLLoader :=
  LoaderObj db_type false (LStats 0 0 0 0).

(** What a connection attempt meets: success, a failure before
    [self.engine] is assigned (connection string, create_engine), or a
    failure of the test query, after it is assigned. *)
Inductive ConnAttempt :=
| ConnOk
| ConnFailsEarly (e : exn)
| ConnFailsLate (e : exn).

(** [SQLLoader.connect] *)
Definition connect (self : SQLLoader) (attempt : ConnAttempt) : SQLLoader * result unit :=
  let wrap e :=
    Raise (Exn "ConnectionError" ("Failed to connect to database: " +:+ exn_str e)) in
  match attempt with
  | ConnOk => (LoaderObj (db_type self) true (load_stats self), Ok tt)
  | ConnFailsEarly e => (self, wrap e)
  | ConnFailsLate e => (LoaderObj (db_type self) true (load_stats self), wrap e)
  end.

(** The columns [create_table] declares besides [id], and those declared
    [nullable=False]. *)
Definition table_columns : list string :=
  ["fecha_operacion"; "numero_operacion"; "tipo_operacion"; "monto"; "moneda";
   "cuenta_origen"; "cuenta_destino"; "banco_origen"; "banco_destino";
   "descripcion"; "estado"; "canal"; "content_hash"; "fecha_carga";
   "is_duplicate"].

Definition not_null_columns : list string :=
  ["fecha_operacion"; "numero_operacion"; "tipo_operacion"; "monto"; "moneda";
   "cuenta_origen"; "banco_origen"; "estado"; "canal"].

(** The rowid SQLite assigns: one more than the largest in use, 1 in an
    empty table. *)
Definition next_id (t : list StoredRow) : Z :=
  match map row_id t with
  | [] => 1
  | i :: ids => 1 + fold_left Z.max ids i
  end.

(** The [id] of an inserted row: assigned when the frame has no [id]
    column or the cell is missing, else the integer in the cell, which must
    be new.  (Text that spells an integer is not converted here.) *)
Definition insert_id (t : list StoredRow) (columns : list string)
    (row : gmap string Cell) : result Z :=
  if bool_decide ("id" ∈ columns) then
    match cell row "id" with
    | VNull => Ok (next_id t)
    | VNum q =>
        if bool_decide (Qden (this q) = 1%positive) then
          if bool_decide (Qnum (this q) ∈ map row_id t)
          then Raise (Exn "IntegrityError" "UNIQUE constraint failed: operaciones.id")
          else Ok (Qnum (this q))
        else Raise (Exn "IntegrityError" "datatype mismatch")
    | _ => Raise (Exn "IntegrityError" "datatype mismatch")
    end
  else Ok (next_id t).

(** The first column of [cols] that is [NULL] in [data], if any. *)
Definition null_violation (cols : list string) (data : gmap string Cell) : option string :=
  head (filter (fun c => cell data c = VNull) cols).

Definition not_null_error {A} (c : string) : result A :=
  Raise (Exn "IntegrityError" ("NOT NULL constraint failed: operaciones." +:+ c)).

(** The values one INSERT stores: the frame's columns other than [id]. *)
Definition stored_data (columns : list string) (row : gmap string Cell)
    : gmap string Cell :=
  list_to_map (map (fun c => (c, cell row c)) (filter (fun c => c <> "id") columns)).

(** One INSERT. *)
Definition insert_row (t : list StoredRow) (columns : list string)
    (row : gmap string Cell) : result (list StoredRow) :=
  let data := stored_data columns row in
  match null_violation not_null_columns data with
  | Some c => not_null_error c
  | None => i ← insert_id t columns row; Ok (t ++ [Stored i data])%list
  end.

Fixpoint insert_rows (t : list StoredRow) (columns : list string)
    (rows : list (gmap string Cell)) : result (list StoredRow) :=
  match rows with
  | [] => Ok t
  | row :: rows' => t' ← insert_row t columns row; insert_rows t' columns rows'
  end.

(** [frame.to_sql('operaciones', engine, if_exists='append', index=False)]
    on the existing table: every column of the frame must be a column of
    the table; the rows are inserted in one transaction, so a failure
    leaves the table as it was. *)
Definition to_sql_append (t : list StoredRow) (frame : DataFrame) : result (list StoredRow) :=
  match filter (fun c => c ∉ "id" :: table_columns) (df_columns frame) with
  | c :: _ =>
      Raise (Exn "OperationalError" ("table operaciones has no column named " +:+ c))
  | [] => insert_rows t (df_columns frame) (df_rows frame)
  end.

(** [row[col]] on a row of [iterrows()] *)
Definition getitem (columns : list string) (row : gmap string Cell) (col : string)
    : result Cell :=
  if bool_decide (col ∈ columns) then Ok (cell row col) else Raise (Exn "KeyError" col).

(** [pd.to_datetime(v).to_pydatetime() if pd.notna(v) else None] *)
Definition to_pydatetime (v : Cell) : result Cell :=
  match v with
  | VNull => Ok VNull
  | VTime t => Ok (VTime t)
  | _ => t ← datetime_of v; Ok (VTime t)
  end.

(** [float(v) if pd.notna(v) else None] *)
Definition to_float (v : Cell) : result Cell :=
  match v with
  | VNull => Ok VNull
  | VNum q => Ok (VNum q)
  | VStr s => q ← float_of_text s; Ok (VNum q)
  | VTime _ =>
      Raise (Exn "TypeError" "float() argument must be a string or a real number")
  end.

(** A cell passed as it is to the SQLite driver: a pandas Timestamp has no
    adapter. *)
Definition bind_param (v : Cell) : result Cell :=
  match v with
  | VTime _ => Raise (Exn "ProgrammingError" "Error binding parameter: type 'Timestamp' is not supported")
  | _ => Ok v
  end.

(** The parameters of the UPDATE for one row, in the order the source
    evaluates them: the SET clause as a map, and [:num_op]. *)
Definition update_params (columns : list string) (row : gmap string Cell)
    : result (gmap string Cell * Cell) :=
  let raw col := v ← getitem columns row col; bind_param v in
  fecha_op ← (v ← getitem columns row "fecha_operacion"; to_pydatetime v);
  fecha_carga ← (v ← getitem columns row "fecha_carga"; to_pydatetime v);
  tipo_op ← raw "tipo_operacion";
  monto ← (v ← getitem columns row "monto"; to_float v);
  moneda ← raw "moneda";
  cta_orig ← raw "cuenta_origen";
  cta_dest ← raw "cuenta_destino";
  banco_orig ← raw "banco_origen";
  banco_dest ← raw "banco_destino";
  desc ← raw "descripcion";
  estado ← raw "estado";
  canal ← raw "canal";
  hash ← raw "content_hash";
  num_op ← raw "numero_operacion";
  Ok (list_to_map
        [("fecha_carga", fecha_carga);
         ("fecha_operacion", fecha_op); ("tipo_operacion", tipo_op);
         ("monto", monto); ("moneda", moneda); ("cuenta_origen", cta_orig);
         ("cuenta_destino", cta_dest); ("banco_origen", banco_orig);
         ("banco_destino", banco_dest); ("descripcion", desc);
         ("estado", estado); ("canal", canal); ("content_hash", hash)],
      num_op).

(** [WHERE numero_operacion = :num_op]; NULL equals nothing. *)
Definition where_matches (num_op : Cell) (sr : StoredRow) : bool :=
  bool_decide (num_op <> VNull /\ cell (row_data sr) "numero_operacion" = num_op).

(** The UPDATE statement and its commit: every matching row takes the SET
    values; a NULL for a NOT NULL column fails the statement when a row
    matches. *)
Definition sql_update (t : list StoredRow) (set_clause : gmap string Cell)
    (num_op : Cell) : result (list StoredRow) :=
  match null_violation (filter (fun c => c <> "numero_operacion") not_null_columns)
          set_clause with
  | Some c => if existsb (where_matches num_op) t then not_null_error c
              else Ok t
  | None =>
      Ok (map (fun sr => if where_matches num_op sr
                         then Stored (row_id sr) (set_clause ∪ row_data sr)
                         else sr) t)
  end.

(** The loop over [update_rows.iterrows()]: each statement is committed on
    its own connection; an exception leaves the loop with the earlier
    statements committed.  Returns the table as it is in the database. *)
Fixpoint update_loop (t : list StoredRow) (columns : list string)
    (rows : list (gmap string Cell)) : list StoredRow * result unit :=
  match rows with
  | [] => (t, Ok tt)
  | row :: rows' =>
      match '(set_clause, num_op) ← update_params columns row;
            sql_update t set_clause num_op with
      | Ok t' => update_loop t' columns rows'
      | Raise e => (t, Raise e)
      end
  end.

(** [df_copy = df.copy(); df_copy['fecha_carga'] = pd.Timestamp.now()] *)
Definition stamp (df : DataFrame) (now : Z) : DataFrame :=
  Dedup.assign_column df "fecha_carga" (fun _ => VTime now).

(** [SQLLoader._upsert_sqlite] on the table [operaciones]: the table and
    the stats after the call, and whether it raised. *)
Definition _upsert_sqlite (stats : LoadStats) (t : list StoredRow)
    (df : DataFrame) (now : Z) : list StoredRow * LoadStats * result unit :=
  let df_copy := stamp df now in
  let existing_ids := map (fun sr => cell (row_data sr) "numero_operacion") t in
  if negb (has_column df_copy "numero_operacion")
  then (t, stats, Raise (Exn "KeyError" "numero_operacion"))
  else
    let isin (row : gmap string Cell) :=
      bool_decide (cell row "numero_operacion" ∈ existing_ids) in
    let new_rows := filter (fun row => isin row = false) (df_rows df_copy) in
    let update_rows := filter (fun row => isin row = true) (df_rows df_copy) in
    let inserted :=
      if bool_decide (0 < length new_rows)%nat
      then to_sql_append t (Frame (df_columns df_copy) new_rows)
      else Ok t in
    match inserted with
    | Raise e => (t, stats, Raise e)
    | Ok t1 =>
        let stats :=
          if bool_decide (0 < length new_rows)%nat
          then set_rows_inserted stats (Z.of_nat (length new_rows))
          else stats in
        if bool_decide (0 < length update_rows)%nat then
          match update_loop t1 (df_columns df_copy) update_rows with
          | (t2, Raise e) => (t2, stats, Raise e)
          | (t2, Ok _) =>
              (t2, set_rows_updated stats (Z.of_nat (length update_rows)), Ok tt)
          end
        else (t1, stats, Ok tt)
    end.

(** [SQLLoader._upsert_sqlserver]: the transaction, then
    [self.load_stats['rows_inserted'] = len(df)]. *)
Definition _upsert_sqlserver (stats : LoadStats) (t : list StoredRow)
    (df : DataFrame) (now : Z) : list StoredRow * LoadStats * result unit :=
  match merge_transaction t df now with
  | Raise e => (t, stats, Raise e)
  | Ok t' => (t', set_rows_inserted stats (len df), Ok tt)
  end.

(** [SQLLoader.upsert_data] with the default table and conflict columns.
    Returns the loader and the table after the call, and the copy of the
    stats returned or the exception raised. *)
Definition upsert_data (self : SQLLoader) (attempt : ConnAttempt)
    (t : list StoredRow) (df : DataFrame) (now : Z)
    : SQLLoader * list StoredRow * result LoadStats :=
  let '(self, connected) :=
    if engine self then (self, Ok tt) else connect self attempt in
  match connected with
  | Raise e => (self, t, Raise e)
  | Ok _ =>
      let stats := LStats 0 0 0 (len df) in
      let '(t', stats, r) :=
        if bool_decide (db_type self = "sqlite") then _upsert_sqlite stats t df now
        else if bool_decide (db_type self = "sqlserver") then _upsert_sqlserver stats t df now
        else (t, stats,
              Raise (Exn "ValueError" ("Unsupported database type: " +:+ db_type self))) in
      match r with
      | Raise e =>
          (LoaderObj (db_type self) (engine self) (set_rows_failed stats (len df)), t',
           Raise (Exn "RuntimeError" ("Failed to load data: " +:+ exn_str e)))
      | Ok _ => (LoaderObj (db_type self) (engine self) stats, t', Ok stats)
      end
  end.

(** The columns the UPDATE sets from the frame, and the text columns among
    the parameters. *)
Definition update_columns : list string :=
  ["fecha_operacion"; "tipo_operacion"; "monto"; "moneda"; "cuenta_origen";
   "cuenta_destino"; "banco_origen"; "banco_destino"; "descripcion"; "estado";
   "canal"; "content_hash"].

Definition text_columns : list string :=
  ["numero_operacion"; "tipo_operacion"; "moneda"; "cuenta_origen";
   "cuenta_destino"; "banco_origen"; "banco_destino"; "descripcion"; "estado";
   "canal"; "content_hash"].

(** A record as the pipeline hands it to the loader: the NOT NULL columns
    are filled, the amount is a number, the operation date a timestamp, no
    other field a timestamp.  Every record that passes the operational
    schema is of this kind. *)
Definition valid_record (row : gmap string Cell) : bool :=
  forallb (fun c => notna (cell row c)) not_null_columns
  && match cell row "monto" with VNum _ => true | _ => false end
  && match cell row "fecha_operacion" with VTime _ => true | _ => false end
  && forallb (fun c => match cell row c with VTime _ => false | _ => true end)
             text_columns.

(** A batch of valid records: its columns are columns of the table and
    include those the UPDATE reads, and no operation id occurs twice. *)
Definition valid_batch (df : DataFrame) : bool :=
  forallb (fun c => bool_decide (c ∈ table_columns)) (df_columns df)
  && forallb (has_column df) ("numero_operacion" :: update_columns)
  && forallb valid_record (df_rows df)
  && bool_decide (NoDup (map (fun row => cell row "numero_operacion") (df_rows df))).

(** For a valid record the cells are bound as they are: the SET clause of
    its UPDATE, apart from the load time, and what the statement does to a
    stored row. *)
Definition set_values (row : gmap string Cell) : gmap string Cell :=
  list_to_map (map (fun c => (c, cell row c)) update_columns).

Definition updated_by (now : Z) (row : gmap string Cell) (sr : StoredRow) : StoredRow :=
  if where_matches (cell row "numero_operacion") sr
  then Stored (row_id sr) (<["fecha_carga" := VTime now]> (set_values row) ∪ row_data sr)
  else sr.

End SQLLoader.
End Loader.

(** ** src/utils/metrics.py *)

Module Metrics.

Record PipelineMetrics := MkMetrics {
  pipeline_id : string;
  start_time : Z;
  end_time : option Z;
  input_file : string;
  input_rows : Z;
  validation_passed : Z;
  validation_failed : Z;
  validation_errors : list ErrorEntry;
  duplicates_found : Z;
  duplicates_removed : Z;
  rows_loaded : Z;
  rows_updated : Z;
  load_failed : Z;
  processing_time_seconds : Z;
  status : string;
  error_message : string
}.

#[global] Instance PipelineMetrics_eq_dec : EqDecision PipelineMetrics.
Proof. solve_decision. Defined.

(** [PipelineMetrics(pipeline_id=..., start_time=..., input_file=...)] with
    the dataclass defaults. *)
Definition new_metrics (pipeline_id : string) (start_time : Z) (input_file : string)
    : PipelineMetrics :=
  MkMetrics pipeline_id start_time None input_file 0 0 0 [] 0 0 0 0 0 0 "running" "".

Definition set_end_time (m : PipelineMetrics) (t : Z) : PipelineMetrics :=
  MkMetrics (pipeline_id m) (start_time m) (Some t) (input_file m) (input_rows m)
    (validation_passed m) (validation_failed m) (validation_errors m)
    (duplicates_found m) (duplicates_removed m) (rows_loaded m) (rows_updated m)
    (load_failed m) (processing_time_seconds m) (status m) (error_message m).

Definition set_input_rows (m : PipelineMetrics) (n : Z) : PipelineMetrics :=
  MkMetrics (pipeline_id m) (start_time m) (end_time m) (input_file m) n
    (validation_passed m) (validation_failed m) (validation_errors m)
    (duplicates_found m) (duplicates_removed m) (rows_loaded m) (rows_updated m)
    (load_failed m) (processing_time_seconds m) (status m) (error_message m).

Definition set_validation (m : PipelineMetrics) (passed failed : Z)
    (errs : list ErrorEntry) : PipelineMetrics :=
  MkMetrics (pipeline_id m) (start_time m) (end_time m) (input_file m) (input_rows m)
    passed failed errs
    (duplicates_found m) (duplicates_removed m) (rows_loaded m) (rows_updated m)
    (load_failed m) (processing_time_seconds m) (status m) (error_message m).

Definition set_duplicates (m : PipelineMetrics) (found removed : Z) : PipelineMetrics :=
  MkMetrics (pipeline_id m) (start_time m) (end_time m) (input_file m) (input_rows m)
    (validation_passed m) (validation_failed m) (validation_errors m)
    found removed (rows_loaded m) (rows_updated m)
    (load_failed m) (processing_time_seconds m) (status m) (error_message m).

Definition set_load (m : PipelineMetrics) (loaded updated failed : Z) : PipelineMetrics :=
  MkMetrics (pipeline_id m) (start_time m) (end_time m) (input_file m) (input_rows m)
    (validation_passed m) (validation_failed m) (validation_errors m)
    (duplicates_found m) (duplicates_removed m) loaded updated failed
    (processing_time_seconds m) (status m) (error_message m).

Definition set_processing_time (m : PipelineMetrics) (s : Z) : PipelineMetrics :=
  MkMetrics (pipeline_id m) (start_time m) (end_time m) (input_file m) (input_rows m)
    (validation_passed m) (validation_failed m) (validation_errors m)
    (duplicates_found m) (duplicates_removed m) (rows_loaded m) (rows_updated m)
    (load_failed m) s (status m) (error_message m).

Definition set_status (m : PipelineMetrics) (s : string) : PipelineMetrics :=
  MkMetrics (pipeline_id m) (start_time m) (end_time m) (input_file m) (input_rows m)
    (validation_passed m) (validation_failed m) (validation_errors m)
    (duplicates_found m) (duplicates_removed m) (rows_loaded m) (rows_updated m)
    (load_failed m) (processing_time_seconds m) s (error_message m).

Definition set_error_message (m : PipelineMetrics) (s : string) : PipelineMetrics :=
  MkMetrics (pipeline_id m) (start_time m) (end_time m) (input_file m) (input_rows m)
    (validation_passed m) (validation_failed m) (validation_errors m)
    (duplicates_found m) (duplicates_removed m) (rows_loaded m) (rows_updated m)
    (load_failed m) (processing_time_seconds m) (status m) s.

(** [PipelineMetrics.finalize]: the duration in clock ticks. *)
Definition finalize (m : PipelineMetrics) : PipelineMetrics :=
  match end_time m with
  | Some e => set_processing_time m (e - start_time m)
  | None => m
  end.

(** [PipelineMetrics.save]: the directory of metrics files, one per
    [pipeline_id]; writing a file replaces the one of that name. *)
Definition save (m : PipelineMetrics) (files : gmap string PipelineMetrics)
    : gmap string PipelineMetrics :=
  <[pipeline_id m := m]> files.

(** The formatting the collector applies to what it has computed:
    [f"{x:.2%}"], [f"{x:.2f}s"] and [datetime.isoformat()]. *)
Class PyFormat := {
  format_percent : Qc -> string;
  format_seconds : Qc -> string;
  isoformat : Z -> string
}.

(** The dictionary [MetricsCollector.get_aggregated_stats] returns. *)
Record AggregatedStats := MkAggregated {
  total_runs : Z;
  successful_runs : Z;
  success_rate : string;
  total_rows_processed : Z;
  total_rows_loaded : Z;
  avg_processing_time : string;
  last_run : string
}.

(** [sum(f(m) for m in all_metrics)] *)
Definition sum_over (f : PipelineMetrics -> Z) (all_metrics : list PipelineMetrics) : Z :=
  fold_right (fun m acc => f m + acc) 0 all_metrics.

(** [MetricsCollector.get_aggregated_stats] over the directory of metrics
    files, each read back as it was saved.  [get_all_metrics] sorts the
    records by start time, the latest first, so [all_metrics[0]] has the
    greatest start time; nothing else depends on the order.  An empty
    directory gives [{}], here [None]. *)
Definition get_aggregated_stats `{PyFormat} (files : gmap string PipelineMetrics)
    : option AggregatedStats :=
  let all_metrics := map snd (map_to_list files) in
  match all_metrics with
  | [] => None
  | m0 :: rest =>
      let total_runs := Z.of_nat (length all_metrics) in
      let successful_runs :=
        sum_over (fun m => if bool_decide (status m = "success") then 1 else 0)
                 all_metrics in
      let avg_processing_time :=
        (Q2Qc (inject_Z (sum_over processing_time_seconds all_metrics)) /
         Q2Qc (inject_Z total_runs))%Qc in
      Some (MkAggregated
              total_runs
              successful_runs
              (format_percent (Q2Qc (inject_Z successful_runs) /
                               Q2Qc (inject_Z total_runs))%Qc)
              (sum_over input_rows all_metrics)
              (sum_over rows_loaded all_metrics)
              (format_seconds avg_processing_time)
              (isoformat (fold_right Z.max (start_time m0) (map start_time rest))))
  end.

End Metrics.
Export Metrics.

(** ** scripts/run_etl_pipeline.py *)

Module Pipeline.
Import Loader.
Section ETLPipeline.
Context `{PyStr} `{PyConv} `{SqlServer}.

(** What a run meets outside the program: the clock, the input file, the
    schema the validator is built with, the file system, the database. *)
Record World := MkWorld {
  w_pipeline_id : string;
  w_start_time : Z;
  w_end_time : Z;
  w_load_time : Z;
  w_read_csv : string -> result DataFrame;
  w_schema : DataFrameSchema;
  w_to_csv : DataFrame -> result unit;
  w_db_type : string;
  w_connect : ConnAttempt;
  w_create_table : result unit
}.

(** The pipeline object's state while it runs: the metrics and the table
    [operaciones]. *)
Record RunState := MkState {
  metrics : PipelineMetrics;
  table : list StoredRow
}.

(** [ETLPipeline._extract] *)
Definition _extract (w : World) (st : RunState) (input_file : string)
    : RunState * result DataFrame :=
  match w_read_csv w input_file with
  | Raise e => (st, Raise e)
  | Ok df => (MkState (set_input_rows (metrics st) (len df)) (table st), Ok df)
  end.

(** [ETLPipeline._validate] *)
Definition _validate (w : World) (st : RunState) (df : DataFrame)
    : RunState * result (DataFrame * ValidationReport) :=
  match Validators.validate (w_schema w) df None with
  | Raise e => (st, Raise e)
  | Ok (validated_df, report) =>
      (MkState (set_validation (metrics st) (valid_rows report) (invalid_rows report)
                               (firstn 100 (errors report)))
               (table st),
       Ok (validated_df, report))
  end.

(** [ETLPipeline._deduplicate] *)
Definition _deduplicate (w : World) (st : RunState) (df : DataFrame)
    : RunState * result (DataFrame * Dedup.DedupStats) :=
  match snd (Dedup.deduplicate Dedup.new_engine df "hash" None) with
  | Raise e => (st, Raise e)
  | Ok (deduped_df, stats) =>
      let st := MkState (set_duplicates (metrics st) (Dedup.duplicates_found stats)
                                        (Dedup.duplicates_removed stats))
                        (table st) in
      match w_to_csv w deduped_df with
      | Raise e => (st, Raise e)
      | Ok _ => (st, Ok (deduped_df, stats))
      end
  end.

(** [ETLPipeline._load] *)
Definition _load (w : World) (st : RunState) (df : DataFrame)
    : RunState * result LoadStats :=
  let loader := new_loader (w_db_type w) in
  match connect loader (w_connect w) with
  | (_, Raise e) => (st, Raise e)
  | (loader, Ok _) =>
      match w_create_table w with
      | Raise e => (st, Raise e)
      | Ok _ =>
          match upsert_data loader (w_connect w) (table st) df (w_load_time w) with
          | (_, t, Raise e) => (MkState (metrics st) t, Raise e)
          | (_, t, Ok stats) =>
              (MkState (set_load (metrics st) (rows_inserted stats)
                                 (Loader.rows_updated stats) (rows_failed stats)) t,
               Ok stats)
          end
      end
  end.

(** The body of the [try] block of [ETLPipeline.run], up to the loading
    stage. *)
Definition stages (w : World) (st : RunState) (input_file : string)
    : RunState * result unit :=
  match _extract w st input_file with
  | (st, Raise e) => (st, Raise e)
  | (st, Ok df) =>
      match _validate w st df with
      | (st, Raise e) => (st, Raise e)
      | (st, Ok (df_validated, _)) =>
          match _deduplicate w st df_validated with
          | (st, Raise e) => (st, Raise e)
          | (st, Ok (df_deduped, _)) =>
              match _load w st df_deduped with
              | (st, Raise e) => (st, Raise e)
              | (st, Ok _) => (st, Ok tt)
              end
          end
      end
  end.

(** What a run leaves behind: the pipeline's metrics, the table, the
    metrics files, and the metrics returned or the exception re-raised. *)
Record RunResult := MkResult {
  final_metrics : PipelineMetrics;
  final_table : list StoredRow;
  metrics_files : gmap string PipelineMetrics;
  returned : result PipelineMetrics
}.

(** [ETLPipeline.run] *)
Definition run (w : World) (t : list StoredRow)
    (files : gmap string PipelineMetrics) (input_file : string) : RunResult :=
  let m := new_metrics (w_pipeline_id w) (w_start_time w) input_file in
  match stages w (MkState m t) input_file with
  | (st, Ok _) =>
      let m := finalize (set_status (set_end_time (metrics st) (w_end_time w)) "success") in
      MkResult m (table st) (save m files) (Ok m)
  | (st, Raise e) =>
      let m := finalize (set_error_message
                           (set_status (set_end_time (metrics st) (w_end_time w)) "failed")
                           (exn_str e)) in
      MkResult m (table st) (save m files) (Raise e)
  end.

End ETLPipeline.
End Pipeline.

(** ** Instances and sample data used to run the model *)

Module Samples.
Import Loader Pipeline.

(** A rendering of cells: a float prints as numerator/denominator, a
    timestamp as its tick count. *)
#[export] Instance plain_str : PyStr := {|
  str_float q := pretty (Qnum (this q)) +:+ "/" +:+ pretty (Qden (this q));
  str_timestamp t := pretty t;
  str_null := "nan"
|}.

(** Conversions that accept numbers and timestamps only. *)
#[export] Instance strict_conv : PyConv := {|
  float_of_text s := Raise (Exn "ValueError" ("could not convert string to float: " +:+ s));
  datetime_of c := Raise (Exn "TypeError" "not convertible to datetime")
|}.

(** A site without a SQL Server. *)
#[export] Instance no_sql_server : SqlServer := {|
  merge_transaction t df now := Raise (Exn "OperationalError" "server is not reachable")
|}.

Definition operation_columns : list string :=
  ["fecha_operacion"; "numero_operacion"; "tipo_operacion"; "monto"; "moneda";
   "cuenta_origen"; "cuenta_destino"; "banco_origen"; "banco_destino";
   "descripcion"; "estado"; "canal"].

(** A deposit through the web channel. *)
Definition operation (num_op : string) (monto : Qc) (fecha : Z) (tipo : Cell)
    : gmap string Cell :=
  list_to_map
    [("fecha_operacion", VTime fecha); ("numero_operacion", VStr num_op);
     ("tipo_operacion", tipo); ("monto", VNum monto); ("moneda", VStr "PEN");
     ("cuenta_origen", VStr "191-1234567-0-12"); ("cuenta_destino", VNull);
     ("banco_origen", VStr "BCP"); ("banco_destino", VNull);
     ("descripcion", VStr "pago"); ("estado", VStr "COMPLETADA");
     ("canal", VStr "WEB")].

Definition deposit (num_op : string) (monto : Z) : gmap string Cell :=
  operation num_op (Q2Qc (inject_Z monto)) 1700000000 (VStr "DEPOSITO").

(** [n] deposits numbered from [k], each of amount [monto]. *)
Fixpoint deposits (n : nat) (k : Z) (monto : Z) : list (gmap string Cell) :=
  match n with
  | O => []
  | S n' => deposit ("OP-" +:+ pretty k) monto :: deposits n' (k + 1) monto
  end.

(** The rule "Amount must be positive" of [OperationalSchema.get_schema],
    alone: one failure case per row whose [monto] is a number not above 0. *)
Definition positive_amount_cases (rows : list (gmap string Cell)) : list FailureCase :=
  omap (fun ir : nat * gmap string Cell =>
          match cell ir.2 "monto" with
          | VNum q => if bool_decide (q ≤ Q2Qc 0)%Qc
                      then Some (Case (IdxInt (Z.of_nat ir.1)) (Some "monto") "greater_than(0)")
                      else None
          | _ => None
          end)
       (imap pair rows).

Definition positive_amount_schema : DataFrameSchema := fun df =>
  match positive_amount_cases (df_rows df) with
  | [] => Validated df
  | cases => SchemaErrors (Cases true cases)
  end.

(** A schema whose only complaint is a missing column: the failure case
    has no row index. *)
Definition missing_column_schema (col : string) : DataFrameSchema := fun df =>
  if has_column df col then Validated df
  else SchemaErrors (Cases true [Case IdxNA (Some col) "column_in_dataframe"]).

(** Ten operations: the 3rd and the 7th are the same record, the 5th has
    the amount -50. *)
Definition scenario_a : DataFrame :=
  Frame operation_columns
    [deposit "OP-00000001" 100; deposit "OP-00000002" 100; deposit "OP-00000003" 100;
     deposit "OP-00000004" 100; deposit "OP-00000005" (-50); deposit "OP-00000006" 100;
     deposit "OP-00000003" 100; deposit "OP-00000008" 100; deposit "OP-00000009" 100;
     deposit "OP-00000010" 100].

(** The nine records of [scenario_a] that pass validation. *)
Definition scenario_a_valid : DataFrame :=
  Frame operation_columns
    (take 4 (df_rows scenario_a) ++ drop 5 (df_rows scenario_a)).

(** 101 operations, each with the amount -50. *)
Definition all_negative : DataFrame :=
  Frame operation_columns (deposits 101 1 (-50)).

(** [df] with the content hashes the deduplication engine computes. *)
Definition hashed (df : DataFrame) : DataFrame := Dedup._generate_content_hash df.

(** The table after OP-00000003 was loaded at time 900. *)
Definition one_stored_operation : list StoredRow :=
  [Stored 1 (<["fecha_carga" := VTime 900]>
              (<["content_hash" := VStr "0123456789abcdef"]>
                 (deposit "OP-00000003" 100)))].

(** A batch of two: OP-00000001 is new; OP-00000003 is in the table and
    comes without its operation type. *)
Definition batch_with_null_type : DataFrame :=
  hashed (Frame operation_columns
            [deposit "OP-00000001" 100;
             operation "OP-00000003" (Q2Qc 100) 1700000000 VNull]).



(** A loader for SQLite, connected. *)
Definition sqlite_loader : SQLLoader := LoaderObj "sqlite" true (LStats 0 0 0 0).



(** A batch of two valid records: OP-00000001, and OP-00000003 with the
    amount 250. *)
Definition two_operations : DataFrame :=
  hashed (Frame operation_columns
            [deposit "OP-00000001" 100; deposit "OP-00000003" 250]).

(** Scenario A end to end: the input is [scenario_a], every stage goes
    through, the database is SQLite. *)
Definition scenario_a_world : World := {|
  w_pipeline_id := "etl_20250101_000000";
  w_start_time := 1000;
  w_end_time := 1003;
  w_load_time := 1002;
  w_read_csv := fun _ => Ok scenario_a;
  w_schema := positive_amount_schema;
  w_to_csv := fun _ => Ok tt;
  w_db_type := "sqlite";
  w_connect := ConnOk;
  w_create_table := Ok tt
|}.

(** Scenario C: three records of OP-00000007 with the timestamps
    100 < 200 < 300, and one record of OP-00000008 between them. *)
Definition scenario_c : DataFrame :=
  Frame operation_columns
    [operation "OP-00000007" (Q2Qc 10) 100 (VStr "DEPOSITO");
     operation "OP-00000008" (Q2Qc 40) 100 (VStr "DEPOSITO");
     operation "OP-00000007" (Q2Qc 20) 200 (VStr "DEPOSITO");
     operation "OP-00000007" (Q2Qc 30) 300 (VStr "DEPOSITO")].

End Samples.

(** * Properties *)

(** Closed equations between results are settled by evaluating the
    decision procedure for equality. *)
Ltac by_evaluation := apply (bool_decide_unpack _); vm_compute; exact I.

(** ** hashlib *)

(** The test vectors of FIPS 180-4 for one and two blocks. *)
Example sha256_abc :
  Hashlib.sha256_hexdigest "abc" =
  "ba7816bf8f01cfea414140de5dae2223b00361a396177a9cb410ff61f20015ad".
Proof. vm_compute. reflexivity. Qed.

Example sha256_two_blocks :
  Hashlib.sha256_hexdigest
    "abcdbcdecdefdefgefghfghighijhijkijkljklmklmnlmnomnopnopq" =
  "248d6a61d20638b8e5c026930c3e6039a33ce45964ff2167f6ecedd419db06c1".
Proof. vm_compute. reflexivity. Qed.

Lemma sha256_hexdigest_length (s : string) :
  String.length (Hashlib.sha256_hexdigest s) = 64%nat.
Proof. reflexivity. Qed.

(** ** The validator *)

Section ValidatorFacts.
Context `{PyStr}.
Import Validators.

Lemma record_errors_spec (r : ValidationReport) (fcs : FailureCases) :
  record_errors r fcs =
  Report (total_rows r) (valid_rows r) (invalid_rows r)
         (errors r ++ map (fun c => Entry (case_index fcs c) (fc_column c) (fc_check c))
                          (fcs_rows fcs))
         (warnings r).
Proof.
  unfold record_errors. generalize (fcs_rows fcs) as cases.
  intros cases. revert r.
  induction cases as [|c cases IH]; intros r; simpl.
  - rewrite app_nil_r. by destruct r.
  - rewrite IH. simpl. by rewrite <- app_assoc.
Qed.

Lemma select_all_true {A} (l : list A) (mask : list bool) :
  length mask = length l -> Forall (fun b => b = true) mask -> select mask l = l.
Proof.
  revert mask. induction l as [|x l IH]; intros [|b mask] Hlen Hall; simpl in *;
    try done.
  inversion Hall as [|? ? Hb Hrest]; subst. rewrite IH; [done | lia | done].
Qed.

Lemma length_select_map {A} (f : nat -> bool) (l : list A) (k : nat) :
  length (select (map f (seq k (length l))) l) =
  length (filter (fun i => f i = true) (seq k (length l))).
Proof.
  revert k. induction l as [|x l IH]; intros k; simpl; [done|].
  rewrite filter_cons. destruct (decide (f k = true)) as [Hf|Hf].
  - rewrite Hf. simpl. by rewrite IH.
  - apply not_true_is_false in Hf. rewrite Hf. by rewrite IH.
Qed.

Lemma length_filter_split (f : nat -> bool) (l : list nat) :
  (length (filter (fun i => f i = true) l) +
   length (filter (fun i => f i = false) l) = length l)%nat.
Proof.
  induction l as [|x l IH]; simpl; [done|].
  rewrite !filter_cons.
  destruct (decide (f x = true)) as [Hf|Hf]; destruct (decide (f x = false)) as [Hg|Hg];
    simpl; try lia.
  - congruence.
  - by destruct (f x).
Qed.

(** The frame [_handle_schema_errors] returns, whichever branch it takes:
    the rows whose position is in no failure case. *)
Lemma handle_schema_errors_frame (r : ValidationReport) (df : DataFrame)
    (fcs : FailureCases) :
  (_handle_schema_errors r df fcs).1 =
  Frame (df_columns df)
        (select (valid_mask df (collect_invalid_indices fcs)) (df_rows df)).
Proof.
  unfold _handle_schema_errors. simpl. case_bool_decide as Hne; [done|].
  assert (collect_invalid_indices fcs = ∅) as -> by (destruct (decide (collect_invalid_indices fcs = ∅)); [done | by destruct Hne]).
  destruct df as [cols rows]; simpl. f_equal.
  symmetry. apply select_all_true.
  - unfold valid_mask. simpl. by rewrite length_map, length_seq.
  - unfold valid_mask. apply Forall_map, Forall_forall. intros i _. simpl.
    apply bool_decide_eq_true. set_solver.
Qed.

(** What a call of [validate] that returns went through: the schema run
    gave a frame and a report [r0]; the checksum stage, when asked for,
    summed [monto] and left [r0] alone or added one warning; the last
    assignment set [invalid_rows]. *)
Lemma validate_inv (schema : DataFrameSchema) (df : DataFrame)
    (expected : option Qc) (v : DataFrame) (r : ValidationReport) :
  validate schema df expected = Ok (v, r) ->
  exists r0 r1,
    match schema df with
    | Validated v0 =>
        v = v0 /\ r0 = set_valid_rows (set_total_rows new_report (len df)) (len v0)
    | SchemaErrors fcs =>
        (v, r0) = _handle_schema_errors (set_total_rows new_report (len df)) df fcs
    | SchemaFatal _ => False
    end /\
    match expected with
    | None => r1 = r0
    | Some e =>
        exists actual, column_sum v "monto" = Ok actual /\
          r1 = if bool_decide ([actual - e] < tolerance)%Qc then r0
               else add_warning r0 (checksum_warning e actual)
    end /\
    r = set_invalid_rows r1 (total_rows r1 - valid_rows r1).
Proof.
  unfold validate. intros Hv.
  destruct (schema df) as [v0|fcs|e]; [| |done].
  - simpl in Hv. destruct expected as [e|]; simpl in Hv.
    + unfold validate_checksum in Hv.
      destruct (column_sum v0 "monto") as [actual|?] eqn:Hsum; simpl in Hv; [|done].
      destruct (bool_decide _) eqn:Hb; simpl in Hv; inversion Hv; subst;
        eexists _, _; (split; [split; reflexivity|]);
        (split; [exists actual; rewrite Hb; split; [exact Hsum | reflexivity] | reflexivity]).
    + inversion Hv; subst. eexists _, _. repeat split; reflexivity.
  - destruct (_handle_schema_errors _ df fcs) as [v1 r0] eqn:Hh. simpl in Hv.
    destruct expected as [e|]; simpl in Hv.
    + unfold validate_checksum in Hv.
      destruct (column_sum v1 "monto") as [actual|?] eqn:Hsum; simpl in Hv; [|done].
      destruct (bool_decide _) eqn:Hb; simpl in Hv; inversion Hv; subst;
        eexists _, _; (split; [reflexivity|]);
        (split; [exists actual; rewrite Hb; split; [exact Hsum | reflexivity] | reflexivity]).
    + inversion Hv; subst. eexists _, _. repeat split; reflexivity.
Qed.

(** C3: for every input batch, the report returned by [validate] satisfies
    valid_rows + invalid_rows = total_rows, and total_rows is the number of
    input rows. *)
Theorem validate_partition_law (schema : DataFrameSchema) (df : DataFrame)
    (expected : option Qc) (v : DataFrame) (r : ValidationReport) :
  validate schema df expected = Ok (v, r) ->
  valid_rows r + invalid_rows r = total_rows r /\ total_rows r = len df.
Proof.
  intros Hv. apply validate_inv in Hv as (r0 & r1 & Hschema & Hsum & ->).
  assert (total_rows r0 = len df) as Htot.
  { destruct (schema df) as [v0|fcs|e]; [| |done].
    - by destruct Hschema as [_ ->].
    - unfold _handle_schema_errors in Hschema. inversion Hschema; subst.
      simpl. by rewrite record_errors_spec. }
  assert (total_rows r1 = total_rows r0) as Htot1.
  { destruct expected as [e|]; [|by subst].
    destruct Hsum as (actual & _ & ->). by case_bool_decide. }
  simpl. split; [lia | congruence].
Qed.
Lemma collect_invalid_indices_empty (fcs : FailureCases) :
  fcs_has_index fcs = false \/
  Forall (fun c => int_of_index (fc_index c) = None) (fcs_rows fcs) ->
  collect_invalid_indices fcs = ∅.
Proof.
  unfold collect_invalid_indices. intros [->|Hall]; [done|].
  destruct (fcs_has_index fcs); [|done].
  induction Hall as [|c cases Hc _ IH]; [done|].
  simpl. unfold dropna in *. rewrite filter_cons.
  destruct (decide (fc_index c <> IdxNA)); simpl; [|exact IH].
  rewrite Hc. exact IH.
Qed.

(** C10: when the schema run fails and no failure case carries a row index
    that [int()] accepts, [validate] returns the whole input batch as valid:
    valid_rows = total_rows and invalid_rows = 0, with a non-empty error
    list. *)
Theorem validate_without_row_index_keeps_all (schema : DataFrameSchema)
    (df : DataFrame) (expected : option Qc) (fcs : FailureCases) :
  schema df = SchemaErrors fcs ->
  fcs_rows fcs <> [] ->
  (fcs_has_index fcs = false \/
   Forall (fun c => int_of_index (fc_index c) = None) (fcs_rows fcs)) ->
  (exists r, validate schema df None = Ok (df, r)) /\
  forall v r, validate schema df expected = Ok (v, r) ->
    v = df /\ valid_rows r = total_rows r /\ invalid_rows r = 0 /\
    valid_rows r = len df /\ errors r <> [].
Proof.
  intros Hschema Hcases Hnoidx.
  pose proof (collect_invalid_indices_empty fcs Hnoidx) as Hempty.
  assert (forall r0, _handle_schema_errors r0 df fcs =
                     (df, set_valid_rows (record_errors r0 fcs) (len df))) as Hh.
  { intros r0. unfold _handle_schema_errors. rewrite Hempty.
    rewrite bool_decide_eq_false_2; [done|]. by intros []. }
  split.
  - unfold validate. rewrite Hschema, Hh. simpl. eauto.
  - intros v r Hv. apply validate_inv in Hv as (r0 & r1 & Hs & Hsum & ->).
    rewrite Hschema, Hh in Hs. inversion Hs; subst v r0. clear Hs.
    assert (total_rows r1 = len df /\ valid_rows r1 = len df /\
            errors r1 = map (fun c => Entry (case_index fcs c) (fc_column c) (fc_check c))
                            (fcs_rows fcs)) as (Ht & Hval & Herr).
    { destruct expected as [e|].
      - destruct Hsum as (actual & _ & ->).
        case_bool_decide; simpl; by rewrite record_errors_spec.
      - subst r1. simpl. by rewrite record_errors_spec. }
    simpl. rewrite Ht, Hval, Herr. repeat split; try lia.
    destruct (fcs_rows fcs); [done | discriminate].
Qed.


End ValidatorFacts.

Section ReportedErrors.
Context `{PyStr}.
Import Validators Pipeline.

Lemma valid_rows_count (df : DataFrame) (invalid : gset Z) :
  len (Frame (df_columns df) (select (valid_mask df invalid) (df_rows df))) =
  len df -
  Z.of_nat (length (filter (fun i => Z.of_nat i ∈ invalid)
                           (seq 0 (length (df_rows df))))).
Proof.
  unfold len, valid_mask. simpl.
  rewrite (length_select_map (fun i => bool_decide (Z.of_nat i ∉ invalid))).
  pose proof (length_filter_split (fun i => bool_decide (Z.of_nat i ∉ invalid))
                (seq 0 (length (df_rows df)))) as Hsplit.
  rewrite length_seq in Hsplit.
  replace (filter (fun i => Z.of_nat i ∈ invalid) (seq 0 (length (df_rows df))))
    with (filter (fun i => bool_decide (Z.of_nat i ∉ invalid) = false)
                 (seq 0 (length (df_rows df)))); [lia|].
  apply list_filter_iff. intros i. rewrite bool_decide_eq_false.
  split; [apply dec_stable | by intros ? ?].
Qed.

(** C4, as the code has it: when the schema run reports failure cases,
    [validate] lists every one of them in [report.errors], in order and
    without a cap; the frame it returns holds the rows whose position is
    the index of no failure case; [invalid_rows] counts the rows left out.
    The first-100 cut is made by the orchestrator, on the copy of the list
    it stores in the run metrics. *)
Theorem validate_lists_every_violation (schema : DataFrameSchema) (df : DataFrame)
    (expected : option Qc) (fcs : FailureCases) (v : DataFrame)
    (r : ValidationReport) :
  schema df = SchemaErrors fcs ->
  validate schema df expected = Ok (v, r) ->
  errors r = map (fun c => Entry (case_index fcs c) (fc_column c) (fc_check c))
                 (fcs_rows fcs) /\
  v = Frame (df_columns df)
            (select (valid_mask df (collect_invalid_indices fcs)) (df_rows df)) /\
  invalid_rows r =
    Z.of_nat (length (filter (fun i => Z.of_nat i ∈ collect_invalid_indices fcs)
                             (seq 0 (length (df_rows df))))) /\
  forall w st, w_schema w = schema ->
    exists rep,
      (_validate w st df).2 = Ok (v, rep) /\
      validation_errors (metrics (_validate w st df).1) = firstn 100 (errors r) /\
      validation_failed (metrics (_validate w st df).1) = invalid_rows r.
Proof.
  intros Hschema Hv.
  apply validate_inv in Hv as (r0 & r1 & Hs & Hsum & ->).
  rewrite Hschema in Hs.
  pose proof (handle_schema_errors_frame (set_total_rows new_report (len df)) df fcs)
    as Hframe.
  rewrite <- Hs in Hframe. simpl in Hframe. subst v.
  assert (r0 = set_valid_rows (record_errors (set_total_rows new_report (len df)) fcs)
                 (len (Frame (df_columns df)
                         (select (valid_mask df (collect_invalid_indices fcs))
                                 (df_rows df))))) as Hr0.
  { pose proof (handle_schema_errors_frame (set_total_rows new_report (len df)) df fcs)
      as Hf.
    unfold _handle_schema_errors in Hs, Hf. simpl in Hf.
    inversion Hs as [[Hv0 Hr]]. rewrite <- Hf. reflexivity. }
  assert (errors r1 = errors r0 /\ total_rows r1 = total_rows r0 /\
          valid_rows r1 = valid_rows r0) as (He1 & Ht1 & Hv1).
  { destruct expected as [e|]; [|by subst].
    destruct Hsum as (actual & _ & ->). by case_bool_decide. }
  assert (errors r0 = map (fun c => Entry (case_index fcs c) (fc_column c) (fc_check c))
                          (fcs_rows fcs)) as Herr.
  { rewrite Hr0. simpl. by rewrite record_errors_spec. }
  assert (total_rows r0 - valid_rows r0 =
          Z.of_nat (length (filter (fun i => Z.of_nat i ∈ collect_invalid_indices fcs)
                                   (seq 0 (length (df_rows df)))))) as Hcount.
  { rewrite Hr0. simpl. rewrite record_errors_spec. simpl.
    rewrite valid_rows_count. lia. }
  simpl. rewrite He1, Ht1, Hv1, Herr, Hcount.
  split; [done|]. split; [done|]. split; [done|].
  intros w st Hw. unfold _validate, validate. rewrite Hw, Hschema, <- Hs. simpl.
  eexists. split; [reflexivity|]. rewrite Herr. split; [done|]. lia.
Qed.

End ReportedErrors.

Section ValidatorRuns.
Import Validators Pipeline Samples.

(** Scenario A, validation: nine valid rows, one error at row index 4
    (the 5th record), column [monto]. *)
Lemma validate_partition_law_witness :
  let v := scenario_a_valid in
  let r := Report 10 9 1 [Entry (IdxInt 4) (Some "monto") "greater_than(0)"] [] in
  validate positive_amount_schema scenario_a None = Ok (v, r) /\
  valid_rows r + invalid_rows r = total_rows r /\ total_rows r = len scenario_a.
Proof.
  intros v r.
  assert (validate positive_amount_schema scenario_a None = Ok (v, r)) as Hv
    by by_evaluation.
  split; [exact Hv|]. exact (validate_partition_law _ _ _ _ _ Hv).
Defined.


Lemma validate_without_row_index_keeps_all_witness :
  let df := Frame ["monto"] [{["monto" := VNum (Q2Qc 10)]}; {["monto" := VNull]}] in
  (exists r, validate (missing_column_schema "canal") df None = Ok (df, r)) /\
  forall v r, validate (missing_column_schema "canal") df None = Ok (v, r) ->
    v = df /\ valid_rows r = total_rows r /\ invalid_rows r = 0 /\
    valid_rows r = len df /\ errors r <> [].
Proof.
  intros df.
  apply (validate_without_row_index_keeps_all (missing_column_schema "canal") df None
           (Cases true [Case IdxNA (Some "canal") "column_in_dataframe"])).
  - reflexivity.
  - discriminate.
  - right. repeat constructor.
Defined.

(** C4 as stated fails: with 101 failure cases the report lists 101
    errors, not at most 100. *)
Lemma validate_errors_not_capped :
  exists v r,
    validate positive_amount_schema all_negative None = Ok (v, r) /\
    length (errors r) = 101%nat /\ ~ (length (errors r) <= 100)%nat.
Proof.
  exists (Frame operation_columns []),
         (Report 101 0 101
            (map (fun i => Entry (IdxInt (Z.of_nat i)) (Some "monto") "greater_than(0)")
                 (seq 0 101)) []).
  split; [by_evaluation|].
  assert (length (map (fun i => Entry (IdxInt (Z.of_nat i)) (Some "monto") "greater_than(0)")
                      (seq 0 101)) = 101%nat) as Hlen by (vm_compute; reflexivity).
  split; [exact Hlen|]. intros Hle.
  exact (Nat.nle_succ_diag_l 100 (eq_ind _ (fun n => (n <= 100)%nat) Hle _ Hlen)).
Qed.

Lemma validate_lists_every_violation_witness :
  let v := Frame operation_columns [] in
  let r := Report 101 0 101
             (map (fun i => Entry (IdxInt (Z.of_nat i)) (Some "monto") "greater_than(0)")
                  (seq 0 101)) [] in
  validate positive_amount_schema all_negative None = Ok (v, r) /\
  length (errors r) = 101%nat /\ invalid_rows r = 101 /\
  forall w st, w_schema w = positive_amount_schema ->
    length (validation_errors (metrics (_validate w st all_negative).1)) = 100%nat.
Proof.
  intros v r.
  assert (validate positive_amount_schema all_negative None = Ok (v, r)) as Hv
    by by_evaluation.
  destruct (validate_lists_every_violation positive_amount_schema all_negative None
              (Cases true (positive_amount_cases (df_rows all_negative))) v r)
    as (Herr & Hframe & Hinv & Hpipe); [by_evaluation | exact Hv |].
  split; [exact Hv|].
  split; [vm_compute; reflexivity|].
  split; [reflexivity|].
  intros w st Hw. destruct (Hpipe w st Hw) as (rep & _ & -> & _).
  vm_compute. reflexivity.
Defined.

End ValidatorRuns.

(** ** The deduplication engine *)

Section DuplicatedFacts.

Lemma length_duplicated_keys (seen keys : list (list Cell)) :
  length (duplicated_keys seen keys) = length keys.
Proof.
  revert seen. induction keys as [|k keys IH]; intros seen; simpl; [done|].
  by rewrite IH.
Qed.

(** A row is flagged exactly when its key is in [seen] or is the key of an
    earlier row. *)
Lemma duplicated_keys_lookup (seen keys : list (list Cell)) (i : nat) :
  duplicated_keys seen keys !! i = Some true <->
  exists k, keys !! i = Some k /\
    (k ∈ seen \/ exists j, (j < i)%nat /\ keys !! j = Some k).
Proof.
  revert seen i. induction keys as [|k0 keys IH]; intros seen i; simpl.
  - split; [done|]. by intros (k & ? & _).
  - destruct i as [|i]; simpl.
    + split.
      * intros Hb. exists k0. split; [done|]. left.
        inversion Hb as [Hb']. by apply bool_decide_eq_true in Hb'.
      * intros (k & Hk & [Hin | (j & Hj & _)]); [|lia].
        inversion Hk; subst. f_equal. by apply bool_decide_eq_true.
    + rewrite IH. split.
      * intros (k & Hk & [Hin | (j & Hj & Hkj)]); exists k; (split; [done|]).
        -- apply elem_of_cons in Hin as [->|Hin]; [|by left].
           right. exists 0%nat. split; [lia | done].
        -- right. exists (S j). split; [lia | done].
      * intros (k & Hk & [Hin | (j & Hj & Hkj)]); exists k; (split; [done|]).
        -- left. by apply elem_of_cons; right.
        -- destruct j as [|j]; simpl in Hkj.
           ++ inversion Hkj; subst. left. by apply elem_of_cons; left.
           ++ right. exists j. split; [lia | done].
Qed.

Lemma select_map {A B} (f : A -> B) (mask : list bool) (l : list A) :
  select mask (map f l) = map f (select mask l).
Proof.
  revert mask. induction l as [|x l IH]; intros [|[] mask]; simpl; try done;
    by rewrite IH.
Qed.

Lemma length_select_negb {A} (mask : list bool) (l : list A) :
  length mask = length l ->
  (length (select (map negb mask) l) + length (filter (fun b => b = true) mask)
   = length l)%nat.
Proof.
  revert mask. induction l as [|x l IH]; intros [|b mask] Hlen; simpl in *;
    try done.
  rewrite filter_cons. injection Hlen as Hlen. specialize (IH mask Hlen).
  destruct b; simpl; lia.
Qed.

(** The rows that are not flagged: their keys are pairwise distinct, none
    is in [seen], and every key of the input is in [seen] or among them. *)
Lemma kept_keys (seen keys : list (list Cell)) :
  let kept := select (map negb (duplicated_keys seen keys)) keys in
  NoDup kept /\
  (forall k, k ∈ kept -> (k ∉ seen) /\ (k ∈ keys)) /\
  (forall k, k ∈ keys -> k ∈ seen \/ k ∈ kept).
Proof.
  revert seen. induction keys as [|k0 keys IH]; intros seen; simpl.
  - split; [constructor|]. split; [by intros k Hk; inversion Hk|].
    by intros k Hk; inversion Hk.
  - destruct (IH (k0 :: seen)) as (Hnd & Hkept & Hall).
    case_bool_decide as Hin; simpl.
    + split; [done|]. split.
      * intros k Hk. destruct (Hkept k Hk) as [Hns Hk']. split.
        -- intros ?. apply Hns. by apply elem_of_cons; right.
        -- by apply elem_of_cons; right.
      * intros k Hk. apply elem_of_cons in Hk as [->|Hk]; [by left|].
        destruct (Hall k Hk) as [Hs|Hs]; [|by right].
        apply elem_of_cons in Hs as [->|Hs]; by left.
    + split; [|split].
      * constructor; [|done]. intros Hk. destruct (Hkept k0 Hk) as [Hns _].
        apply Hns. by apply elem_of_cons; left.
      * intros k Hk. apply elem_of_cons in Hk as [->|Hk].
        -- split; [done | by apply elem_of_cons; left].
        -- destruct (Hkept k Hk) as [Hns Hk']. split.
           ++ intros ?. apply Hns. by apply elem_of_cons; right.
           ++ by apply elem_of_cons; right.
      * intros k Hk. apply elem_of_cons in Hk as [->|Hk].
        -- right. by apply elem_of_cons; left.
        -- destruct (Hall k Hk) as [Hs|Hs].
           ++ apply elem_of_cons in Hs as [->|Hs]; [right | by left].
              by apply elem_of_cons; left.
           ++ right. by apply elem_of_cons; right.
Qed.

(** [df[~mask]] leaves out as many rows as the mask flags. *)
Lemma drop_flagged_count (df res : DataFrame) (mask : list bool) :
  Dedup.drop_flagged df mask = Ok res ->
  res = Frame (df_columns df) (select (map negb mask) (df_rows df)) /\
  length mask = length (df_rows df) /\
  len res = len df - mask_sum mask /\ 0 <= mask_sum mask <= len df.
Proof.
  unfold Dedup.drop_flagged, getitem_mask. rewrite length_map.
  case_bool_decide as Hlen; [|done]. intros Hres. inversion Hres; subst res.
  split; [done|]. split; [done|].
  pose proof (length_select_negb mask (df_rows df) Hlen) as Hcount.
  unfold len, mask_sum. simpl. lia.
Qed.

End DuplicatedFacts.

Section DedupFacts.
Context `{PyStr}.
Import Dedup.

Lemma len_generate_content_hash (df : DataFrame) :
  len (_generate_content_hash df) = len df.
Proof. unfold len, _generate_content_hash, assign_column. simpl. by rewrite length_map. Qed.

Lemma has_content_hash_after (df : DataFrame) :
  has_column (if has_column df "content_hash" then df else _generate_content_hash df)
             "content_hash" = true.
Proof.
  destruct (has_column df "content_hash") eqn:Hc; [done|].
  unfold _generate_content_hash, assign_column. unfold has_column at 1.
  cbn [df_columns]. rewrite Hc. apply bool_decide_eq_true. set_solver.
Qed.

(** On a frame that has the column, [duplicated(['content_hash'])] returns
    a mask as long as the frame. *)
Lemma duplicated_content_hash (df : DataFrame) :
  has_column df "content_hash" = true ->
  exists mask,
    duplicated df ["content_hash"] = Ok mask /\
    length mask = length (df_rows df) /\
    mask = duplicated_keys [] (map (key_of ["content_hash"]) (df_rows df)).
Proof.
  intros Hc. unfold duplicated, empty.
  destruct df as [cols rows]; simpl in *.
  destruct cols as [|c cols].
  { discriminate Hc. }
  destruct rows as [|row rows]; [by exists [] |].
  simpl. rewrite Hc. simpl. eexists. split; [done|]. split; [|done].
  simpl. by rewrite length_duplicated_keys, length_map.
Qed.

(** The hash strategy always returns: the mask is the one [duplicated]
    computes on the content hashes, the result the rows it does not flag. *)
Lemma deduplicate_by_hash_returns (self : DedupStats) (df : DataFrame)
    (key_columns : option (list string)) :
  let df' := if has_column df "content_hash" then df else _generate_content_hash df in
  exists mask res stats self',
    deduplicate self df "hash" key_columns = (self', Ok (res, stats)) /\
    mask = duplicated_keys [] (map (key_of ["content_hash"]) (df_rows df')) /\
    length mask = length (df_rows df') /\
    len df' = len df /\
    res = Frame (df_columns df') (select (map negb mask) (df_rows df')) /\
    total_input stats = len df /\
    duplicates_found stats = mask_sum mask /\
    final_count stats = len res /\
    duplicates_removed stats = len df - len res.
Proof.
  intros df'.
  destruct (duplicated_content_hash df' (has_content_hash_after df))
    as (mask & Hdup & Hlen & Hmask).
  assert (len df' = len df) as Hlen'.
  { unfold df'. destruct (has_column df "content_hash"); [done|].
    apply len_generate_content_hash. }
  exists mask. eexists _, _, _. split.
  { unfold deduplicate. simpl. unfold _deduplicate_by_hash. fold df'.
    rewrite Hdup. unfold drop_flagged, getitem_mask. rewrite length_map.
    rewrite bool_decide_eq_true_2 by done. reflexivity. }
  repeat split; done.
Qed.

(** C5: under the hash strategy [deduplicate] returns; a record is removed
    exactly when an earlier record of the input has the same content_hash,
    so the earliest record of every group of equal hashes is kept and the
    others go: the hashes of the result are pairwise distinct and are those
    of the input; [duplicates_found] is the number of records removed. *)
Theorem hash_dedup_keeps_first (self : DedupStats) (df : DataFrame)
    (key_columns : option (list string)) :
  let df' := if has_column df "content_hash" then df else _generate_content_hash df in
  let hash_of := fun row : gmap string Cell => cell row "content_hash" in
  let hashes := map hash_of (df_rows df') in
  exists mask res stats self',
    deduplicate self df "hash" key_columns = (self', Ok (res, stats)) /\
    length mask = length (df_rows df') /\
    (forall i, mask !! i = Some true <->
       exists j h, (j < i)%nat /\ hashes !! j = Some h /\ hashes !! i = Some h) /\
    res = Frame (df_columns df') (select (map negb mask) (df_rows df')) /\
    NoDup (map hash_of (df_rows res)) /\
    (forall h, h ∈ hashes <-> h ∈ map hash_of (df_rows res)) /\
    duplicates_found stats = Z.of_nat (length (filter (fun b => b = true) mask)) /\
    duplicates_found stats = len df - len res.
Proof.
  intros df' hash_of hashes.
  destruct (deduplicate_by_hash_returns self df key_columns)
    as (mask & res & stats & self' & Hd & Hmask & Hlen & Hlen' & Hres &
        _ & Hfound & _ & _).
  fold df' in Hmask, Hlen, Hlen', Hres.
  assert (map (key_of ["content_hash"]) (df_rows df') = map (fun h => [h]) hashes)
    as Hkeys.
  { unfold hashes. rewrite map_map. done. }
  exists mask, res, stats, self'. split; [exact Hd|].
  split; [done|]. split.
  { intros i. rewrite Hmask, Hkeys, duplicated_keys_lookup. split.
    - intros (k & Hk & [Hin | (j & Hj & Hkj)]); [by inversion Hin|].
      rewrite list_lookup_fmap in Hk, Hkj.
      destruct (hashes !! i) as [h|] eqn:Hi; [|done].
      destruct (hashes !! j) as [h'|] eqn:Hj'; [|done].
      simpl in *. exists j, h. split; [done|]. split; [|done].
      congruence.
    - intros (j & h & Hj & Hhj & Hhi). exists [h].
      rewrite !list_lookup_fmap, Hhi. split; [done|].
      right. exists j. by rewrite list_lookup_fmap, Hhj. }
  split; [done|].
  pose proof (kept_keys [] (map (key_of ["content_hash"]) (df_rows df')))
    as (Hnd & Hkept & Hall).
  rewrite <- Hmask in *. rewrite Hkeys in *.
  rewrite select_map in *.
  rewrite Hres. cbn [df_rows].
  replace (map hash_of (select (map negb mask) (df_rows df')))
    with (select (map negb mask) hashes) by (unfold hashes; apply select_map).
  split.
  { eapply (NoDup_fmap_1 (fun h : Cell => [h])). exact Hnd. }
  split.
  { intros h. split.
    - intros Hh. destruct (Hall [h]) as [Hs|Hs].
      + apply list_elem_of_fmap. by exists h.
      + by inversion Hs.
      + apply list_elem_of_fmap in Hs as (h' & Heq & Hh'). by inversion Heq; subst.
    - intros Hh. destruct (Hkept [h]) as [_ Hk].
      + apply list_elem_of_fmap. by exists h.
      + apply list_elem_of_fmap in Hk as (h' & Heq & Hh'). by inversion Heq; subst. }
  split; [exact Hfound|].
  pose proof (length_select_negb mask (df_rows df') Hlen) as Hcount.
  rewrite Hfound. unfold mask_sum, len in *. simpl. lia.
Qed.

(** C6: for the hash and key strategies the stats returned by
    [deduplicate] satisfy final_count = total_input - duplicates_removed,
    duplicates_removed = duplicates_found and final_count <= total_input,
    with total_input and final_count the sizes of the input and of the
    result.  The hash strategy always returns; the key strategy raises only
    when the key columns are empty or not all in the frame, or the frame
    has no column. *)
Theorem dedup_count_law (self : DedupStats) (df : DataFrame) (strategy : string)
    (key_columns : option (list string)) :
  strategy = "hash" \/ strategy = "key" ->
  match (deduplicate self df strategy key_columns).2 with
  | Ok (res, stats) =>
      total_input stats = len df /\ final_count stats = len res /\
      final_count stats = total_input stats - duplicates_removed stats /\
      duplicates_removed stats = duplicates_found stats /\
      final_count stats <= total_input stats /\ 0 <= duplicates_removed stats
  | Raise e =>
      strategy = "key" /\
      let keys := default ["numero_operacion"] key_columns in
      keys = [] \/ forallb (has_column df) keys = false \/ df_columns df = []
  end.
Proof.
  intros [-> | ->].
  - destruct (deduplicate_by_hash_returns self df key_columns)
      as (mask & res & stats & self' & Hd & _ & Hlen & Hlen' & Hres &
          Htotal & Hfound & Hfinal & Hremoved).
    rewrite Hd. cbn [snd].
    pose proof (length_select_negb mask _ Hlen) as Hsel.
    assert (len res = len df - mask_sum mask /\ 0 <= mask_sum mask) as [Hres' Hpos].
    { rewrite Hres. unfold len, mask_sum in *. simpl. lia. }
    lia.
  - unfold deduplicate. simpl. unfold _deduplicate_by_key.
    set (keys := default ["numero_operacion"] key_columns).
    destruct (duplicated df keys) as [mask|e] eqn:Hdup; simpl.
    + destruct (drop_flagged df mask) as [res|e] eqn:Hdrop; simpl.
      * apply drop_flagged_count in Hdrop as (_ & _ & Hl & Hm). lia.
      * split; [done|]. unfold duplicated in Hdup.
        destruct (empty df) eqn:Hempty.
        -- inversion Hdup; subst mask.
           unfold drop_flagged, getitem_mask in Hdrop. simpl in Hdrop.
           unfold empty in Hempty.
           destruct (df_columns df); [by right; right|].
           destruct (df_rows df); [done|done].
        -- destruct (forallb (has_column df) keys) eqn:Hall; simpl in Hdup; [|done].
           destruct keys; [done|]. inversion Hdup; subst mask.
           unfold drop_flagged, getitem_mask in Hdrop.
           rewrite length_map, length_duplicated_keys, length_map in Hdrop.
           by rewrite bool_decide_eq_true_2 in Hdrop.
    + split; [done|]. unfold duplicated in Hdup.
      destruct (empty df); [done|].
      destruct (forallb (has_column df) keys) eqn:Hall; simpl in Hdup.
      * destruct keys; [by left | done].
      * by right; left.
Qed.

(** C7: the content hash of a record is the first 16 characters of the
    SHA-256 hex digest of the concatenation of [str] of its operation id,
    amount, timestamp and source account; two records that agree on these
    four fields have the same hash, whatever their other fields hold.  The
    validator's and the deduplication engine's computations coincide on a
    frame that has the four columns. *)
Theorem content_hash_deterministic (df : DataFrame) (r1 r2 : gmap string Cell) :
  (forall col, col ∈ Validators.hash_columns -> cell r1 col = cell r2 col) ->
  Validators.row_content_hash r1 = Validators.row_content_hash r2 /\
  create_hash df r1 = create_hash df r2 /\
  Validators.row_content_hash r1 =
    String.substring 0 16
      (Hashlib.sha256_hexdigest
         (py_str (cell r1 "numero_operacion") +:+ py_str (cell r1 "monto") +:+
          py_str (cell r1 "fecha_operacion") +:+ py_str (cell r1 "cuenta_origen"))) /\
  String.length (Validators.row_content_hash r1) = 16%nat /\
  (exists h, create_hash df r1 = VStr h /\ String.length h = 16%nat) /\
  (forallb (has_column df) Validators.hash_columns = true ->
   create_hash df r1 = VStr (Validators.row_content_hash r1)).
Proof.
  intros Hsame.
  assert (forall cols, cols ⊆ Validators.hash_columns ->
            map (fun col => py_str (cell r1 col)) cols =
            map (fun col => py_str (cell r2 col)) cols) as Hmap.
  { intros cols Hsub. apply map_ext_in. intros col Hin.
    rewrite Hsame; [done|]. apply Hsub. by apply list_elem_of_In. }
  split.
  { unfold Validators.row_content_hash. by rewrite Hmap. }
  split.
  { unfold create_hash. rewrite Hmap; [done|].
    intros col Hcol. apply list_elem_of_filter in Hcol as [_ Hcol]. exact Hcol. }
  split.
  { reflexivity. }
  split; [reflexivity|].
  split; [eexists; split; reflexivity|].
  intros Hall. unfold create_hash, Validators.row_content_hash. do 3 f_equal.
  simpl in Hall. repeat (apply andb_prop in Hall as [? Hall]).
  unfold hash_columns. rewrite !filter_cons, filter_nil.
  repeat (rewrite decide_True by assumption). reflexivity.
Qed.

End DedupFacts.

Section DedupRuns.
Import Dedup Samples.

(** Scenario A, deduplication: of the nine valid records the second copy of
    OP-00000003 is removed; eight remain. *)
Lemma dedup_count_law_witness :
  match (deduplicate new_engine scenario_a_valid "hash" None).2 with
  | Ok (res, stats) =>
      stats = DStats 9 1 1 8 /\
      total_input stats = len scenario_a_valid /\ final_count stats = len res /\
      final_count stats = total_input stats - duplicates_removed stats /\
      duplicates_removed stats = duplicates_found stats /\
      final_count stats <= total_input stats /\ 0 <= duplicates_removed stats
  | Raise e => False
  end.
Proof.
  pose proof (dedup_count_law new_engine scenario_a_valid "hash" None
                (or_introl eq_refl)) as Hlaw.
  assert (match (deduplicate new_engine scenario_a_valid "hash" None).2 with
          | Ok (_, stats) => stats
          | Raise _ => new_engine
          end = DStats 9 1 1 8) as Hstats by by_evaluation.
  destruct (deduplicate new_engine scenario_a_valid "hash" None).2 as [[res stats]|e].
  - split; [exact Hstats | exact Hlaw].
  - destruct Hlaw as [Hkey _]. discriminate Hkey.
Defined.

(** Two records with the same operation id, amount, timestamp and source
    account, one a completed deposit and the other a failed withdrawal. *)
Lemma content_hash_deterministic_witness :
  let r1 := operation "OP-00000001" (Q2Qc 100) 1700000000 (VStr "DEPOSITO") in
  let r2 := <["estado" := VStr "FALLIDA"]>
              (operation "OP-00000001" (Q2Qc 100) 1700000000 (VStr "RETIRO")) in
  r1 <> r2 /\
  Validators.row_content_hash r1 = Validators.row_content_hash r2 /\
  create_hash scenario_a r1 = create_hash scenario_a r2 /\
  String.length (Validators.row_content_hash r1) = 16%nat.
Proof.
  intros r1 r2.
  assert (forall col, col ∈ Validators.hash_columns -> cell r1 col = cell r2 col)
    as Hsame.
  { intros col Hcol. unfold Validators.hash_columns in Hcol.
    repeat (apply elem_of_cons in Hcol as [->|Hcol]; [by_evaluation|]).
    inversion Hcol. }
  destruct (content_hash_deterministic scenario_a r1 r2 Hsame)
    as (Hv & Hd & _ & Hlen & _ & _).
  split; [|exact (conj Hv (conj Hd Hlen))].
  intros Heq.
  assert (cell r1 "estado" = cell r2 "estado") as Hc by (rewrite Heq; reflexivity).
  vm_compute in Hc. discriminate Hc.
Defined.

End DedupRuns.

(** ** The orchestrator *)

Section PipelineFacts.
Context `{PyStr} `{Loader.PyConv} `{Loader.SqlServer}.
Import Loader Pipeline.




End PipelineFacts.

Section PipelineRuns.
Import Loader Pipeline Samples.



End PipelineRuns.

(** ** The loader *)

Section LoaderFacts.
Context `{Loader.PyConv} `{Loader.SqlServer}.
Import Loader.

Lemma lookup_row_map (f : string -> Cell) (cols : list string) (c : string) :
  (list_to_map (map (fun c => (c, f c)) cols) : gmap string Cell) !! c =
  if decide (c ∈ cols) then Some (f c) else None.
Proof.
  induction cols as [|c0 cols IH].
  - cbn [map]. rewrite list_to_map_nil, lookup_empty.
    destruct (decide (c ∈ [])) as [Hin|_]; [by apply not_elem_of_nil in Hin | done].
  - cbn [map]. rewrite list_to_map_cons. cbn [fst snd].
    destruct (decide (c = c0)) as [->|Hne].
    + rewrite lookup_insert_eq.
      destruct (decide (c0 ∈ c0 :: cols)) as [_|Hn]; [done | set_solver].
    + rewrite lookup_insert_ne by done. rewrite IH.
      destruct (decide (c ∈ cols)) as [Hin|Hin];
        destruct (decide (c ∈ c0 :: cols)) as [Hin'|Hin']; try done.
      * destruct Hin'. by apply elem_of_cons; right.
      * apply elem_of_cons in Hin' as [->|Hin']; done.
Qed.

Lemma cell_stamped (row : gmap string Cell) (now : Z) (c : string) :
  cell (<["fecha_carga" := VTime now]> row) c =
  if decide (c = "fecha_carga") then VTime now else cell row c.
Proof.
  unfold cell. destruct (decide (c = "fecha_carga")) as [->|Hne].
  - by rewrite lookup_insert_eq.
  - by rewrite lookup_insert_ne.
Qed.

Lemma cell_set_values (row : gmap string Cell) (c : string) :
  c ∈ update_columns -> set_values row !! c = Some (cell row c).
Proof.
  intros Hc. unfold set_values. rewrite lookup_row_map. by rewrite decide_True.
Qed.

Lemma set_values_no_load_time (row : gmap string Cell) :
  set_values row !! "fecha_carga" = None.
Proof. unfold set_values. rewrite lookup_row_map. reflexivity. Qed.

Lemma set_values_no_key (row : gmap string Cell) :
  set_values row !! "numero_operacion" = None.
Proof. unfold set_values. rewrite lookup_row_map. reflexivity. Qed.

(** What [valid_record] says, cell by cell. *)
Lemma valid_record_inv (row : gmap string Cell) :
  valid_record row = true ->
  (forall c, c ∈ not_null_columns -> cell row c <> VNull) /\
  to_float (cell row "monto") = Ok (cell row "monto") /\
  to_pydatetime (cell row "fecha_operacion") = Ok (cell row "fecha_operacion") /\
  (forall c, c ∈ text_columns -> bind_param (cell row c) = Ok (cell row c)).
Proof.
  unfold valid_record. intros Hv.
  apply andb_prop in Hv as [Hv Htext]. apply andb_prop in Hv as [Hv Hfecha].
  apply andb_prop in Hv as [Hnn Hmonto].
  split; [|split; [|split]].
  - intros c Hc. rewrite forallb_forall in Hnn.
    specialize (Hnn c (proj1 (list_elem_of_In _ _) Hc)).
    by destruct (cell row c).
  - by destruct (cell row "monto").
  - by destruct (cell row "fecha_operacion").
  - intros c Hc. rewrite forallb_forall in Htext.
    specialize (Htext c (proj1 (list_elem_of_In _ _) Hc)).
    by destruct (cell row c).
Qed.

Lemma getitem_in (cols : list string) (row : gmap string Cell) (c : string) :
  c ∈ cols -> getitem cols row c = Ok (cell row c).
Proof. intros Hc. unfold getitem. by rewrite bool_decide_eq_true_2. Qed.

(** The parameters of the UPDATE for a valid record stamped with the load
    time. *)
Lemma update_params_valid (cols : list string) (row : gmap string Cell) (now : Z) :
  valid_record row = true ->
  (forall c, c ∈ "fecha_carga" :: "numero_operacion" :: update_columns -> c ∈ cols) ->
  update_params cols (<["fecha_carga" := VTime now]> row) =
  Ok (<["fecha_carga" := VTime now]> (set_values row), cell row "numero_operacion").
Proof.
  intros Hvalid Hcols.
  apply valid_record_inv in Hvalid as (_ & Hmonto & Hfecha & Htext).
  unfold update_params.
  rewrite !getitem_in by (apply Hcols; by_evaluation).
  rewrite !cell_stamped.
  repeat match goal with
  | |- context [decide (?a = ?b)] =>
      destruct (decide (a = b)) as [?|?]; [try discriminate | try congruence]
  end.
  repeat (cbn [mbind result_bind to_pydatetime];
          first [ rewrite Hfecha | rewrite Hmonto
                | rewrite Htext by by_evaluation ]).
  cbn [mbind result_bind]. reflexivity.
Qed.

Lemma null_violation_none (cols : list string) (data : gmap string Cell) :
  (forall c, c ∈ cols -> cell data c <> VNull) -> null_violation cols data = None.
Proof.
  intros Hall. unfold null_violation.
  induction cols as [|c cols IH]; [done|].
  rewrite filter_cons. destruct (decide (cell data c = VNull)) as [Hn|_].
  - destruct (Hall c); [by apply elem_of_cons; left | done].
  - apply IH. intros c' Hc'. apply Hall. by apply elem_of_cons; right.
Qed.

Lemma cell_set_clause (row : gmap string Cell) (now : Z) (c : string) :
  c ∈ update_columns ->
  cell (<["fecha_carga" := VTime now]> (set_values row)) c = cell row c.
Proof.
  intros Hc. unfold cell at 1.
  rewrite lookup_insert_ne.
  - by rewrite cell_set_values.
  - intros <-. revert Hc. by_evaluation.
Qed.

(** The UPDATE for a valid record goes through and rewrites the matching
    rows. *)
Lemma sql_update_valid (t : list StoredRow) (row : gmap string Cell) (now : Z) :
  valid_record row = true ->
  sql_update t (<["fecha_carga" := VTime now]> (set_values row))
             (cell row "numero_operacion") =
  Ok (map (updated_by now row) t).
Proof.
  intros Hvalid. apply valid_record_inv in Hvalid as (Hnn & _).
  unfold sql_update. rewrite null_violation_none; [done|].
  intros c Hc. apply list_elem_of_filter in Hc as [Hne Hc].
  rewrite cell_set_clause.
  - by apply Hnn.
  - unfold not_null_columns in Hc.
    repeat (apply elem_of_cons in Hc as [->|Hc]; [try done; by_evaluation|]).
    inversion Hc.
Qed.

(** The update loop over valid records never stops early. *)
Lemma update_loop_valid (t : list StoredRow) (cols : list string)
    (rows : list (gmap string Cell)) (now : Z) :
  forallb valid_record rows = true ->
  (forall c, c ∈ "fecha_carga" :: "numero_operacion" :: update_columns -> c ∈ cols) ->
  update_loop t cols (map (fun row => <["fecha_carga" := VTime now]> row) rows) =
  (fold_left (fun t row => map (updated_by now row) t) rows t, Ok tt).
Proof.
  intros Hvalid Hcols. revert t.
  induction rows as [|row rows IH]; intros t; [done|].
  simpl in Hvalid. apply andb_prop in Hvalid as [Hrow Hrows].
  cbn [map update_loop fold_left].
  rewrite update_params_valid by done. cbn [mbind result_bind].
  rewrite sql_update_valid by done. by apply IH.
Qed.

Lemma cell_stored_data (cols : list string) (row : gmap string Cell) (c : string) :
  c ∈ cols -> c <> "id" -> stored_data cols row !! c = Some (cell row c).
Proof.
  intros Hc Hid. unfold stored_data. rewrite lookup_row_map.
  rewrite decide_True; [done|]. by apply list_elem_of_filter.
Qed.

(** Appending valid records to the table: every row is inserted, with the
    values of the frame. *)
Lemma insert_rows_valid (t : list StoredRow) (cols : list string)
    (rows : list (gmap string Cell)) :
  "id" ∉ cols ->
  (forall c, c ∈ not_null_columns -> c ∈ cols) ->
  (forall row c, row ∈ rows -> c ∈ not_null_columns -> cell row c <> VNull) ->
  exists ins,
    insert_rows t cols rows = Ok (t ++ ins)%list /\
    map row_data ins = map (stored_data cols) rows.
Proof.
  intros Hid Hcols. revert t.
  induction rows as [|row rows IH]; intros t Hnn.
  - exists []. by rewrite app_nil_r.
  - cbn [insert_rows]. unfold insert_row.
    rewrite null_violation_none.
    + unfold insert_id. rewrite bool_decide_eq_false_2 by done.
      cbn [mbind result_bind].
      destruct (IH (t ++ [Stored (next_id t) (stored_data cols row)])%list)
        as (ins & Hins & Hdata).
      { intros row' c Hrow' Hc. apply Hnn; [by apply elem_of_cons; right | done]. }
      exists (Stored (next_id t) (stored_data cols row) :: ins).
      rewrite Hins. split; [by rewrite <- app_assoc|].
      simpl. by rewrite Hdata.
    + intros c Hc. unfold cell at 1. rewrite cell_stored_data.
      * apply Hnn; [by apply elem_of_cons; left | done].
      * by apply Hcols.
      * intros ->. by apply Hid, Hcols.
Qed.

(** *** What the UPDATE leaves as it was *)


Lemma updated_by_other_columns (now : Z) (row : gmap string Cell) (sr : StoredRow)
    (c : string) :
  c ∉ "fecha_carga" :: update_columns ->
  row_data (updated_by now row sr) !! c = row_data sr !! c.
Proof.
  intros Hc. unfold updated_by. destruct (where_matches _ sr); [|done].
  cbn [row_data]. apply lookup_union_r.
  rewrite lookup_insert_ne by (intros <-; apply Hc; by apply elem_of_cons; left).
  unfold set_values. rewrite lookup_row_map. rewrite decide_False; [done|].
  intros Hin. apply Hc. by apply elem_of_cons; right.
Qed.

Lemma updated_by_key (now : Z) (row : gmap string Cell) (sr : StoredRow) :
  cell (row_data (updated_by now row sr)) "numero_operacion" =
  cell (row_data sr) "numero_operacion".
Proof. unfold cell. rewrite updated_by_other_columns; [done | by_evaluation]. Qed.

Lemma where_matches_updated (now : Z) (row : gmap string Cell) (key : Cell)
    (sr : StoredRow) :
  where_matches key (updated_by now row sr) = where_matches key sr.
Proof. unfold where_matches. by rewrite updated_by_key. Qed.

Lemma where_matches_key (key : Cell) (sr : StoredRow) :
  where_matches key sr = true -> cell (row_data sr) "numero_operacion" = key.
Proof. unfold where_matches. intros Hm. by apply bool_decide_eq_true in Hm as [_ ?]. Qed.

(** A matching row holds the record's values after its UPDATE. *)
Lemma updated_by_covers (now : Z) (row : gmap string Cell) (sr : StoredRow) :
  where_matches (cell row "numero_operacion") sr = true ->
  set_values row ⊆ row_data (updated_by now row sr).
Proof.
  intros Hm. unfold updated_by. rewrite Hm. cbn [row_data].
  apply map_subseteq_spec. intros c x Hc.
  apply lookup_union_Some_l. rewrite lookup_insert_ne; [done|].
  intros <-. by rewrite set_values_no_load_time in Hc.
Qed.

(** A row that already holds the record's values changes in its load time
    only. *)
Lemma updated_by_covered (now : Z) (row : gmap string Cell) (sr : StoredRow)
    (c : string) :
  set_values row ⊆ row_data sr -> c <> "fecha_carga" ->
  row_data (updated_by now row sr) !! c = row_data sr !! c.
Proof.
  intros Hsub Hc. unfold updated_by. destruct (where_matches _ sr); [|done].
  cbn [row_data]. rewrite lookup_union, lookup_insert_ne by done.
  destruct (set_values row !! c) as [x|] eqn:Hx.
  - rewrite (proj1 (map_subseteq_spec _ _) Hsub c x Hx). done.
  - by rewrite (left_id None _).
Qed.

Lemma fold_updates_map {A} (g : A -> StoredRow -> StoredRow) (rows : list A)
    (t : list StoredRow) :
  fold_left (fun t row => map (g row) t) rows t =
  map (fun sr => fold_left (fun s row => g row s) rows sr) t.
Proof.
  revert t. induction rows as [|row rows IH]; intros t; simpl.
  - by rewrite map_id.
  - rewrite IH, map_map. done.
Qed.


Lemma fold_updated_by_key (now : Z) (rows : list (gmap string Cell)) (sr : StoredRow) :
  cell (row_data (fold_left (fun s row => updated_by now row s) rows sr))
       "numero_operacion" =
  cell (row_data sr) "numero_operacion".
Proof.
  revert sr. induction rows as [|row rows IH]; intros sr; simpl; [done|].
  by rewrite IH, updated_by_key.
Qed.

Lemma NoDup_map_inj {A B} (f : A -> B) (l : list A) (x y : A) :
  NoDup (map f l) -> x ∈ l -> y ∈ l -> f x = f y -> x = y.
Proof.
  induction l as [|a l IH]; intros Hnd Hx Hy Hf; [by inversion Hx|].
  simpl in Hnd. apply NoDup_cons in Hnd as [Ha Hnd].
  apply elem_of_cons in Hx as [->|Hx]; apply elem_of_cons in Hy as [->|Hy].
  - done.
  - destruct Ha. rewrite Hf. apply list_elem_of_fmap. by exists y.
  - destruct Ha. rewrite <- Hf. apply list_elem_of_fmap. by exists x.
  - by apply IH.
Qed.

(** After the updates for [done_rows], a stored row holds the values of
    the record of the batch that matches it, if that record is among those
    it held the values of before or among [done_rows]. *)
Lemma fold_updates_cover (now : Z) (rows done_rows : list (gmap string Cell))
    (held : gmap string Cell -> Prop) (sr : StoredRow) :
  NoDup (map (fun row => cell row "numero_operacion") rows) ->
  (forall u, u ∈ done_rows -> u ∈ rows) ->
  (forall r, r ∈ rows -> held r ->
     where_matches (cell r "numero_operacion") sr = true ->
     set_values r ⊆ row_data sr) ->
  forall r, r ∈ rows -> held r \/ r ∈ done_rows ->
    where_matches (cell r "numero_operacion")
      (fold_left (fun s row => updated_by now row s) done_rows sr) = true ->
    set_values r ⊆
      row_data (fold_left (fun s row => updated_by now row s) done_rows sr).
Proof.
  intros Hnd. revert held sr.
  induction done_rows as [|u us IH]; intros held sr Hsub Hheld r Hr Hcase Hm.
  - simpl in *. destruct Hcase as [Hh|Hin]; [by apply Hheld | by inversion Hin].
  - cbn [fold_left] in *.
    apply (IH (fun r => held r \/ r = u)); try done.
    + intros u' Hu'. apply Hsub. by apply elem_of_cons; right.
    + intros r' Hr' Hcase' Hm'. rewrite where_matches_updated in Hm'.
      destruct (where_matches (cell u "numero_operacion") sr) eqn:Hmu.
      * assert (r' = u) as ->.
        { apply (NoDup_map_inj (fun row => cell row "numero_operacion") rows);
            [done | done | apply Hsub; by apply elem_of_cons; left |].
          apply where_matches_key in Hm', Hmu. congruence. }
        by apply updated_by_covers.
      * unfold updated_by. rewrite Hmu.
        destruct Hcase' as [Hh| ->]; [by apply Hheld | congruence].
    + destruct Hcase as [Hh|Hin]; [by left; left|].
      apply elem_of_cons in Hin as [->|Hin]; [by left; right | by right].
Qed.


(** *** One call of the SQLite upsert on a valid batch *)

Lemma valid_batch_inv (df : DataFrame) :
  valid_batch df = true ->
  (forall c, c ∈ df_columns df -> c ∈ table_columns) /\
  (forall c, c ∈ "numero_operacion" :: update_columns -> c ∈ df_columns df) /\
  forallb valid_record (df_rows df) = true /\
  NoDup (map (fun row => cell row "numero_operacion") (df_rows df)).
Proof.
  unfold valid_batch. intros Hv.
  apply andb_prop in Hv as [Hv Hnd]. apply andb_prop in Hv as [Hv Hrows].
  apply andb_prop in Hv as [Htable Hcols].
  split; [|split; [|split]].
  - intros c Hc. rewrite forallb_forall in Htable.
    specialize (Htable c (proj1 (list_elem_of_In _ _) Hc)).
    by apply bool_decide_eq_true in Htable.
  - intros c Hc. rewrite forallb_forall in Hcols.
    specialize (Hcols c (proj1 (list_elem_of_In _ _) Hc)).
    unfold has_column in Hcols. by apply bool_decide_eq_true in Hcols.
  - done.
  - by apply bool_decide_eq_true in Hnd.
Qed.

Lemma stamp_columns (df : DataFrame) (now : Z) (c : string) :
  c ∈ df_columns (stamp df now) <-> c ∈ df_columns df \/ c = "fecha_carga".
Proof.
  unfold stamp, Dedup.assign_column, has_column. cbn [df_columns].
  rewrite elem_of_app. case_bool_decide as Hfc.
  - split; [intros [?|Hin]; [by left | by inversion Hin]|].
    intros [?| ->]; by left.
  - split; [intros [?|Hin]; [by left | right]|].
    + by apply list_elem_of_singleton in Hin.
    + intros [?| ->]; [by left | right]. by apply list_elem_of_singleton.
Qed.

Lemma stamp_rows (df : DataFrame) (now : Z) :
  df_rows (stamp df now) =
  map (fun row => <["fecha_carga" := VTime now]> row) (df_rows df).
Proof. reflexivity. Qed.

Lemma filter_stamped (ids : list Cell) (b : bool) (now : Z)
    (rows : list (gmap string Cell)) :
  filter (fun row => bool_decide (cell row "numero_operacion" ∈ ids) = b)
         (map (fun row => <["fecha_carga" := VTime now]> row) rows) =
  map (fun row => <["fecha_carga" := VTime now]> row)
      (filter (fun row => bool_decide (cell row "numero_operacion" ∈ ids) = b) rows).
Proof.
  induction rows as [|row rows IH]; [done|].
  cbn [map]. rewrite !filter_cons. rewrite cell_stamped.
  destruct (decide ("numero_operacion" = "fecha_carga")) as [Heq|_]; [discriminate Heq|].
  destruct (decide (bool_decide (cell row "numero_operacion" ∈ ids) = b)).
  - cbn [map]. by rewrite IH.
  - done.
Qed.

Lemma forallb_filter {A} (f : A -> bool) (P : A -> Prop) `{forall x, Decision (P x)}
    (l : list A) :
  forallb f l = true -> forallb f (filter P l) = true.
Proof.
  induction l as [|x l IH]; [done|]. simpl. intros Hf.
  apply andb_prop in Hf as [Hx Hl]. rewrite filter_cons.
  destruct (decide (P x)); simpl; [rewrite Hx|]; by apply IH.
Qed.

Lemma filter_none {A} (P : A -> Prop) `{forall x, Decision (P x)} (l : list A) :
  (forall x, x ∈ l -> ~ P x) -> filter P l = [].
Proof.
  induction l as [|x l IH]; intros Hall; [done|].
  rewrite filter_cons, decide_False.
  - apply IH. intros y Hy. apply Hall. by apply elem_of_cons; right.
  - apply Hall. by apply elem_of_cons; left.
Qed.

Lemma upsert_sqlite_valid (n : Z) (t : list StoredRow) (df : DataFrame) (now : Z) :
  valid_batch df = true ->
  let ids := map (fun sr => cell (row_data sr) "numero_operacion") t in
  let new_rows :=
    filter (fun row => bool_decide (cell row "numero_operacion" ∈ ids) = false)
           (df_rows df) in
  let update_rows :=
    filter (fun row => bool_decide (cell row "numero_operacion" ∈ ids) = true)
           (df_rows df) in
  exists ins,
    _upsert_sqlite (LStats 0 0 0 n) t df now =
      (fold_left (fun t row => map (updated_by now row) t) update_rows (t ++ ins)%list,
       LStats (Z.of_nat (length new_rows)) (Z.of_nat (length update_rows)) 0 n,
       Ok tt) /\
    map row_data ins =
      map (fun row => stored_data (df_columns (stamp df now))
                        (<["fecha_carga" := VTime now]> row)) new_rows.
Proof.
  intros Hvalid ids new_rows update_rows.
  destruct (valid_batch_inv df Hvalid) as (Htable & Hcols & Hrows & Hnd).
  assert (forall c, c ∈ "fecha_carga" :: "numero_operacion" :: update_columns ->
                    c ∈ df_columns (stamp df now)) as Hcols'.
  { intros c Hc. apply stamp_columns.
    apply elem_of_cons in Hc as [->|Hc]; [by right | left; by apply Hcols]. }
  assert (forall c, c ∈ df_columns (stamp df now) -> c ∈ table_columns) as Htable'.
  { intros c Hc. apply stamp_columns in Hc as [Hc| ->]; [by apply Htable|].
    by_evaluation. }
  unfold _upsert_sqlite.
  assert (has_column (stamp df now) "numero_operacion" = true) as ->.
  { apply bool_decide_eq_true, Hcols'. by_evaluation. }
  cbn [negb]. rewrite stamp_rows. fold ids. rewrite !filter_stamped.
  fold new_rows update_rows. rewrite !length_map.
  assert (exists ins,
    (if bool_decide (0 < length new_rows)%nat
     then to_sql_append t
            (Frame (df_columns (stamp df now))
                   (map (fun row => <["fecha_carga" := VTime now]> row) new_rows))
     else Ok t) = Ok (t ++ ins)%list /\
    map row_data ins =
      map (fun row => stored_data (df_columns (stamp df now))
                        (<["fecha_carga" := VTime now]> row)) new_rows)
    as (ins & -> & Hins).
  { case_bool_decide as Hlen.
    - unfold to_sql_append. cbn [df_columns df_rows].
      assert (filter (fun c => c ∉ "id" :: table_columns) (df_columns (stamp df now))
              = []) as ->.
      { apply filter_none. intros c Hc Hnot. apply Hnot.
        apply elem_of_cons; right. by apply Htable'. }
      destruct (insert_rows_valid t (df_columns (stamp df now))
                  (map (fun row => <["fecha_carga" := VTime now]> row) new_rows))
        as (ins & Hins & Hdata).
      + intros Hid. apply Htable' in Hid. revert Hid. by_evaluation.
      + intros c Hc. apply Hcols'. unfold not_null_columns in Hc.
        repeat (apply elem_of_cons in Hc as [->|Hc]; [by_evaluation|]).
        inversion Hc.
      + intros row c Hrow Hc.
        apply list_elem_of_fmap in Hrow as (row0 & -> & Hrow0).
        rewrite cell_stamped.
        destruct (decide (c = "fecha_carga")) as [->|_]; [done|].
        apply list_elem_of_filter in Hrow0 as [_ Hrow0].
        rewrite forallb_forall in Hrows.
        specialize (Hrows row0 (proj1 (list_elem_of_In _ _) Hrow0)).
        apply valid_record_inv in Hrows as (Hnn & _). by apply Hnn.
      + exists ins. split; [done|]. by rewrite Hdata, map_map.
    - exists []. rewrite app_nil_r. split; [done|].
      destruct new_rows; [done | simpl in Hlen; lia]. }
  assert ((if bool_decide (0 < length new_rows)%nat
           then set_rows_inserted (LStats 0 0 0 n) (Z.of_nat (length new_rows))
           else LStats 0 0 0 n) =
          LStats (Z.of_nat (length new_rows)) 0 0 n) as ->.
  { case_bool_decide as Hlen; [done|].
    destruct new_rows; [done | simpl in Hlen; lia]. }
  exists ins. split; [|done].
  case_bool_decide as Hlen.
  - rewrite update_loop_valid; [done | by apply forallb_filter | done].
  - destruct update_rows; [done | simpl in Hlen; lia].
Qed.

(** *** Two calls in a row *)

Lemma set_values_lookup (row : gmap string Cell) (c : string) (x : Cell) :
  set_values row !! c = Some x -> c ∈ update_columns /\ x = cell row c.
Proof.
  unfold set_values. rewrite lookup_row_map.
  destruct (decide (c ∈ update_columns)); [|done]. intros Hx. by inversion Hx.
Qed.

Lemma inserted_rows_data {A} (ins : list StoredRow) (rows : list A)
    (g : A -> gmap string Cell) (sr : StoredRow) :
  map row_data ins = map g rows -> sr ∈ ins ->
  exists row, row ∈ rows /\ row_data sr = g row.
Proof.
  intros Hmap Hsr. apply list_elem_of_lookup in Hsr as [i Hi].
  assert (map row_data ins !! i = Some (row_data sr)) as Hd.
  { by rewrite list_lookup_fmap, Hi. }
  rewrite Hmap, list_lookup_fmap in Hd.
  destruct (rows !! i) as [row|] eqn:Hrow; [|done].
  exists row. split; [by eapply list_elem_of_lookup_2|]. by inversion Hd.
Qed.

(** After one call on a valid batch, every stored row holds the values of
    the record of the batch that has its operation id, and every operation
    id of the batch is in the table. *)
Lemma upsert_sqlite_covers (t ins : list StoredRow) (df : DataFrame) (now : Z) :
  valid_batch df = true ->
  let ids := map (fun sr => cell (row_data sr) "numero_operacion") t in
  let new_rows :=
    filter (fun row => bool_decide (cell row "numero_operacion" ∈ ids) = false)
           (df_rows df) in
  let update_rows :=
    filter (fun row => bool_decide (cell row "numero_operacion" ∈ ids) = true)
           (df_rows df) in
  map row_data ins =
    map (fun row => stored_data (df_columns (stamp df now))
                      (<["fecha_carga" := VTime now]> row)) new_rows ->
  let t1 := fold_left (fun t row => map (updated_by now row) t) update_rows
                      (t ++ ins)%list in
  (forall sr r, sr ∈ t1 -> r ∈ df_rows df ->
     where_matches (cell r "numero_operacion") sr = true ->
     set_values r ⊆ row_data sr) /\
  (forall r, r ∈ df_rows df ->
     cell r "numero_operacion" ∈
       map (fun sr => cell (row_data sr) "numero_operacion") t1) /\
  length t1 = (length t + length new_rows)%nat.
Proof.
  intros Hvalid ids new_rows update_rows Hins t1.
  destruct (valid_batch_inv df Hvalid) as (Htable & Hcols & Hrows & Hnd).
  assert (forall sr, sr ∈ ins -> exists r0, r0 ∈ new_rows /\
            row_data sr = stored_data (df_columns (stamp df now))
                            (<["fecha_carga" := VTime now]> r0)) as Hins'.
  { intros sr Hsr. by eapply inserted_rows_data. }
  assert (forall r c, c ∈ "numero_operacion" :: update_columns ->
            stored_data (df_columns (stamp df now))
              (<["fecha_carga" := VTime now]> r) !! c = Some (cell r c)) as Hstored.
  { intros r c Hc. rewrite cell_stored_data.
    - rewrite cell_stamped. rewrite decide_False; [done|].
      intros ->. revert Hc. by_evaluation.
    - apply stamp_columns. left. by apply Hcols.
    - intros ->. revert Hc. by_evaluation. }
  unfold t1. rewrite fold_updates_map.
  split; [|split].
  - intros sr r Hsr Hr Hm.
    apply list_elem_of_fmap in Hsr as (sr0 & -> & Hsr0).
    apply (fold_updates_cover now (df_rows df) update_rows (fun r => r ∈ new_rows) sr0);
      try done.
    + intros u Hu. by apply list_elem_of_filter in Hu as [_ ?].
    + intros r' Hr' Hnew Hm'. apply where_matches_key in Hm'.
      apply elem_of_app in Hsr0 as [Hold|Hnewrow].
      * apply list_elem_of_filter in Hnew as [Hnot _].
        apply bool_decide_eq_false in Hnot. destruct Hnot.
        rewrite <- Hm'. unfold ids. apply list_elem_of_fmap. by exists sr0.
      * destruct (Hins' sr0 Hnewrow) as (r0 & Hr0 & Hdata).
        assert (r' = r0) as ->.
        { apply (NoDup_map_inj (fun row => cell row "numero_operacion") (df_rows df));
            [done | done | by apply list_elem_of_filter in Hr0 as [_ ?] |].
          rewrite <- Hm'. unfold cell at 1. rewrite Hdata, Hstored; [done|].
          by_evaluation. }
        rewrite Hdata. apply map_subseteq_spec. intros c x Hx.
        apply set_values_lookup in Hx as [Hc ->].
        apply Hstored. by apply elem_of_cons; right.
    + destruct (bool_decide (cell r "numero_operacion" ∈ ids)) eqn:Hb.
      * right. by apply list_elem_of_filter.
      * left. by apply list_elem_of_filter.
  - intros r Hr. rewrite map_map.
    rewrite (map_ext _ (fun sr => cell (row_data sr) "numero_operacion"))
      by (intros sr; apply fold_updated_by_key).
    rewrite map_app. apply elem_of_app.
    destruct (bool_decide (cell r "numero_operacion" ∈ ids)) eqn:Hb.
    + left. by apply bool_decide_eq_true in Hb.
    + right. rewrite <- (map_map row_data (fun d => cell d "numero_operacion")).
      rewrite Hins, map_map. apply list_elem_of_fmap. exists r.
      split; [|by apply list_elem_of_filter].
      unfold cell at 2. rewrite Hstored; [done | by_evaluation].
  - rewrite length_map, length_app.
    assert (length ins = length new_rows) as ->; [|done].
    by rewrite <- (length_map row_data ins), Hins, length_map.
Qed.


Lemma upsert_data_sqlite (self : SQLLoader) (attempt : ConnAttempt)
    (t : list StoredRow) (df : DataFrame) (now : Z) :
  db_type self = "sqlite" -> engine self = true ->
  upsert_data self attempt t df now =
  let '(t', stats, r) := _upsert_sqlite (LStats 0 0 0 (len df)) t df now in
  match r with
  | Raise e =>
      (LoaderObj (db_type self) (engine self) (set_rows_failed stats (len df)), t',
       Raise (Exn "RuntimeError" ("Failed to load data: " +:+ exn_str e)))
  | Ok _ => (LoaderObj (db_type self) (engine self) stats, t', Ok stats)
  end.
Proof.
  destruct self as [db eng stats0]. cbn [db_type engine]. intros -> ->.
  reflexivity.
Qed.

(** The SQL Server path reports every row of the batch as inserted,
    whether the MERGE inserted or updated it. *)
Lemma upsert_sqlserver_reports_inserts (self : SQLLoader) (attempt : ConnAttempt)
    (t t' : list StoredRow) (df : DataFrame) (now : Z) (self' : SQLLoader)
    (stats : LoadStats) :
  db_type self = "sqlserver" -> engine self = true ->
  upsert_data self attempt t df now = (self', t', Ok stats) ->
  rows_inserted stats = len df /\ rows_updated stats = 0.
Proof.
  destruct self as [db eng stats0]. cbn [db_type engine]. intros -> ->.
  unfold upsert_data. cbn [engine db_type].
  rewrite bool_decide_eq_false_2 by discriminate.
  rewrite bool_decide_eq_true_2 by done.
  unfold _upsert_sqlserver.
  destruct (merge_transaction t df now); intros Hu; by inversion Hu.
Qed.


End LoaderFacts.

Section LoaderRuns.
Import Loader Samples.



(** C2 at a failing input: OP-00000001 is new and OP-00000003 is stored;
    the UPDATE of OP-00000003 violates NOT NULL after the INSERT of
    OP-00000001 was committed.  The call raises and reports rows_failed = 2,
    and the table has the new row. *)
Theorem upsert_sqlite_leaves_partial_batch :
  let call := upsert_data sqlite_loader ConnOk one_stored_operation
                batch_with_null_type 2000 in
  call.2 = Raise (Exn "RuntimeError"
                    "Failed to load data: NOT NULL constraint failed: operaciones.tipo_operacion") /\
  rows_failed (load_stats call.1.1) = 2 /\
  rows_inserted (load_stats call.1.1) = 1 /\
  call.1.2 <> one_stored_operation /\
  map (fun sr => cell (row_data sr) "numero_operacion") call.1.2 =
    [VStr "OP-00000003"; VStr "OP-00000001"].
Proof. intros call. repeat split; by_evaluation. Qed.

End LoaderRuns.

(** ** More on the validator *)

Section ValidatorMore.
Context `{PyStr}.
Import Validators.

Lemma select_sublist {A} (mask : list bool) (l : list A) :
  select mask l `sublist_of` l.
Proof.
  revert mask. induction l as [|x l IH]; intros [|b mask]; cbn [select];
    try apply sublist_nil_l.
  destruct b; [apply sublist_skip | apply sublist_cons]; apply IH.
Qed.

(** The positions of a list of distinct positions that are in the set of
    a list of indices are no more than the indices. *)
Lemma count_in_index_set (L : list Z) (l : list nat) :
  NoDup l ->
  (length (filter (fun i => Z.of_nat i ∈ (list_to_set L : gset Z)) l) <= length L)%nat.
Proof.
  intros Hnd.
  set (fl := filter (fun i => Z.of_nat i ∈ (list_to_set L : gset Z)) l).
  rewrite <- (length_map Z.of_nat fl). apply submseteq_length, NoDup_submseteq.
  - apply (NoDup_fmap_2 Z.of_nat). by apply NoDup_filter.
  - intros z Hz. apply list_elem_of_fmap in Hz as (i & -> & Hi).
    apply list_elem_of_filter in Hi as [Hi _]. by apply elem_of_list_to_set in Hi.
Qed.

Lemma length_omap_le {A B} (f : A -> option B) (l : list A) :
  (length (omap f l) <= length l)%nat.
Proof.
  induction l as [|x l IH]; [done|]. cbn. destruct (f x); cbn; lia.
Qed.

Lemma length_collected_indices (fcs : FailureCases) :
  exists L : list Z,
    collect_invalid_indices fcs = list_to_set L /\
    (length L <= length (fcs_rows fcs))%nat.
Proof.
  unfold collect_invalid_indices. destruct (fcs_has_index fcs).
  - eexists. split; [reflexivity|].
    etransitivity; [apply length_omap_le|]. unfold dropna.
    etransitivity; [apply length_filter|]. by rewrite length_map.
  - exists []. split; [done|]. cbn. lia.
Qed.

(** When the schema run reports failure cases, the frame [validate]
    returns has the columns of the input and a selection of its rows, in
    their order, and [valid_rows] is their number; [invalid_rows] is
    between 0 and [total_rows], and is at most the number of errors listed:
    a row that breaks several rules is one invalid row. *)
Theorem invalid_rows_bounded (schema : DataFrameSchema) (df : DataFrame)
    (expected : option Qc) (fcs : FailureCases) (v : DataFrame)
    (r : ValidationReport) :
  schema df = SchemaErrors fcs ->
  validate schema df expected = Ok (v, r) ->
  0 <= invalid_rows r <= total_rows r /\
  invalid_rows r <= Z.of_nat (length (errors r)) /\
  valid_rows r = len v /\
  df_columns v = df_columns df /\
  df_rows v `sublist_of` df_rows df.
Proof.
  intros Hschema Hv.
  apply validate_inv in Hv as (r0 & r1 & Hs & Hsum & ->).
  rewrite Hschema in Hs.
  pose proof (handle_schema_errors_frame (set_total_rows new_report (len df)) df fcs)
    as Hframe.
  rewrite <- Hs in Hframe. cbn [fst] in Hframe. subst v.
  assert (Hr0 : r0 = set_valid_rows
                       (record_errors (set_total_rows new_report (len df)) fcs)
                       (len (Frame (df_columns df)
                               (select (valid_mask df (collect_invalid_indices fcs))
                                       (df_rows df))))).
  { pose proof (handle_schema_errors_frame (set_total_rows new_report (len df)) df fcs)
      as Hf.
    unfold _handle_schema_errors in Hs, Hf. cbn [fst] in Hf.
    inversion Hs as [[Hv0 Hr]]. rewrite <- Hf. reflexivity. }
  assert (Hsame : errors r1 = errors r0 /\ total_rows r1 = total_rows r0 /\
                  valid_rows r1 = valid_rows r0).
  { destruct expected as [e|]; [|by subst].
    destruct Hsum as (actual & _ & ->). by case_bool_decide. }
  destruct Hsame as (He1 & Ht1 & Hv1).
  assert (Herr : length (errors r0) = length (fcs_rows fcs)).
  { rewrite Hr0. cbn [errors set_valid_rows]. rewrite record_errors_spec. cbn.
    by rewrite length_map. }
  assert (Htot : total_rows r0 = len df).
  { rewrite Hr0. cbn [total_rows set_valid_rows]. by rewrite record_errors_spec. }
  assert (Hval : valid_rows r0 =
                 len df - Z.of_nat (length (filter
                   (fun i => Z.of_nat i ∈ collect_invalid_indices fcs)
                   (seq 0 (length (df_rows df)))))).
  { rewrite Hr0. cbn [valid_rows set_valid_rows]. apply valid_rows_count. }
  destruct (length_collected_indices fcs) as (L & HL & HlenL).
  pose proof (count_in_index_set L (seq 0 (length (df_rows df))) (NoDup_seq _ _))
    as Hcount.
  rewrite <- HL in Hcount.
  pose proof (length_filter (fun i => Z.of_nat i ∈ collect_invalid_indices fcs)
                (seq 0 (length (df_rows df)))) as Hle.
  rewrite length_seq in Hle.
  cbn [invalid_rows total_rows valid_rows errors set_invalid_rows].
  rewrite He1, Ht1, Hv1, Herr, Htot.
  split; [|split; [|split; [|split]]].
  - rewrite Hval. unfold len. lia.
  - rewrite Hval. lia.
  - rewrite Hr0. reflexivity.
  - reflexivity.
  - apply select_sublist.
Qed.

End ValidatorMore.

Section ValidatorMoreRuns.
Import Validators Samples.

(** Scenario A: one invalid row out of ten, one error listed. *)
Lemma invalid_rows_bounded_witness :
  let r := Report 10 9 1 [Entry (IdxInt 4) (Some "monto") "greater_than(0)"] [] in
  validate positive_amount_schema scenario_a None = Ok (scenario_a_valid, r) /\
  0 <= invalid_rows r <= total_rows r /\
  invalid_rows r <= Z.of_nat (length (errors r)) /\
  df_rows scenario_a_valid `sublist_of` df_rows scenario_a.
Proof.
  intros r.
  assert (Hv : validate positive_amount_schema scenario_a None = Ok (scenario_a_valid, r))
    by by_evaluation.
  destruct (invalid_rows_bounded positive_amount_schema scenario_a None
              (Cases true (positive_amount_cases (df_rows scenario_a)))
              scenario_a_valid r)
    as (Hbounds & Herr & _ & _ & Hsub); [by_evaluation | exact Hv |].
  split; [exact Hv|]. split; [exact Hbounds|]. split; [exact Herr | exact Hsub].
Defined.

End ValidatorMoreRuns.

(** ** More on the deduplication engine *)

Section DedupMore.
Context `{PyStr}.
Import Dedup.

Lemma key_of_eq (keys : list string) (r1 r2 : gmap string Cell) :
  key_of keys r1 = key_of keys r2 <-> forall c, c ∈ keys -> cell r1 c = cell r2 c.
Proof.
  unfold key_of. induction keys as [|k keys IH]; cbn [map].
  - split; [|done]. intros _ c Hc. by apply not_elem_of_nil in Hc.
  - split.
    + intros Heq c Hc. inversion Heq as [[Hk Hrest]].
      apply elem_of_cons in Hc as [->|Hc]; [done|]. by apply IH.
    + intros Hall. f_equal.
      * apply Hall. by apply elem_of_cons; left.
      * apply IH. intros c Hc. apply Hall. by apply elem_of_cons; right.
Qed.

(** With key columns that the frame has, [duplicated] returns the
    keep-first mask over the rows. *)
Lemma duplicated_on_keys (df : DataFrame) (keys : list string) :
  keys <> [] -> forallb (has_column df) keys = true ->
  duplicated df keys = Ok (duplicated_keys [] (map (key_of keys) (df_rows df))).
Proof.
  intros Hne Hall. unfold duplicated. rewrite Hall. cbn [negb].
  destruct keys as [|k keys]; [done|].
  destruct (empty df) eqn:Hempty; [|done].
  unfold empty in Hempty. cbn [forallb] in Hall. apply andb_prop in Hall as [Hk _].
  unfold has_column in Hk. apply bool_decide_eq_true in Hk.
  destruct (df_columns df) as [|c cols]; [by apply not_elem_of_nil in Hk|].
  destruct (df_rows df); [done | discriminate].
Qed.

Lemma duplicated_keys_fresh (keys : list (list Cell)) :
  forall seen, NoDup keys -> (forall k, k ∈ keys -> k ∉ seen) ->
  duplicated_keys seen keys = map (fun _ => false) keys.
Proof.
  induction keys as [|k keys IH]; intros seen Hnd Hfresh; [done|].
  apply NoDup_cons in Hnd as [Hk Hnd]. cbn [duplicated_keys map].
  rewrite bool_decide_eq_false_2 by (apply Hfresh; by apply elem_of_cons; left).
  f_equal. apply IH; [done|]. intros k' Hk' Hin.
  apply elem_of_cons in Hin as [->|Hin]; [done|].
  apply (Hfresh k'); [by apply elem_of_cons; right | done].
Qed.

Lemma select_none_flagged {A B} (keys : list B) (l : list A) :
  length keys = length l ->
  select (map negb (map (fun _ => false) keys)) l = l.
Proof.
  revert l. induction keys as [|k keys IH]; intros [|x l] Hlen; try done.
  cbn. f_equal. apply IH. by injection Hlen.
Qed.

Lemma mask_sum_none_flagged {B} (keys : list B) :
  mask_sum (map (fun _ => false) keys) = 0.
Proof.
  unfold mask_sum. induction keys as [|k keys IH]; [done|].
  cbn [map]. rewrite filter_cons. by destruct (decide (false = true)).
Qed.

(** Dropping the flagged rows leaves a frame on which the same
    [duplicated] flags nothing. *)
Lemma duplicated_after_drop (df res : DataFrame) (keys : list string) (mask : list bool) :
  duplicated df keys = Ok mask -> drop_flagged df mask = Ok res ->
  exists mask2,
    duplicated res keys = Ok mask2 /\ drop_flagged res mask2 = Ok res /\
    mask_sum mask2 = 0.
Proof.
  intros Hdup Hdrop. apply drop_flagged_count in Hdrop as (-> & Hlen & _).
  unfold duplicated in Hdup.
  destruct (empty df) eqn:Hempty.
  - inversion Hdup; subst mask. cbn [length] in Hlen.
    destruct (df_rows df) as [|row rows] eqn:Hrows; [|discriminate Hlen].
    exists []. cbn [map select]. split; [|split; [|done]].
    + unfold duplicated, empty. cbn [df_columns df_rows]. by destruct (df_columns df).
    + unfold drop_flagged, getitem_mask. by cbn.
  - destruct (forallb (has_column df) keys) eqn:Hall; cbn [negb] in Hdup; [|done].
    destruct keys as [|k ks] eqn:Hkeys; [done|]. rewrite <- Hkeys in *.
    inversion Hdup; subst mask. clear Hdup.
    set (mask := duplicated_keys [] (map (key_of keys) (df_rows df))) in *.
    set (res := Frame (df_columns df) (select (map negb mask) (df_rows df))).
    assert (Hall' : forallb (has_column res) keys = true) by exact Hall.
    assert (Hne : keys <> []) by (rewrite Hkeys; discriminate).
    rewrite (duplicated_on_keys res keys Hne Hall').
    pose proof (kept_keys [] (map (key_of keys) (df_rows df))) as (Hnd & _ & _).
    fold mask in Hnd. rewrite select_map in Hnd.
    assert (Hfresh : duplicated_keys [] (map (key_of keys) (df_rows res)) =
                     map (fun _ => false) (map (key_of keys) (df_rows res))).
    { apply duplicated_keys_fresh; [exact Hnd|]. intros k' _ Hin.
      by apply not_elem_of_nil in Hin. }
    rewrite Hfresh. eexists. split; [reflexivity|]. split.
    + unfold drop_flagged, getitem_mask. rewrite !length_map.
      rewrite bool_decide_eq_true_2 by done.
      rewrite select_none_flagged by (by rewrite length_map). done.
    + apply mask_sum_none_flagged.
Qed.

(** On a frame with the four hash columns the engine computes the hash the
    validator computes. *)
Lemma create_hash_all_columns (df : DataFrame) (row : gmap string Cell) :
  forallb (has_column df) Validators.hash_columns = true ->
  create_hash df row = VStr (Validators.row_content_hash row).
Proof.
  intros Hall. unfold create_hash, Validators.row_content_hash. do 3 f_equal.
  simpl in Hall. repeat (apply andb_prop in Hall as [? Hall]).
  unfold hash_columns. rewrite !filter_cons, filter_nil.
  repeat (rewrite decide_True by assumption). reflexivity.
Qed.


(** Deduplicating a deduplicated frame changes nothing: when [deduplicate]
    has returned [res] under the hash or the key strategy, a second call
    on [res] with the same strategy returns [res] again and reports no
    duplicate. *)
Theorem dedup_twice_removes_nothing (self1 self1' self2 : DedupStats)
    (df res : DataFrame) (stats1 : DedupStats) (strategy : string)
    (key_columns : option (list string)) :
  strategy = "hash" \/ strategy = "key" ->
  deduplicate self1 df strategy key_columns = (self1', Ok (res, stats1)) ->
  exists stats2 self2',
    deduplicate self2 res strategy key_columns = (self2', Ok (res, stats2)) /\
    duplicates_found stats2 = 0 /\ duplicates_removed stats2 = 0 /\
    total_input stats2 = final_count stats1 /\
    final_count stats2 = final_count stats1.
Proof.
  intros Hstrategy Hfirst.
  assert (Hcore : exists df' keys mask,
    duplicated df' keys = Ok mask /\ drop_flagged df' mask = Ok res /\
    final_count stats1 = len res /\
    forall self mask2,
      duplicated res keys = Ok mask2 -> drop_flagged res mask2 = Ok res ->
      deduplicate self res strategy key_columns =
        (let s := set_final_count
                    (set_duplicates_found (set_total_input self (len res)) (mask_sum mask2))
                    (len res) in
         let s := set_duplicates_removed s (total_input s - final_count s) in
         (s, Ok (res, s)))).
  { destruct Hstrategy as [-> | ->].
    - revert Hfirst. unfold deduplicate. rewrite bool_decide_eq_true_2 by done.
      unfold _deduplicate_by_hash.
      set (df' := if has_column df "content_hash" then df else _generate_content_hash df).
      destruct (duplicated df' ["content_hash"]) as [mask|e] eqn:Hdup; [|done].
      destruct (drop_flagged df' mask) as [res'|e] eqn:Hdrop; [|done].
      intros Hfirst. inversion Hfirst; subst. clear Hfirst.
      exists df', ["content_hash"], mask. split; [done|]. split; [done|]. split; [done|].
      intros self mask2 Hdup2 Hdrop2.
      assert (Hhas : has_column res "content_hash" = true).
      { pose proof (drop_flagged_count _ _ _ Hdrop) as (-> & _).
        unfold has_column. cbn [df_columns]. apply (has_content_hash_after df). }
      rewrite Hhas, Hdup2, Hdrop2. reflexivity.
    - revert Hfirst. unfold deduplicate. rewrite bool_decide_eq_false_2 by discriminate.
      rewrite bool_decide_eq_true_2 by done. unfold _deduplicate_by_key.
      set (keys := default ["numero_operacion"] key_columns).
      destruct (duplicated df keys) as [mask|e] eqn:Hdup; [|done].
      destruct (drop_flagged df mask) as [res'|e] eqn:Hdrop; [|done].
      intros Hfirst. inversion Hfirst; subst. clear Hfirst.
      exists df, keys, mask. split; [done|]. split; [done|]. split; [done|].
      intros self mask2 Hdup2 Hdrop2. rewrite Hdup2, Hdrop2. reflexivity. }
  destruct Hcore as (df' & keys & mask & Hdup & Hdrop & Hfinal & Hsecond).
  destruct (duplicated_after_drop df' res keys mask Hdup Hdrop)
    as (mask2 & Hdup2 & Hdrop2 & Hsum).
  eexists _, _. split; [apply (Hsecond self2 mask2 Hdup2 Hdrop2)|].
  cbn. rewrite Hsum, Hfinal. repeat split; lia.
Qed.

(** Hashing first with the validator makes no difference to the hash
    strategy: on a frame without a [content_hash] column, [deduplicate]
    returns the same on the frame [generate_content_hash] gives as on the
    frame itself. *)
Theorem prehashed_dedup_agrees (self : DedupStats) (df hashed_df : DataFrame)
    (key_columns : option (list string)) :
  has_column df "content_hash" = false ->
  Validators.generate_content_hash df = Ok hashed_df ->
  deduplicate self hashed_df "hash" key_columns =
  deduplicate self df "hash" key_columns.
Proof.
  intros Hno. unfold Validators.generate_content_hash.
  destruct (forallb (has_column df) Validators.hash_columns) eqn:Hall; [|done].
  intros Hgen.
  assert (Heq : hashed_df = _generate_content_hash df).
  { inversion Hgen. unfold _generate_content_hash, assign_column. f_equal.
    apply map_ext. intros row. by rewrite create_hash_all_columns. }
  subst hashed_df. clear Hgen.
  pose proof (has_content_hash_after df) as Hhas. rewrite Hno in Hhas.
  unfold deduplicate. rewrite !bool_decide_eq_true_2 by done.
  unfold _deduplicate_by_hash. rewrite Hhas, Hno.
  by rewrite len_generate_content_hash.
Qed.

End DedupMore.

Section DedupMoreRuns.
Import Dedup Samples.


Lemma dedup_twice_removes_nothing_witness :
  exists res stats1 self1' stats2 self2',
    deduplicate new_engine scenario_a_valid "hash" None = (self1', Ok (res, stats1)) /\
    deduplicate new_engine res "hash" None = (self2', Ok (res, stats2)) /\
    duplicates_found stats2 = 0 /\ final_count stats2 = final_count stats1.
Proof.
  destruct (deduplicate_by_hash_returns new_engine scenario_a_valid None)
    as (mask & res & stats1 & self1' & Hfirst & _).
  destruct (dedup_twice_removes_nothing new_engine self1' new_engine scenario_a_valid
              res stats1 "hash" None (or_introl eq_refl) Hfirst)
    as (stats2 & self2' & Hsecond & Hfound & _ & _ & Hfinal).
  exists res, stats1, self1', stats2, self2'.
  split; [exact Hfirst|]. split; [exact Hsecond|]. split; [exact Hfound | exact Hfinal].
Defined.

Lemma prehashed_dedup_agrees_witness :
  deduplicate new_engine (hashed scenario_a_valid) "hash" None =
  deduplicate new_engine scenario_a_valid "hash" None.
Proof.
  apply prehashed_dedup_agrees; [reflexivity | by_evaluation].
Defined.

End DedupMoreRuns.

Section DedupReportFacts.
Context `{PyStr}.
Import Dedup.

Lemma rate_bounds (removed total : Z) :
  0 <= removed <= total -> 0 < total ->
  (Q2Qc 0 <= Q2Qc (inject_Z removed) / Q2Qc (inject_Z total))%Qc /\
  (Q2Qc (inject_Z removed) / Q2Qc (inject_Z total) <= Q2Qc 1)%Qc.
Proof.
  intros [Hpos Hle] Htotal.
  assert (Ht : (0 < inject_Z total)%Q) by (rewrite <- (Zlt_Qlt 0); exact Htotal).
  unfold Qcle, Qcdiv, Qcmult, Qcinv. cbn [this Q2Qc].
  rewrite !Qred_correct. split.
  - apply Qle_shift_div_l; [exact Ht|]. rewrite Qmult_0_l.
    rewrite <- (Zle_Qle 0). exact Hpos.
  - apply Qle_shift_div_r; [exact Ht|]. rewrite Qmult_1_l.
    rewrite <- Zle_Qle. exact Hle.
Qed.

(** After [deduplicate] has returned, the report's rates are fractions of
    the input: the duplicate rate is between 0 and 1, it is 0 for an input
    without rows, where nothing is divided, and the two rates add up to 1;
    the report carries the stats the call returned. *)
Theorem dedup_report_rates (self self' : DedupStats) (df res : DataFrame)
    (stats : DedupStats) (strategy : string) (key_columns : option (list string)) :
  deduplicate self df strategy key_columns = (self', Ok (res, stats)) ->
  let report := get_dedup_report self' in
  report_stats report = stats /\
  (Q2Qc 0 <= duplicate_rate report)%Qc /\ (duplicate_rate report <= Q2Qc 1)%Qc /\
  (duplicate_rate report + retention_rate report = Q2Qc 1)%Qc /\
  (len df = 0 -> duplicate_rate report = Q2Qc 0).
Proof.
  intros Hd report.
  assert (Hstats : self' = stats /\ total_input stats = len df /\
                   duplicates_removed stats = len df - len res /\
                   0 <= len res <= len df).
  { revert Hd. unfold deduplicate.
    destruct (if bool_decide (strategy = "hash") then _ else _) as [self1 [d|e]] eqn:Hs;
      [|done].
    intros Hd. inversion Hd; subst. clear Hd. cbn.
    assert (total_input self1 = len df /\ 0 <= len res <= len df) as [Ht Hres].
    { case_bool_decide as Hhash.
      - unfold _deduplicate_by_hash in Hs.
        set (df' := if has_column df "content_hash" then df else _generate_content_hash df)
          in Hs.
        assert (Hlen' : len df' = len df).
        { unfold df'. destruct (has_column df "content_hash"); [done|].
          apply len_generate_content_hash. }
        destruct (duplicated df' ["content_hash"]) as [mask|e]; [|by inversion Hs].
        inversion Hs as [[Hself Hdrop]].
        apply drop_flagged_count in Hdrop as (_ & _ & Hl & Hm). cbn. split; [done | lia].
      - case_bool_decide as Hkey; [|by inversion Hs].
        unfold _deduplicate_by_key in Hs.
        destruct (duplicated df _) as [mask|e]; [|by inversion Hs].
        inversion Hs as [[Hself Hdrop]].
        apply drop_flagged_count in Hdrop as (_ & _ & Hl & Hm). cbn. split; [done | lia]. }
    rewrite Ht. repeat split; lia. }
  destruct Hstats as (-> & Htotal & Hremoved & Hres).
  unfold report, get_dedup_report. cbn [report_stats duplicate_rate retention_rate].
  split; [done|].
  case_bool_decide as Hpos.
  - destruct (rate_bounds (duplicates_removed stats) (total_input stats)) as [H0 H1];
      [lia | lia |].
    split; [exact H0|]. split; [exact H1|]. split; [ring | lia].
  - split; [done|]. split; [done|]. split; [ring | done].
Qed.

End DedupReportFacts.

Section DedupReportRuns.
Import Dedup Samples.

(** Scenario A: one duplicate among the nine valid records. *)
Lemma dedup_report_rates_witness :
  exists res stats self',
    deduplicate new_engine scenario_a_valid "hash" None = (self', Ok (res, stats)) /\
    report_stats (get_dedup_report self') = stats /\
    (Q2Qc 0 <= duplicate_rate (get_dedup_report self'))%Qc /\
    (duplicate_rate (get_dedup_report self') <= Q2Qc 1)%Qc.
Proof.
  destruct (deduplicate_by_hash_returns new_engine scenario_a_valid None)
    as (mask & res & stats & self' & Hd & _).
  destruct (dedup_report_rates new_engine self' scenario_a_valid res stats "hash" None Hd)
    as (Hstats & Hlow & Hhigh & _).
  exists res, stats, self'.
  split; [exact Hd|]. split; [exact Hstats|]. split; [exact Hlow | exact Hhigh].
Defined.

End DedupReportRuns.

(** ** Priority deduplication *)

Section CellOrder.
Import AdvancedDedup.

Lemma string_compare_refl (s : string) : String_as_OT.compare s s = Eq.
Proof.
  destruct (String_as_OT.compare_spec s s) as [_|Hlt|Hlt]; [done| |];
    by apply (StrictOrder_Irreflexive s) in Hlt.
Qed.

Lemma string_compare_antisym (s t : string) :
  String_as_OT.compare t s = CompOpp (String_as_OT.compare s t).
Proof.
  assert (Hasym : forall a b, String_as_OT.lt a b -> String_as_OT.compare b a = Gt).
  { intros a b Hab.
    destruct (String_as_OT.compare_spec b a) as [Heq|Hlt|Hlt]; [| |done].
    - rewrite Heq in Hab. by apply (StrictOrder_Irreflexive a) in Hab.
    - destruct (StrictOrder_Irreflexive a). by transitivity b. }
  destruct (String_as_OT.compare s t) eqn:Hst; cbn.
  - destruct (String_as_OT.compare_spec s t) as [->| |]; try done.
    apply string_compare_refl.
  - by apply Hasym.
  - by destruct (String_as_OT.compare_spec s t).
Qed.

Lemma cell_compare_eq (a b : Cell) : cell_compare a b = Eq <-> a = b.
Proof.
  destruct a as [s|p|x|], b as [t|q|y|]; cbn; try (split; discriminate); try done.
  - split.
    + intros Hc. destruct (String_as_OT.compare_spec s t) as [->| |]; done.
    + intros [= ->]. apply string_compare_refl.
  - rewrite <- Qceq_alt. split; [by intros -> | by intros [= ->]].
  - rewrite Z.compare_eq_iff. split; [by intros -> | by intros [= ->]].
Qed.

Lemma cell_compare_antisym (a b : Cell) :
  cell_compare b a = CompOpp (cell_compare a b).
Proof.
  destruct a as [s|p|x|], b as [t|q|y|]; cbn; try done.
  - apply string_compare_antisym.
  - unfold Qccompare. by rewrite <- Qcompare_antisym.
  - apply Z.compare_antisym.
Qed.

Lemma cell_compare_trans (a b c : Cell) :
  cell_compare a b = Lt -> cell_compare b c = Lt -> cell_compare a c = Lt.
Proof.
  destruct a as [s|p|x|], b as [t|q|y|], c as [u|r|z|]; cbn; try done.
  - intros Hst Htu. change (String_as_OT.lt s u). by transitivity t.
  - rewrite <- !Qclt_alt. apply Qclt_trans.
  - rewrite !Z.compare_lt_iff. lia.
Qed.

Lemma directed_compare_eq (ascending : bool) (a b : Cell) :
  directed_compare ascending a b = Eq <-> a = b.
Proof.
  unfold directed_compare.
  destruct ascending.
  - destruct a, b; try (split; discriminate); try done; apply cell_compare_eq.
  - destruct a, b; try (split; discriminate); try done;
      rewrite cell_compare_eq; split; congruence.
Qed.

Lemma directed_compare_antisym (ascending : bool) (a b : Cell) :
  directed_compare ascending b a = CompOpp (directed_compare ascending a b).
Proof.
  unfold directed_compare.
  destruct ascending, a, b; try done; apply cell_compare_antisym.
Qed.

Lemma directed_compare_trans (ascending : bool) (a b c : Cell) :
  directed_compare ascending a b = Lt -> directed_compare ascending b c = Lt ->
  directed_compare ascending a c = Lt.
Proof.
  unfold directed_compare.
  destruct ascending.
  - destruct a, b, c; try done; apply cell_compare_trans.
  - destruct a, b, c; try done; intros Hab Hbc;
      by apply (cell_compare_trans _ _ _ Hbc Hab).
Qed.

Lemma by_compare_eq (cols : list (string * bool)) (r1 r2 : gmap string Cell) :
  by_compare cols r1 r2 = Eq <-> forall c, c ∈ map fst cols -> cell r1 c = cell r2 c.
Proof.
  induction cols as [|[col asc] cols IH]; cbn [by_compare map fst].
  - split; [|done]. intros _ c Hc. by apply not_elem_of_nil in Hc.
  - destruct (directed_compare asc (cell r1 col) (cell r2 col)) eqn:Hd.
    + apply directed_compare_eq in Hd. rewrite IH. split.
      * intros Hall c Hc. apply elem_of_cons in Hc as [->|Hc]; [done | by apply Hall].
      * intros Hall c Hc. apply Hall. by apply elem_of_cons; right.
    + split; [done|]. intros Hall.
      assert (Heq : cell r1 col = cell r2 col) by (apply Hall; by apply elem_of_cons; left).
      apply (directed_compare_eq asc) in Heq. congruence.
    + split; [done|]. intros Hall.
      assert (Heq : cell r1 col = cell r2 col) by (apply Hall; by apply elem_of_cons; left).
      apply (directed_compare_eq asc) in Heq. congruence.
Qed.

Lemma by_compare_antisym (cols : list (string * bool)) (r1 r2 : gmap string Cell) :
  by_compare cols r2 r1 = CompOpp (by_compare cols r1 r2).
Proof.
  induction cols as [|[col asc] cols IH]; cbn [by_compare]; [done|].
  rewrite (directed_compare_antisym asc (cell r1 col) (cell r2 col)).
  by destruct (directed_compare asc (cell r1 col) (cell r2 col)).
Qed.

Lemma by_compare_trans (cols : list (string * bool)) (r1 r2 r3 : gmap string Cell) :
  by_compare cols r1 r2 <> Gt -> by_compare cols r2 r3 <> Gt ->
  by_compare cols r1 r3 <> Gt.
Proof.
  induction cols as [|[col asc] cols IH]; cbn [by_compare]; [done|].
  destruct (directed_compare asc (cell r1 col) (cell r2 col)) eqn:H12;
    destruct (directed_compare asc (cell r2 col) (cell r3 col)) eqn:H23; try done.
  - apply directed_compare_eq in H12, H23. rewrite H12, H23.
    rewrite (proj2 (directed_compare_eq asc _ _) eq_refl). exact IH.
  - apply directed_compare_eq in H12. rewrite H12, H23. done.
  - apply directed_compare_eq in H23. rewrite <- H23, H12. done.
  - rewrite (directed_compare_trans _ _ _ _ H12 H23). done.
Qed.

Lemma by_le_total (cols : list (string * bool)) (r1 r2 : gmap string Cell) :
  by_le cols r1 r2 = false -> by_le cols r2 r1 = true.
Proof.
  unfold by_le. rewrite (by_compare_antisym cols r1 r2).
  by destruct (by_compare cols r1 r2).
Qed.

Lemma by_le_trans (cols : list (string * bool)) (r1 r2 r3 : gmap string Cell) :
  by_le cols r1 r2 = true -> by_le cols r2 r3 = true -> by_le cols r1 r3 = true.
Proof.
  unfold by_le. intros H12 H23.
  pose proof (by_compare_trans cols r1 r2 r3) as Htrans.
  destruct (by_compare cols r1 r2); try done;
    destruct (by_compare cols r2 r3); try done;
    destruct (by_compare cols r1 r3); try done; by destruct Htrans.
Qed.

(** Rows that are each before the other agree on every sort column. *)
Lemma by_le_both (cols : list (string * bool)) (r1 r2 : gmap string Cell) :
  by_le cols r1 r2 = true /\ by_le cols r2 r1 = true <->
  forall c, c ∈ map fst cols -> cell r1 c = cell r2 c.
Proof.
  rewrite <- by_compare_eq. unfold by_le. rewrite (by_compare_antisym cols r1 r2).
  destruct (by_compare cols r1 r2); cbn; split; try done; by intros [? ?].
Qed.

(** Between rows with the same key the priority column decides. *)
Lemma by_compare_same_key (keys : list string) (priority : string) (ascending : bool)
    (r1 r2 : gmap string Cell) :
  (forall c, c ∈ keys -> cell r1 c = cell r2 c) ->
  by_compare (map (fun c => (c, true)) keys ++ [(priority, ascending)])%list r1 r2 =
  directed_compare ascending (cell r1 priority) (cell r2 priority).
Proof.
  induction keys as [|k keys IH]; intros Hsame; cbn [map app by_compare].
  - by destruct (directed_compare ascending _ _).
  - rewrite (proj2 (directed_compare_eq true _ _)).
    + apply IH. intros c Hc. apply Hsame. by apply elem_of_cons; right.
    + apply Hsame. by apply elem_of_cons; left.
Qed.

End CellOrder.

Section StableSortFacts.
Import AdvancedDedup.
Context {A : Type} (le : A -> A -> bool).
Hypothesis le_total : forall x y, le x y = false -> le y x = true.
Hypothesis le_trans : forall x y z, le x y = true -> le y z = true -> le x z = true.

Lemma insert_sorted_perm (x : A) (l : list A) : insert_sorted le x l ≡ₚ x :: l.
Proof.
  induction l as [|y l IH]; cbn [insert_sorted]; [done|].
  destruct (le x y); [done|]. rewrite IH. apply Permutation_swap.
Qed.

Lemma stable_sort_perm (l : list A) : stable_sort le l ≡ₚ l.
Proof.
  induction l as [|x l IH]; [done|]. cbn [stable_sort fold_right].
  rewrite insert_sorted_perm. by f_equiv.
Qed.

Lemma insert_sorted_sorted (x : A) (l : list A) :
  StronglySorted (fun a b => le a b = true) l ->
  StronglySorted (fun a b => le a b = true) (insert_sorted le x l).
Proof.
  induction 1 as [|y l Hl IH Hy]; cbn [insert_sorted].
  - repeat constructor.
  - destruct (le x y) eqn:Hxy.
    + constructor; [by constructor|]. constructor; [done|].
      eapply Forall_impl; [exact Hy|]. intros z Hz. by apply (le_trans x y z).
    + constructor; [exact IH|]. rewrite insert_sorted_perm.
      constructor; [by apply le_total | exact Hy].
Qed.

Lemma stable_sort_sorted (l : list A) :
  StronglySorted (fun a b => le a b = true) (stable_sort le l).
Proof.
  induction l as [|x l IH]; [constructor|]. by apply insert_sorted_sorted.
Qed.

Lemma strongly_sorted_lookup (R : A -> A -> Prop) (l : list A) :
  StronglySorted R l ->
  forall i j x y, (i < j)%nat -> l !! i = Some x -> l !! j = Some y -> R x y.
Proof.
  induction 1 as [|a l Hl IH Ha]; intros i j x y Hij Hi Hj; [done|].
  destruct j as [|j]; [lia|]. cbn in Hj. destruct i as [|i]; cbn in Hi.
  - inversion Hi; subst a. rewrite Forall_forall in Ha. apply Ha.
    by eapply list_elem_of_lookup_2.
  - apply (IH i j); [lia | done | done].
Qed.

(** The sort is stable: the rows that are each before the other are in
    the order they had. *)
Lemma stable_sort_stable (a : A) (l : list A) :
  filter (fun x => le a x = true /\ le x a = true) (stable_sort le l) =
  filter (fun x => le a x = true /\ le x a = true) l.
Proof.
  assert (Hins : forall x s,
    filter (fun x => le a x = true /\ le x a = true) (insert_sorted le x s) =
    filter (fun x => le a x = true /\ le x a = true) (x :: s)).
  { intros x s. induction s as [|y s IH]; cbn [insert_sorted]; [done|].
    destruct (le x y) eqn:Hxy; [done|].
    rewrite filter_cons, IH, !filter_cons.
    destruct (decide (le a y = true /\ le y a = true)) as [[Hay Hya]|Hy]; [|done].
    destruct (decide (le a x = true /\ le x a = true)) as [[Hax Hxa]|Hx]; [|done].
    rewrite (le_trans x a y Hxa Hay) in Hxy. discriminate. }
  induction l as [|x l IH]; [done|]. cbn [stable_sort fold_right].
  rewrite Hins, !filter_cons. fold (stable_sort le l). by rewrite IH.
Qed.

Lemma filter_first (P : A -> Prop) `{forall x, Decision (P x)} (l : list A) :
  forall p x, l !! p = Some x -> P x ->
  (forall q y, (q < p)%nat -> l !! q = Some y -> ~ P y) ->
  exists rest, filter P l = x :: rest.
Proof.
  induction l as [|a l IH]; intros p x Hp Hx Hbefore; [done|].
  rewrite filter_cons. destruct p as [|p]; cbn in Hp.
  - inversion Hp; subst a. rewrite decide_True by done. by eexists.
  - rewrite decide_False by (apply (Hbefore 0%nat); [lia | done]).
    apply (IH p); [done | done|]. intros q y Hq Hy. apply (Hbefore (S q)); [lia | done].
Qed.

Lemma filter_head_inv (P : A -> Prop) `{forall x, Decision (P x)} (l : list A) :
  forall x rest, filter P l = x :: rest ->
  exists i, l !! i = Some x /\
    forall j y, (j < i)%nat -> l !! j = Some y -> ~ P y.
Proof.
  induction l as [|a l IH]; intros x rest Hf; [done|].
  rewrite filter_cons in Hf. destruct (decide (P a)) as [Ha|Ha].
  - inversion Hf; subst a. exists 0%nat. split; [done|]. intros j y Hj. lia.
  - destruct (IH x rest Hf) as (i & Hi & Hbefore). exists (S i). split; [done|].
    intros [|j] y Hj Hy; cbn in Hy; [by inversion Hy; subst y|].
    apply (Hbefore j); [lia | done].
Qed.

End StableSortFacts.

Section FirstOccurrence.

(** A row that [duplicated] does not flag is the first with its key. *)
Lemma kept_is_first {A} (f : A -> list Cell) (l : list A) :
  forall seen x,
  x ∈ select (map negb (duplicated_keys seen (map f l))) l ->
  exists p, l !! p = Some x /\ (f x ∉ seen) /\
    forall q y, (q < p)%nat -> l !! q = Some y -> f y <> f x.
Proof.
  induction l as [|a l IH]; intros seen x Hx; cbn in Hx; [by inversion Hx|].
  case_bool_decide as Ha; cbn in Hx.
  - destruct (IH _ _ Hx) as (p & Hp & Hseen & Hbefore).
    exists (S p). split; [done|]. split.
    + intros Hin. apply Hseen. by apply elem_of_cons; right.
    + intros [|q] y Hq Hy; cbn in Hy.
      * inversion Hy; subst y. intros Heq. apply Hseen. apply elem_of_cons. by left.
      * apply (Hbefore q); [lia | done].
  - apply elem_of_cons in Hx as [->|Hx].
    + exists 0%nat. split; [done|]. split; [done|]. intros q y Hq. lia.
    + destruct (IH _ _ Hx) as (p & Hp & Hseen & Hbefore).
      exists (S p). split; [done|]. split.
      * intros Hin. apply Hseen. by apply elem_of_cons; right.
      * intros [|q] y Hq Hy; cbn in Hy.
        -- inversion Hy; subst y. intros Heq. apply Hseen. apply elem_of_cons. by left.
        -- apply (Hbefore q); [lia | done].
Qed.

End FirstOccurrence.

Section PriorityFacts.
Import Dedup AdvancedDedup.

(** What [deduplicate_with_priority] returns, when it returns: the rows
    sorted by key and priority, without those that follow a row of the
    same key. *)
Lemma priority_dedup_inv (df res : DataFrame) (key_columns : list string)
    (priority_column priority_order : string) :
  deduplicate_with_priority df key_columns priority_column priority_order = Ok res ->
  let sorted :=
    stable_sort
      (by_le (map (fun c => (c, true)) key_columns
              ++ [(priority_column, bool_decide (priority_order = "asc"))])%list)
      (df_rows df) in
  res = Frame (df_columns df)
          (select (map negb (duplicated_keys [] (map (key_of key_columns) sorted)))
                  sorted).
Proof.
  unfold deduplicate_with_priority.
  destruct key_columns as [|k ks] eqn:Hkeys.
  - destruct (has_column df priority_column); cbn [negb]; [|done].
    case_bool_decide as Hrows.
    + intros Hres. inversion Hres; subst res. destruct df as [cols rows].
      cbn in Hrows. by subst rows.
    + by destruct (one_kind _).
  - rewrite <- Hkeys.
    set (cols := (map (fun c => (c, true)) key_columns
                  ++ [(priority_column, bool_decide (priority_order = "asc"))])%list).
    unfold sort_values.
    destruct (filter (fun c => c ∉ df_columns df) (map fst cols)) as [|c0 cs] eqn:Hmissing;
      [|done].
    destruct (forallb _ (map fst cols)); [|done].
    cbn [mbind result_bind]. cbn zeta.
    set (sorted := stable_sort (by_le cols) (df_rows df)). intros Hres.
    assert (Hk : k ∈ df_columns df).
    { destruct (decide (k ∈ df_columns df)) as [|Hnot]; [done|].
      assert (Hin : k ∈ filter (fun c => c ∉ df_columns df) (map fst cols)).
      { apply list_elem_of_filter. split; [done|]. unfold cols. rewrite Hkeys.
        cbn. by apply elem_of_cons; left. }
      rewrite Hmissing in Hin. by apply not_elem_of_nil in Hin. }
    assert (Hne : key_columns <> []) by (rewrite Hkeys; discriminate).
    revert Hres. unfold drop_duplicates.
    destruct (empty (Frame (df_columns df) sorted)) eqn:Hempty.
    + intros Hres. inversion Hres; subst res. f_equal.
      unfold empty in Hempty. cbn [df_columns df_rows] in Hempty.
      destruct (df_columns df); [by apply not_elem_of_nil in Hk|].
      by destruct sorted.
    + destruct (duplicated (Frame (df_columns df) sorted) key_columns) as [mask|e] eqn:Hdup;
        [|done].
      cbn [mbind result_bind]. intros Hres.
      apply drop_flagged_count in Hres as (-> & _). cbn [df_columns df_rows].
      destruct (forallb (has_column (Frame (df_columns df) sorted)) key_columns) eqn:Hall.
      * rewrite (duplicated_on_keys _ _ Hne Hall) in Hdup. by inversion Hdup.
      * unfold duplicated in Hdup. by rewrite Hempty, Hall in Hdup.
Qed.

(** Priority deduplication keeps, for every key, the record that ranks
    first: the result has the columns of the input, one record for every
    key of the input and no key twice; every record kept is a record of the
    input that no record with the same key cells beats on the priority
    column, in the direction asked for and with a missing priority last in
    both directions; among the records that tie with it, it is the
    earliest of the input. *)
Theorem priority_dedup_keeps_best (df res : DataFrame) (key_columns : list string)
    (priority_column priority_order : string) :
  deduplicate_with_priority df key_columns priority_column priority_order = Ok res ->
  df_columns res = df_columns df /\
  NoDup (map (key_of key_columns) (df_rows res)) /\
  (forall k, k ∈ map (key_of key_columns) (df_rows df) <->
             k ∈ map (key_of key_columns) (df_rows res)) /\
  forall r, r ∈ df_rows res ->
    exists i, df_rows df !! i = Some r /\
      forall j r', df_rows df !! j = Some r' ->
        (forall c, c ∈ key_columns -> cell r' c = cell r c) ->
        directed_compare (bool_decide (priority_order = "asc"))
          (cell r priority_column) (cell r' priority_column) <> Gt /\
        (cell r' priority_column = cell r priority_column -> (i <= j)%nat).
Proof.
  intros Hres. apply priority_dedup_inv in Hres.
  set (asc := bool_decide (priority_order = "asc")) in *.
  set (cols := (map (fun c => (c, true)) key_columns ++ [(priority_column, asc)])%list) in *.
  set (sorted := stable_sort (by_le cols) (df_rows df)) in *.
  cbn zeta in Hres. subst res. cbn [df_columns df_rows].
  pose proof (stable_sort_perm (by_le cols) (df_rows df)) as Hperm. fold sorted in Hperm.
  pose proof (kept_keys [] (map (key_of key_columns) sorted)) as (Hnd & Hkept & Hall).
  rewrite select_map in Hnd, Hkept, Hall.
  split; [done|]. split; [exact Hnd|]. split.
  { intros k. rewrite <- Hperm. split.
    - intros Hk. destruct (Hall k Hk) as [Hin|Hin]; [by apply not_elem_of_nil in Hin | done].
    - intros Hk. by apply Hkept. }
  intros r Hr.
  destruct (kept_is_first (key_of key_columns) sorted [] r Hr) as (p & Hp & _ & Hfirst).
  assert (Hequiv : forall x,
    by_le cols r x = true /\ by_le cols x r = true -> key_of key_columns x = key_of key_columns r).
  { intros x Hx. pose proof (proj1 (by_le_both cols r x) Hx) as Hx'.
    apply key_of_eq. intros c Hc. symmetry. apply Hx'. unfold cols. rewrite map_app, map_map. cbn.
    apply elem_of_app. left. rewrite map_id. exact Hc. }
  assert (Hrefl : by_le cols r r = true /\ by_le cols r r = true).
  { by apply by_le_both. }
  destruct (filter_first (fun x => by_le cols r x = true /\ by_le cols x r = true)
              sorted p r Hp Hrefl) as (rest & Hhead).
  { intros q y Hq Hy Hyr. apply (Hfirst q y Hq Hy). by apply Hequiv. }
  unfold sorted in Hhead.
  rewrite (stable_sort_stable (by_le cols) (by_le_trans cols)) in Hhead.
  apply filter_head_inv in Hhead as (i & Hi & Hearlier).
  exists i. split; [exact Hi|].
  intros j r' Hj Hsame.
  assert (Hle : by_le cols r r' = true).
  { assert (Hin : r' ∈ sorted).
    { rewrite Hperm. by eapply list_elem_of_lookup_2. }
    apply list_elem_of_lookup in Hin as (q & Hq).
    destruct (Nat.lt_trichotomy q p) as [Hlt|[->|Hgt]].
    - destruct (Hfirst q r' Hlt Hq). by apply key_of_eq.
    - rewrite Hp in Hq. inversion Hq; subst r'. apply Hrefl.
    - exact (strongly_sorted_lookup _ sorted
               (stable_sort_sorted (by_le cols) (by_le_total cols) (by_le_trans cols) _)
               p q r r' Hgt Hp Hq). }
  assert (Hcmp : by_compare cols r r' =
                 directed_compare asc (cell r priority_column) (cell r' priority_column)).
  { apply by_compare_same_key. intros c Hc. symmetry. by apply Hsame. }
  split.
  - unfold by_le in Hle. rewrite Hcmp in Hle. intros Hgt. by rewrite Hgt in Hle.
  - intros Htie. destruct (decide (i <= j)%nat) as [|Hlt]; [done|].
    destruct (Hearlier j r' ltac:(lia) Hj).
    apply by_le_both. intros c Hc. unfold cols in Hc.
    rewrite map_app, map_map in Hc. cbn in Hc. rewrite map_id in Hc.
    apply elem_of_app in Hc as [Hc|Hc]; [symmetry; by apply Hsame|].
    apply list_elem_of_singleton in Hc. by subst c.
Qed.

(** Cells of one kind can be ordered. *)
Lemma one_kind_orderable (cs : list Cell) : one_kind cs = true -> orderable cs = true.
Proof.
  unfold one_kind, orderable. intros Hone.
  destruct (existsb is_number cs) eqn:Hnum; [|done].
  destruct (existsb is_timestamp cs) eqn:Htime; [|done].
  apply existsb_exists in Hnum as (a & Ha & Hnum).
  apply existsb_exists in Htime as (b & Hb & Htime).
  destruct a; try discriminate Hnum. destruct b; try discriminate Htime.
  assert (Hsame : forall c1 c2, c1 ∈ filter (fun c => c <> VNull) cs ->
                    c2 ∈ filter (fun c => c <> VNull) cs -> kind_rank c1 = kind_rank c2).
  { destruct (filter (fun c => c <> VNull) cs) as [|c0 cs0]; [by intros c1 c2 Hc1; inversion Hc1|].
    rewrite forallb_forall in Hone.
    assert (Hc0 : forall c, c ∈ c0 :: cs0 -> kind_rank c = kind_rank c0).
    { intros c Hc. apply elem_of_cons in Hc as [->|Hc]; [done|].
      apply list_elem_of_In in Hc. exact (bool_decide_eq_true_1 _ (Hone c Hc)). }
    intros c1 c2 Hc1 Hc2. by rewrite (Hc0 c1 Hc1), (Hc0 c2 Hc2). }
  specialize (Hsame (VNum q) (VTime t)). cbn in Hsame.
  assert (0 = 1)%nat; [|lia].
  apply Hsame; apply list_elem_of_filter; (split; [done|]); by apply list_elem_of_In.
Qed.

(** With key columns the call returns as soon as the frame has the key and
    priority columns and each of them holds cells of one kind (text,
    numbers or timestamps, besides missing cells), and then removes no more
    rows than the frame has. *)
Theorem priority_dedup_returns (df : DataFrame) (key_columns : list string)
    (priority_column priority_order : string) :
  key_columns <> [] ->
  (forall c, c ∈ key_columns \/ c = priority_column ->
     c ∈ df_columns df /\
     one_kind (map (fun row => cell row c) (df_rows df)) = true) ->
  exists res,
    deduplicate_with_priority df key_columns priority_column priority_order = Ok res /\
    0 <= len res <= len df.
Proof.
  intros Hne Hkinds.
  assert (Hcols : forall c, c ∈ key_columns \/ c = priority_column ->
            c ∈ df_columns df /\
            orderable (map (fun row => cell row c) (df_rows df)) = true).
  { intros c Hc. destruct (Hkinds c Hc) as [Hin Hone]. split; [done|].
    by apply one_kind_orderable. }
  clear Hkinds.
  set (asc := bool_decide (priority_order = "asc")).
  set (cols := (map (fun c => (c, true)) key_columns ++ [(priority_column, asc)])%list).
  assert (Hby : forall c, c ∈ map fst cols -> c ∈ key_columns \/ c = priority_column).
  { intros c Hc. unfold cols in Hc. rewrite map_app, map_map in Hc. cbn in Hc.
    rewrite map_id in Hc. apply elem_of_app in Hc as [Hc|Hc]; [by left | right].
    by apply list_elem_of_singleton in Hc. }
  assert (Hsort : sort_values df cols =
                  Ok (Frame (df_columns df) (stable_sort (by_le cols) (df_rows df)))).
  { unfold sort_values. rewrite filter_none.
    - assert (forallb (fun c => orderable (map (fun row => cell row c) (df_rows df)))
                      (map fst cols) = true) as ->; [|done].
      apply forallb_forall. intros c Hc. apply list_elem_of_In in Hc.
      by apply Hcols, Hby.
    - intros c Hc Hnot. apply Hnot. by apply Hcols, Hby. }
  set (sorted := stable_sort (by_le cols) (df_rows df)) in *.
  assert (Hlen : length sorted = length (df_rows df)).
  { unfold sorted. by rewrite (stable_sort_perm (by_le cols) (df_rows df)). }
  assert (Hdrop : exists res,
    drop_duplicates (Frame (df_columns df) sorted) key_columns = Ok res /\
    (length (df_rows res) <= length sorted)%nat).
  { unfold drop_duplicates. destruct (empty _); [by eexists|].
    rewrite duplicated_on_keys; [|done|].
    - cbn [mbind result_bind df_rows]. unfold drop_flagged, getitem_mask.
      rewrite !length_map, length_duplicated_keys, length_map. cbn [df_rows].
      rewrite bool_decide_eq_true_2 by done. eexists. split; [reflexivity|].
      cbn [df_rows].
      pose proof (length_select_negb
        (duplicated_keys [] (map (key_of key_columns) sorted)) sorted) as Hsel.
      rewrite length_duplicated_keys, length_map in Hsel. specialize (Hsel eq_refl). lia.
    - apply forallb_forall. intros c Hc. apply list_elem_of_In in Hc.
      unfold has_column. cbn [df_columns]. apply bool_decide_eq_true.
      apply Hcols. by left. }
  destruct Hdrop as (res & Hres & Hle).
  exists res. split.
  - replace (deduplicate_with_priority df key_columns priority_column priority_order)
      with (df_sorted ← sort_values df cols; drop_duplicates df_sorted key_columns)
      by (by destruct key_columns).
    rewrite Hsort. exact Hres.
  - unfold len. lia.
Qed.

End PriorityFacts.

Section PriorityRuns.
Import AdvancedDedup Samples.

(** Scenario C: of the three records of OP-00000007 the one with the
    latest timestamp is kept; the result is in key order. *)
Lemma priority_dedup_keeps_best_witness :
  let res := Frame operation_columns
               [operation "OP-00000007" (Q2Qc 30) 300 (VStr "DEPOSITO");
                operation "OP-00000008" (Q2Qc 40) 100 (VStr "DEPOSITO")] in
  deduplicate_with_priority scenario_c ["numero_operacion"] "fecha_operacion" "desc"
    = Ok res /\
  NoDup (map (key_of ["numero_operacion"]) (df_rows res)) /\
  forall r, r ∈ df_rows res ->
    exists i, df_rows scenario_c !! i = Some r /\
      forall j r', df_rows scenario_c !! j = Some r' ->
        (forall c, c ∈ ["numero_operacion"] -> cell r' c = cell r c) ->
        directed_compare false (cell r "fecha_operacion") (cell r' "fecha_operacion")
          <> Gt /\
        (cell r' "fecha_operacion" = cell r "fecha_operacion" -> (i <= j)%nat).
Proof.
  intros res.
  assert (Hres : deduplicate_with_priority scenario_c ["numero_operacion"]
                   "fecha_operacion" "desc" = Ok res) by by_evaluation.
  destruct (priority_dedup_keeps_best scenario_c res ["numero_operacion"]
              "fecha_operacion" "desc" Hres) as (_ & Hnd & _ & Hbest).
  split; [exact Hres|]. split; [exact Hnd | exact Hbest].
Defined.

Lemma priority_dedup_returns_witness :
  exists res,
    deduplicate_with_priority scenario_c ["numero_operacion"] "fecha_operacion" "asc"
      = Ok res /\
    0 <= len res <= len scenario_c.
Proof.
  apply priority_dedup_returns; [discriminate|].
  intros c [Hc| ->].
  - apply list_elem_of_singleton in Hc. subst c. split; by_evaluation.
  - split; by_evaluation.
Defined.

End PriorityRuns.

(** ** Invariants of the SQLite upsert *)

Section LoaderInvariants.
Context `{Loader.PyConv} `{Loader.SqlServer}.
Import Loader.

Lemma bind_param_inv (v v' : Cell) : bind_param v = Ok v' -> v' = v.
Proof. destruct v; cbn; intros Hb; by inversion Hb. Qed.

Lemma getitem_inv (cols : list string) (row : gmap string Cell) (c : string) (v : Cell) :
  getitem cols row c = Ok v -> c ∈ cols /\ v = cell row c.
Proof.
  unfold getitem. destruct (bool_decide (c ∈ cols)) eqn:Hc; [|discriminate].
  apply bool_decide_eq_true in Hc. intros Hg. by inversion Hg.
Qed.

(** The UPDATE of one row looks the stored rows up by the row's own
    operation id, and its SET clause leaves that column alone. *)
Lemma update_params_inv (cols : list string) (row : gmap string Cell)
    (set_clause : gmap string Cell) (num_op : Cell) :
  update_params cols row = Ok (set_clause, num_op) ->
  num_op = cell row "numero_operacion" /\ set_clause !! "numero_operacion" = None.
Proof.
  unfold update_params.
  repeat match goal with
  | |- context [mbind _ ?m] =>
      match m with
      | mbind _ _ => fail 1
      | _ => destruct m eqn:?; cbn [mbind result_bind]; [|discriminate]
      end
  end.
  intros Hp. inversion Hp; subst. split; [|by_evaluation].
  match goal with Hg : getitem _ _ "numero_operacion" = Ok ?a |- _ =>
    apply getitem_inv in Hg as [_ ->] end.
  match goal with Hb : bind_param _ = Ok num_op |- _ =>
    by apply bind_param_inv in Hb end.
Qed.

Lemma sql_update_inv (t t' : list StoredRow) (set_clause : gmap string Cell)
    (num_op : Cell) :
  sql_update t set_clause num_op = Ok t' ->
  t' = map (fun sr => if where_matches num_op sr
                      then Stored (row_id sr) (set_clause ∪ row_data sr)
                      else sr) t.
Proof.
  unfold sql_update.
  destruct (null_violation _ set_clause) as [c|].
  - destruct (existsb (where_matches num_op) t) eqn:He; [discriminate|].
    intros Hu. inversion Hu; subst t'. clear Hu.
    induction t as [|sr t IH]; [done|].
    cbn [existsb] in He. apply orb_false_iff in He as [Hsr Ht].
    cbn [map]. rewrite Hsr. f_equal. by apply IH.
  - intros Hu. by inversion Hu.
Qed.

(** What the loop of UPDATE statements does to the table, however far it
    gets: every stored row keeps its place, its [id] and its operation id,
    and a row whose operation id is not in the batch is left as it is. *)
Lemma update_loop_shape (cols : list string) (rows : list (gmap string Cell)) :
  forall (t t' : list StoredRow) (r : result unit),
  update_loop t cols rows = (t', r) ->
  exists G : StoredRow -> StoredRow,
    t' = map G t /\
    forall sr,
      row_id (G sr) = row_id sr /\
      cell (row_data (G sr)) "numero_operacion" = cell (row_data sr) "numero_operacion" /\
      (cell (row_data sr) "numero_operacion"
         ∉ map (fun row => cell row "numero_operacion") rows -> G sr = sr).
Proof.
  induction rows as [|row rows IH]; intros t t' r; cbn [update_loop].
  - intros Hu. inversion Hu; subst. exists id. split; [by rewrite map_id|done].
  - destruct (update_params cols row) as [[set_clause num_op]|e] eqn:Hp;
      cbn [mbind result_bind].
    2:{ intros Hu. inversion Hu; subst. exists id. split; [by rewrite map_id|done]. }
    destruct (sql_update t set_clause num_op) as [t1|e] eqn:Hs.
    2:{ intros Hu. inversion Hu; subst. exists id. split; [by rewrite map_id|done]. }
    apply update_params_inv in Hp as [-> Hset].
    apply sql_update_inv in Hs. intros Hu.
    destruct (IH _ _ _ Hu) as (G & -> & HG).
    set (G1 := fun sr => if where_matches (cell row "numero_operacion") sr
                         then Stored (row_id sr) (set_clause ∪ row_data sr) else sr) in Hs.
    assert (HG1 : forall sr, row_id (G1 sr) = row_id sr /\
              cell (row_data (G1 sr)) "numero_operacion"
                = cell (row_data sr) "numero_operacion" /\
              (cell (row_data sr) "numero_operacion" <> cell row "numero_operacion"
                 -> G1 sr = sr)).
    { intros sr. unfold G1. destruct (where_matches _ sr) eqn:Hw; [|done].
      cbn [row_id row_data]. split; [done|]. split.
      - unfold cell. by rewrite lookup_union_r.
      - intros Hne. apply bool_decide_eq_true in Hw as [_ Hw]. congruence. }
    exists (fun sr => G (G1 sr)). split.
    + subst t1. by rewrite map_map.
    + intros sr. destruct (HG1 sr) as (Hi1 & Hk1 & Hu1).
      destruct (HG (G1 sr)) as (Hi & Hk & Hun).
      split; [congruence|]. split; [congruence|].
      intros Hnot. cbn [map] in Hnot. apply not_elem_of_cons in Hnot as [Hne Hnot].
      rewrite Hu1 by done. apply (HG sr). done.
Qed.

Lemma fold_max_ge (l : list Z) : forall a x, x ∈ a :: l -> x <= fold_left Z.max l a.
Proof.
  induction l as [|b l IH]; intros a x Hx; cbn [fold_left].
  - apply list_elem_of_singleton in Hx. lia.
  - apply elem_of_cons in Hx as [->|Hx].
    + transitivity (Z.max a b); [lia|]. apply IH, elem_of_cons. by left.
    + apply elem_of_cons in Hx as [->|Hx].
      * transitivity (Z.max a b); [lia|]. apply IH, elem_of_cons. by left.
      * apply IH, elem_of_cons. by right.
Qed.

(** The rowid SQLite assigns is larger than every id in use. *)
Lemma next_id_above (t : list StoredRow) (i : Z) :
  i ∈ map row_id t -> i < next_id t.
Proof.
  unfold next_id. destruct (map row_id t) as [|a ids]; intros Hi.
  - by apply not_elem_of_nil in Hi.
  - pose proof (fold_max_ge ids a i Hi). lia.
Qed.

Lemma insert_id_fresh (t : list StoredRow) (cols : list string)
    (row : gmap string Cell) (i : Z) :
  insert_id t cols row = Ok i -> i ∉ map row_id t.
Proof.
  assert (Hnext : next_id t ∉ map row_id t).
  { intros Hin. apply next_id_above in Hin. lia. }
  unfold insert_id. destruct (bool_decide ("id" ∈ cols)).
  2:{ intros Hi. by inversion Hi; subst. }
  destruct (cell row "id") as [s|q|z|]; try discriminate.
  - destruct (bool_decide (Qden (this q) = 1%positive)); [|discriminate].
    destruct (bool_decide (Qnum (this q) ∈ map row_id t)) eqn:Hq; [discriminate|].
    apply bool_decide_eq_false in Hq. intros Hi. by inversion Hi; subst.
  - intros Hi. by inversion Hi; subst.
Qed.

(** The INSERTs append one row per record, holding the record's cells, and
    never reuse an id. *)
Lemma insert_rows_shape (cols : list string) (rows : list (gmap string Cell)) :
  forall t t' : list StoredRow,
  insert_rows t cols rows = Ok t' ->
  exists ins,
    t' = (t ++ ins)%list /\
    map row_data ins = map (stored_data cols) rows /\
    (NoDup (map row_id t) -> NoDup (map row_id t')).
Proof.
  induction rows as [|row rows IH]; intros t t'; cbn [insert_rows].
  - intros Hi. inversion Hi; subst. exists []. by rewrite app_nil_r.
  - unfold insert_row.
    destruct (null_violation not_null_columns (stored_data cols row)); [discriminate|].
    destruct (insert_id t cols row) as [i|e] eqn:Hid; [|discriminate].
    cbn [mbind result_bind]. intros Hi.
    destruct (IH _ _ Hi) as (ins & -> & Hdata & Hnd).
    exists (Stored i (stored_data cols row) :: ins). split; [|split].
    + by rewrite <- app_assoc.
    + cbn [map row_data]. by rewrite Hdata.
    + intros Ht. apply Hnd. rewrite map_app. cbn [map row_id].
      apply NoDup_app. split; [done|]. split.
      * intros x Hx Hx'. apply list_elem_of_singleton in Hx'. subst x.
        by apply insert_id_fresh in Hid.
      * apply NoDup_singleton.
Qed.


Lemma to_sql_append_shape (t t1 : list StoredRow) (cols : list string)
    (rows : list (gmap string Cell)) :
  (if bool_decide (0 < length rows)%nat
   then to_sql_append t (Frame cols rows) else Ok t) = Ok t1 ->
  exists ins,
    t1 = (t ++ ins)%list /\
    map row_data ins = map (stored_data cols) rows /\
    (NoDup (map row_id t) -> NoDup (map row_id t1)).
Proof.
  case_bool_decide as Hlen.
  - unfold to_sql_append. cbn [df_columns df_rows].
    destruct (filter _ cols); [|discriminate]. apply insert_rows_shape.
  - intros Ht. inversion Ht; subst t1. exists []. rewrite app_nil_r.
    destruct rows; [done|]. cbn [length] in Hlen. lia.
Qed.

Lemma map_key_filter (ids : list Cell) (b : bool) (rows : list (gmap string Cell)) :
  map (fun row => cell row "numero_operacion")
      (filter (fun row => bool_decide (cell row "numero_operacion" ∈ ids) = b) rows) =
  filter (fun k => bool_decide (k ∈ ids) = b)
         (map (fun row => cell row "numero_operacion") rows).
Proof.
  induction rows as [|row rows IH]; [done|].
  cbn [map]. rewrite !filter_cons.
  destruct (decide (bool_decide (cell row "numero_operacion" ∈ ids) = b));
    cbn [map]; by rewrite IH.
Qed.

Lemma map_key_stamped (now : Z) (rows : list (gmap string Cell)) :
  map (fun row => cell row "numero_operacion")
      (map (fun row => <["fecha_carga" := VTime now]> row) rows) =
  map (fun row => cell row "numero_operacion") rows.
Proof.
  rewrite map_map. apply map_ext. intros row. rewrite cell_stamped.
  destruct (decide ("numero_operacion" = "fecha_carga")) as [Heq|_];
    [discriminate Heq | done].
Qed.

Lemma map_key_stored (cols : list string) (ins : list StoredRow)
    (rows : list (gmap string Cell)) :
  "numero_operacion" ∈ cols ->
  map row_data ins = map (stored_data cols) rows ->
  map (fun sr => cell (row_data sr) "numero_operacion") ins =
  map (fun row => cell row "numero_operacion") rows.
Proof.
  intros Hc. revert rows.
  induction ins as [|sr ins IH]; intros [|row rows] Hd; try done.
  cbn [map] in *. inversion Hd as [[Hsr Hins]]. f_equal; [|by apply IH].
  rewrite Hsr. unfold cell at 1. by rewrite cell_stored_data.
Qed.

(** One call of the SQLite upsert, on any batch and whatever its outcome:
    the table after the call is the table before it, followed by the rows
    inserted, with some rows overwritten in place. *)
Lemma upsert_sqlite_shape (n : Z) (t t' : list StoredRow) (df : DataFrame) (now : Z)
    (stats' : LoadStats) (r : result unit) :
  _upsert_sqlite (LStats 0 0 0 n) t df now = (t', stats', r) ->
  let ids := map (fun sr => cell (row_data sr) "numero_operacion") t in
  let keys := map (fun row => cell row "numero_operacion") (df_rows df) in
  let new_keys := filter (fun k => bool_decide (k ∈ ids) = false) keys in
  let update_keys := filter (fun k => bool_decide (k ∈ ids) = true) keys in
  exists (ins : list StoredRow) (G : StoredRow -> StoredRow),
    t' = map G (t ++ ins)%list /\
    (forall sr,
       row_id (G sr) = row_id sr /\
       cell (row_data (G sr)) "numero_operacion" = cell (row_data sr) "numero_operacion" /\
       (cell (row_data sr) "numero_operacion" ∉ keys -> G sr = sr)) /\
    (NoDup (map row_id t) -> NoDup (map row_id (t ++ ins)%list)) /\
    (ins = [] \/ map (fun sr => cell (row_data sr) "numero_operacion") ins = new_keys) /\
    (r = Ok tt ->
       map (fun sr => cell (row_data sr) "numero_operacion") ins = new_keys /\
       stats' = LStats (Z.of_nat (length new_keys)) (Z.of_nat (length update_keys)) 0 n) /\
    (r <> Ok tt -> update_keys = [] -> t' = t).
Proof.
  intros Hu ids keys new_keys update_keys.
  assert (Htrivial : t' = t -> r <> Ok tt ->
    exists (ins : list StoredRow) (G : StoredRow -> StoredRow),
    t' = map G (t ++ ins)%list /\
    (forall sr,
       row_id (G sr) = row_id sr /\
       cell (row_data (G sr)) "numero_operacion" = cell (row_data sr) "numero_operacion" /\
       (cell (row_data sr) "numero_operacion" ∉ keys -> G sr = sr)) /\
    (NoDup (map row_id t) -> NoDup (map row_id (t ++ ins)%list)) /\
    (ins = [] \/ map (fun sr => cell (row_data sr) "numero_operacion") ins = new_keys) /\
    (r = Ok tt ->
       map (fun sr => cell (row_data sr) "numero_operacion") ins = new_keys /\
       stats' = LStats (Z.of_nat (length new_keys)) (Z.of_nat (length update_keys)) 0 n) /\
    (r <> Ok tt -> update_keys = [] -> t' = t)).
  { intros -> Hr. exists [], id. rewrite app_nil_r, map_id.
    repeat split; try done. by left. }
  revert Hu. unfold _upsert_sqlite.
  destruct (has_column (stamp df now) "numero_operacion") eqn:Hhas; cbn [negb].
  2:{ intros Hu. inversion Hu; subst. by apply Htrivial. }
  apply bool_decide_eq_true in Hhas.
  rewrite stamp_rows, !filter_stamped. fold ids.
  set (new_rows := filter (fun row => bool_decide (cell row "numero_operacion" ∈ ids) = false)
                          (df_rows df)).
  set (update_rows := filter (fun row => bool_decide (cell row "numero_operacion" ∈ ids) = true)
                             (df_rows df)).
  set (stampf := fun row : gmap string Cell => <["fecha_carga" := VTime now]> row).
  assert (Hnew : map (fun row => cell row "numero_operacion") new_rows = new_keys)
    by apply map_key_filter.
  assert (Hupd : map (fun row => cell row "numero_operacion") update_rows = update_keys)
    by apply map_key_filter.
  destruct (if bool_decide (0 < length (map stampf new_rows))%nat
            then to_sql_append t (Frame (df_columns (stamp df now)) (map stampf new_rows))
            else Ok t) as [t1|e] eqn:Hins.
  2:{ intros Hu. inversion Hu; subst. by apply Htrivial. }
  apply to_sql_append_shape in Hins as (ins & -> & Hdata & Hnd).
  apply (map_key_stored _ _ _ Hhas) in Hdata.
  unfold stampf in Hdata. rewrite map_key_stamped, Hnew in Hdata.
  assert (Hstats :
    (if bool_decide (0 < length (map stampf new_rows))%nat
     then set_rows_inserted (LStats 0 0 0 n) (Z.of_nat (length (map stampf new_rows)))
     else LStats 0 0 0 n) = LStats (Z.of_nat (length new_keys)) 0 0 n).
  { rewrite length_map, <- Hnew, length_map. case_bool_decide as Hlen; [done|].
    destruct new_rows; [done|]. cbn [length] in Hlen. lia. }
  rewrite Hstats. clear Hstats.
  case_bool_decide as Hlen.
  - destruct (update_loop (t ++ ins) (df_columns (stamp df now)) (map stampf update_rows))
      as [t2 r2] eqn:Hloop.
    apply update_loop_shape in Hloop as (G & -> & HG).
    unfold stampf in HG. rewrite map_key_stamped, Hupd in HG.
    assert (HG' : forall sr,
       row_id (G sr) = row_id sr /\
       cell (row_data (G sr)) "numero_operacion" = cell (row_data sr) "numero_operacion" /\
       (cell (row_data sr) "numero_operacion" ∉ keys -> G sr = sr)).
    { intros sr. destruct (HG sr) as (Hi & Hk & Hun). repeat split; try done.
      intros Hnot. apply Hun. intros Hin. apply Hnot.
      unfold update_keys in Hin. by apply list_elem_of_filter in Hin as [_ Hin]. }
    assert (Hne : update_keys <> []).
    { intros Hnil. rewrite length_map, <- (length_map (fun row => cell row "numero_operacion")),
        Hupd, Hnil in Hlen. cbn in Hlen. lia. }
    destruct r2 as [[]|e]; intros Hu; inversion Hu; subst; exists ins, G;
      (split; [done|]); (split; [done|]); (split; [done|]); (split; [by right|]).
    + split; [|done]. intros _. split; [done|].
      unfold set_rows_updated. cbn. by rewrite length_map, <- Hupd, length_map.
    + split; [done|]. intros _ Hnil. by destruct Hne.
  - intros Hu. inversion Hu; subst. exists ins, id. rewrite map_id.
    assert (Hnil : update_keys = []).
    { rewrite length_map, <- (length_map (fun row => cell row "numero_operacion")), Hupd in Hlen.
      destruct update_keys; [done|]. cbn [length] in Hlen. lia. }
    (split; [done|]); (split; [done|]); (split; [done|]); (split; [by right|]).
    split; [|done]. intros _. split; [done|]. by rewrite Hnil.
Qed.


Lemma length_filter_bool {A} (f : A -> bool) (l : list A) :
  (length (filter (fun x => f x = false) l) +
   length (filter (fun x => f x = true) l) = length l)%nat.
Proof.
  induction l as [|x l IH]; [done|].
  rewrite !filter_cons.
  destruct (f x); cbn [length]; repeat case_decide; try done; cbn [length]; lia.
Qed.

(** [upsert_data] by cases: the connection fails and nothing else happens,
    or the backend runs and its outcome is reported. *)
Lemma upsert_data_inv (self self' : SQLLoader) (attempt : ConnAttempt)
    (t t' : list StoredRow) (df : DataFrame) (now : Z) (r : result LoadStats) :
  upsert_data self attempt t df now = (self', t', r) ->
  (t' = t /\ engine self = false /\ load_stats self' = load_stats self /\
   exists e, r = Raise (Exn "ConnectionError" e)) \/
  exists stats1 rb,
    (if bool_decide (db_type self = "sqlite")
     then _upsert_sqlite (LStats 0 0 0 (len df)) t df now
     else if bool_decide (db_type self = "sqlserver")
     then _upsert_sqlserver (LStats 0 0 0 (len df)) t df now
     else (t, LStats 0 0 0 (len df),
           Raise (Exn "ValueError" ("Unsupported database type: " +:+ db_type self))))
      = (t', stats1, rb) /\
    match rb with
    | Ok _ => r = Ok stats1 /\ load_stats self' = stats1
    | Raise e =>
        r = Raise (Exn "RuntimeError" ("Failed to load data: " +:+ exn_str e)) /\
        load_stats self' = set_rows_failed stats1 (len df)
    end.
Proof.
  destruct self as [db eng stats0]. unfold upsert_data. cbn [engine db_type load_stats].
  assert (Hrun : forall b : list StoredRow * LoadStats * result unit,
    (let '(t', stats, r) := b in
     match r with
     | Raise e =>
         (LoaderObj db true (set_rows_failed stats (len df)), t',
          Raise (Exn "RuntimeError" ("Failed to load data: " +:+ exn_str e)))
     | Ok _ => (LoaderObj db true stats, t', Ok stats)
     end) = (self', t', r) ->
    exists stats1 rb,
      b = (t', stats1, rb) /\
      match rb with
      | Ok _ => r = Ok stats1 /\ load_stats self' = stats1
      | Raise e =>
          r = Raise (Exn "RuntimeError" ("Failed to load data: " +:+ exn_str e)) /\
          load_stats self' = set_rows_failed stats1 (len df)
      end).
  { intros [[t1 stats1] rb] Hu. exists stats1, rb.
    destruct rb; inversion Hu; subst; done. }
  destruct eng.
  - intros Hu. right. by apply Hrun.
  - destruct attempt as [|e|e]; cbn [connect db_type load_stats engine].
    + intros Hu. right. by apply Hrun.
    + intros Hu. inversion Hu; subst. left. repeat split; try done. by eexists.
    + intros Hu. inversion Hu; subst. left. repeat split; try done. by eexists.
Qed.

(** The stats of a call that returns: so many rows inserted, so many
    updated, none failed, out of the rows of the batch. *)
Lemma upsert_data_ok_stats (self self' : SQLLoader) (attempt : ConnAttempt)
    (t t' : list StoredRow) (df : DataFrame) (now : Z) (stats : LoadStats) :
  upsert_data self attempt t df now = (self', t', Ok stats) ->
  exists inserted updated,
    stats = LStats inserted updated 0 (len df) /\
    inserted + updated = len df /\
    load_stats self' = stats.
Proof.
  intros Hu. apply upsert_data_inv in Hu as [(_ & _ & _ & e & He)|Hu]; [discriminate|].
  destruct Hu as (stats1 & rb & Hb & Hr).
  destruct rb as [[]|e]; [|by destruct Hr]. destruct Hr as [Hr Hself].
  inversion Hr; subst stats1. clear Hr.
  case_bool_decide as Hlite.
  - apply upsert_sqlite_shape in Hb as (ins & G & _ & _ & _ & _ & Hok & _).
    destruct (Hok eq_refl) as [_ Hstats].
    pose proof (length_filter_bool
      (fun k => bool_decide (k ∈ map (fun sr => cell (row_data sr) "numero_operacion") t))
      (map (fun row => cell row "numero_operacion") (df_rows df))) as Hsplit.
    rewrite length_map in Hsplit.
    eexists _, _. split; [exact Hstats|]. split; [unfold len; lia | done].
  - case_bool_decide as Hserver; [|discriminate].
    unfold _upsert_sqlserver in Hb. destruct (merge_transaction t df now); [|discriminate].
    inversion Hb; subst. exists (len df), 0. split; [done|]. split; [lia | done].
Qed.

(** Whenever [upsert_data] returns, on any backend, the stats it returns
    account for the whole batch: rows_inserted + rows_updated is the batch
    size, rows_failed is 0, and the loader keeps the same stats. *)
Theorem upsert_data_counts_whole_batch (self self' : SQLLoader)
    (attempt : ConnAttempt) (t t' : list StoredRow) (df : DataFrame) (now : Z)
    (stats : LoadStats) :
  upsert_data self attempt t df now = (self', t', Ok stats) ->
  rows_inserted stats + rows_updated stats = len df /\
  rows_failed stats = 0 /\ total_processed stats = len df /\
  load_stats self' = stats.
Proof.
  intros Hu.
  destruct (upsert_data_ok_stats _ _ _ _ _ _ _ _ Hu)
    as (inserted & updated & Hstats & Hsum & Hself).
  split; [|split; [|split]].
  - rewrite Hstats. exact Hsum.
  - by rewrite Hstats.
  - by rewrite Hstats.
  - exact Hself.
Qed.




(** After a successful SQLite upsert the table holds the operation ids it
    held before, in the same places, followed by the operation ids of the
    batch that were not stored, in batch order and as often as the batch
    has them. *)
Theorem upsert_stored_keys (self self' : SQLLoader) (attempt : ConnAttempt)
    (t t' : list StoredRow) (df : DataFrame) (now : Z) (stats : LoadStats) :
  db_type self = "sqlite" ->
  upsert_data self attempt t df now = (self', t', Ok stats) ->
  map (fun sr => cell (row_data sr) "numero_operacion") t' =
  (map (fun sr => cell (row_data sr) "numero_operacion") t ++
   filter (fun k => k ∉ map (fun sr => cell (row_data sr) "numero_operacion") t)
          (map (fun row => cell row "numero_operacion") (df_rows df)))%list.
Proof.
  intros Hdb Hu. apply upsert_data_inv in Hu as [(_ & _ & _ & e & He)|Hu]; [discriminate|].
  destruct Hu as (stats1 & rb & Hb & Hr).
  rewrite Hdb, bool_decide_eq_true_2 in Hb by done.
  apply upsert_sqlite_shape in Hb as (ins & G & -> & HG & _ & _ & Hok & _).
  destruct rb as [[]|e]; [|by destruct Hr].
  destruct (Hok eq_refl) as [Hkeys _].
  rewrite map_map.
  rewrite (map_ext _ (fun sr => cell (row_data sr) "numero_operacion"))
    by (intros sr; apply HG).
  rewrite map_app, Hkeys. f_equal.
  apply list_filter_iff. intros k. by rewrite bool_decide_eq_false.
Qed.


End LoaderInvariants.

Section LoaderReadBack.
Context `{Loader.PyConv} `{Loader.SqlServer}.
Import Loader.

(** A row that has the load time [now], or that one of the UPDATEs
    matches, has the load time [now] after the loop. *)
Lemma fold_updates_load_time (now : Z) (rows : list (gmap string Cell)) :
  forall sr : StoredRow,
  cell (row_data sr) "fecha_carga" = VTime now \/
    (exists r, r ∈ rows /\ where_matches (cell r "numero_operacion") sr = true) ->
  cell (row_data (fold_left (fun s row => updated_by now row s) rows sr))
       "fecha_carga" = VTime now.
Proof.
  induction rows as [|row rows IH]; intros sr Hcase; cbn [fold_left].
  - destruct Hcase as [Hnow|(r & Hr & _)]; [done | by inversion Hr].
  - apply IH.
    destruct (where_matches (cell row "numero_operacion") sr) eqn:Hm.
    + left. unfold updated_by. rewrite Hm. cbn [row_data]. unfold cell.
      by rewrite (lookup_union_Some_l _ _ _ (VTime now)) by apply lookup_insert_eq.
    + unfold updated_by at 1 2. rewrite Hm.
      destruct Hcase as [Hnow|(r & Hr & Hmr)]; [by left | right].
      exists r. split; [|done].
      apply elem_of_cons in Hr as [->|Hr]; [congruence | done].
Qed.

Lemma where_matches_fold (now : Z) (rows : list (gmap string Cell)) (key : Cell)
    (sr : StoredRow) :
  where_matches key (fold_left (fun s row => updated_by now row s) rows sr) =
  where_matches key sr.
Proof. unfold where_matches. by rewrite fold_updated_by_key. Qed.

(** Reading back after a load (SQLite): for a batch of valid records with
    distinct operation ids the call succeeds, every operation id of the
    batch is then in the table, and every stored row with the operation id
    of a record holds that record's values in the columns the upsert
    writes, and the load time of this call. *)
Theorem upsert_stores_the_batch (self : SQLLoader) (attempt : ConnAttempt)
    (t : list StoredRow) (df : DataFrame) (now : Z) :
  db_type self = "sqlite" -> engine self = true -> valid_batch df = true ->
  exists self' t' stats,
    upsert_data self attempt t df now = (self', t', Ok stats) /\
    forall row, row ∈ df_rows df ->
      (exists sr, sr ∈ t' /\
         cell (row_data sr) "numero_operacion" = cell row "numero_operacion") /\
      (forall sr, sr ∈ t' ->
         cell (row_data sr) "numero_operacion" = cell row "numero_operacion" ->
         (forall c, c ∈ update_columns -> cell (row_data sr) c = cell row c) /\
         cell (row_data sr) "fecha_carga" = VTime now).
Proof.
  intros Hdb Heng Hvalid.
  rewrite (upsert_data_sqlite self attempt t df now Hdb Heng).
  destruct (upsert_sqlite_valid (len df) t df now Hvalid) as (ins & Hrun & Hdata).
  rewrite Hrun.
  destruct (upsert_sqlite_covers t ins df now Hvalid Hdata) as (Hcover & Hkeys & _).
  destruct (valid_batch_inv df Hvalid) as (_ & _ & Hrows & _).
  eexists _, _, _. split; [reflexivity|].
  intros row Hrow.
  assert (Hkey : cell row "numero_operacion" <> VNull).
  { rewrite forallb_forall in Hrows.
    specialize (Hrows row (proj1 (list_elem_of_In _ _) Hrow)).
    apply valid_record_inv in Hrows as [Hnn _]. apply Hnn. by_evaluation. }
  split.
  - specialize (Hkeys row Hrow). apply list_elem_of_fmap in Hkeys as (sr & Hk & Hsr).
    by exists sr.
  - intros sr Hsr Hk.
    assert (Hm : where_matches (cell row "numero_operacion") sr = true).
    { unfold where_matches. by apply bool_decide_eq_true. }
    split.
    + intros c Hc. specialize (Hcover sr row Hsr Hrow Hm).
      unfold cell at 1.
      rewrite (proj1 (map_subseteq_spec _ _) Hcover c (cell row c)); [done|].
      unfold set_values. rewrite lookup_row_map, decide_True; done.
    + rewrite fold_updates_map in Hsr.
      apply list_elem_of_fmap in Hsr as (sr0 & -> & Hsr0).
      apply fold_updates_load_time.
      rewrite where_matches_fold in Hm.
      apply elem_of_app in Hsr0 as [Hold|Hnew].
      * right. exists row. split; [|done].
        apply list_elem_of_filter. split; [|done].
        apply bool_decide_eq_true. apply where_matches_key in Hm. rewrite <- Hm.
        apply list_elem_of_fmap. by exists sr0.
      * left. destruct (inserted_rows_data _ _ _ _ Hdata Hnew) as (r0 & _ & ->).
        unfold cell at 1. rewrite cell_stored_data.
        -- rewrite cell_stamped. by rewrite decide_True.
        -- apply stamp_columns. by right.
        -- discriminate.
Qed.

End LoaderReadBack.

Section LoaderInvariantRuns.
Import Loader Samples.

Lemma triple_eta {A B C} (x : A * B * C) : x = (x.1.1, x.1.2, x.2).
Proof. by destruct x as [[? ?] ?]. Qed.

(** OP-00000001 is inserted and OP-00000003 updated: 1 + 1 = 2. *)
Lemma upsert_data_counts_whole_batch_witness :
  let call := upsert_data sqlite_loader ConnOk one_stored_operation two_operations 2000 in
  call.2 = Ok (LStats 1 1 0 2) /\
  rows_inserted (LStats 1 1 0 2) + rows_updated (LStats 1 1 0 2) = len two_operations /\
  load_stats call.1.1 = LStats 1 1 0 2.
Proof.
  intros call.
  assert (Hres : call.2 = Ok (LStats 1 1 0 2)) by by_evaluation.
  pose proof (triple_eta call) as Hcall. rewrite Hres in Hcall.
  destruct (upsert_data_counts_whole_batch _ _ _ _ _ _ _ _ Hcall) as (Hsum & _ & _ & Hself).
  split; [exact Hres|]. split; [exact Hsum | exact Hself].
Defined.




(** OP-00000003 was stored, OP-00000001 is appended. *)
Lemma upsert_stored_keys_witness :
  map (fun sr => cell (row_data sr) "numero_operacion")
      (upsert_data sqlite_loader ConnOk one_stored_operation two_operations 2000).1.2 =
  [VStr "OP-00000003"; VStr "OP-00000001"].
Proof.
  assert (Hres : (upsert_data sqlite_loader ConnOk one_stored_operation
                    two_operations 2000).2 = Ok (LStats 1 1 0 2)) by by_evaluation.
  pose proof (triple_eta (upsert_data sqlite_loader ConnOk one_stored_operation
                            two_operations 2000)) as Hcall.
  rewrite Hres in Hcall.
  rewrite (upsert_stored_keys sqlite_loader _ ConnOk one_stored_operation _
             two_operations 2000 _ eq_refl Hcall).
  by_evaluation.
Defined.


(** After loading [two_operations], the row of OP-00000003 holds the
    amount 250 and the load time of the call. *)
Lemma upsert_stores_the_batch_witness :
  exists self' t' stats,
    upsert_data sqlite_loader ConnOk one_stored_operation two_operations 2000 =
      (self', t', Ok stats) /\
    forall sr, sr ∈ t' ->
      cell (row_data sr) "numero_operacion" = VStr "OP-00000003" ->
      cell (row_data sr) "monto" = VNum (Q2Qc 250) /\
      cell (row_data sr) "fecha_carga" = VTime 2000.
Proof.
  assert (Hvalid : valid_batch two_operations = true) by (vm_compute; reflexivity).
  destruct (upsert_stores_the_batch sqlite_loader ConnOk one_stored_operation
              two_operations 2000 eq_refl eq_refl Hvalid)
    as (self' & t' & stats & Hcall & Hrows).
  exists self', t', stats. split; [exact Hcall|].
  intros sr Hsr Hkey.
  set (row := default ∅ (df_rows two_operations !! 1%nat)).
  assert (Hrow : row ∈ df_rows two_operations).
  { apply (list_elem_of_lookup_2 _ 1%nat). by_evaluation. }
  destruct (Hrows _ Hrow) as [_ Hall].
  destruct (Hall sr Hsr) as [Hcols Htime].
  - rewrite Hkey. by_evaluation.
  - split; [|exact Htime]. rewrite (Hcols "monto"); by_evaluation.
Defined.

End LoaderInvariantRuns.

(** ** Empty input *)

Section EmptyInput.
Context `{PyStr} `{Loader.PyConv} `{Loader.SqlServer}.
Import Dedup Loader.

(** A frame without rows goes through deduplication as it is: both
    strategies return a frame without rows and report zeros; the key
    strategy does so even when the frame lacks the key columns. *)
Theorem dedup_of_empty_frame (self : DedupStats) (df : DataFrame) (strategy : string)
    (key_columns : option (list string)) :
  strategy = "hash" \/ strategy = "key" ->
  df_rows df = [] ->
  exists res self',
    deduplicate self df strategy key_columns = (self', Ok (res, DStats 0 0 0 0)) /\
    df_rows res = [] /\
    (strategy = "key" -> res = df).
Proof.
  intros [-> | ->] Hrows.
  - destruct (deduplicate_by_hash_returns self df key_columns)
      as (mask & res & stats & self' & Hd & _ & Hlen & Hlen' & Hres & Htotal & Hfound &
          Hfinal & Hremoved).
    assert (Hzero : len df = 0) by (unfold len; by rewrite Hrows).
    assert (Hrows' : length (df_rows (if has_column df "content_hash" then df
                                      else _generate_content_hash df)) = 0%nat).
    { unfold len in Hlen', Hzero. lia. }
    rewrite Hrows' in Hlen. destruct mask; [|discriminate Hlen].
    assert (Hres_rows : df_rows res = []) by (rewrite Hres; by cbn).
    assert (Hres_len : len res = 0) by (unfold len; by rewrite Hres_rows).
    exists res, self'. split; [|split; [done | discriminate]].
    rewrite Hd. do 3 f_equal. destruct stats as [a b c d].
    cbn [total_input duplicates_found duplicates_removed final_count] in *.
    rewrite Hzero in Htotal, Hremoved. rewrite Hres_len in Hfinal, Hremoved.
    change (mask_sum []) with 0 in Hfound. f_equal; lia.
  - destruct df as [cols rows]. cbn in Hrows. subst rows.
    exists (Frame cols []). eexists. split; [|done].
    unfold deduplicate. rewrite bool_decide_eq_false_2 by discriminate.
    rewrite bool_decide_eq_true_2 by done.
    unfold _deduplicate_by_key, duplicated, empty. cbn [df_columns df_rows].
    by destruct cols.
Qed.

(** An empty batch leaves the table alone (SQLite): with the operation id
    column the call returns and reports zeros; without it the call raises. *)
Theorem upsert_of_empty_batch (self : SQLLoader) (attempt : ConnAttempt)
    (t : list StoredRow) (df : DataFrame) (now : Z) :
  db_type self = "sqlite" -> engine self = true -> df_rows df = [] ->
  exists self' r,
    upsert_data self attempt t df now = (self', t, r) /\
    load_stats self' = LStats 0 0 0 0 /\
    (has_column df "numero_operacion" = true -> r = Ok (LStats 0 0 0 0)) /\
    (has_column df "numero_operacion" = false ->
     exists e, r = Raise e /\ exn_type e = "RuntimeError").
Proof.
  intros Hdb Heng Hrows.
  rewrite (upsert_data_sqlite self attempt t df now Hdb Heng).
  assert (Hlen : len df = 0) by (unfold len; by rewrite Hrows).
  rewrite Hlen. unfold _upsert_sqlite. rewrite stamp_rows, Hrows. cbn [map].
  assert (Hhas : has_column (stamp df now) "numero_operacion" =
                 has_column df "numero_operacion").
  { unfold has_column. apply bool_decide_ext. rewrite stamp_columns.
    split; [intros [?|Heq]; [done | discriminate Heq] | by left]. }
  rewrite Hhas. destruct (has_column df "numero_operacion"); cbn.
  - eexists _, _. split; [reflexivity|]. repeat split; try done.
  - eexists _, _. split; [reflexivity|]. repeat split; try done.
    intros _. by eexists.
Qed.

End EmptyInput.

Section EmptyInputRuns.
Import Dedup Loader Samples.

Lemma dedup_of_empty_frame_witness :
  exists res self',
    deduplicate new_engine (Frame ["monto"] []) "key" None
      = (self', Ok (res, DStats 0 0 0 0)) /\
    res = Frame ["monto"] [].
Proof.
  destruct (dedup_of_empty_frame new_engine (Frame ["monto"] []) "key" None
              (or_intror eq_refl) eq_refl) as (res & self' & Hd & _ & Hres).
  exists res, self'. split; [exact Hd | exact (Hres eq_refl)].
Defined.

Lemma upsert_of_empty_batch_witness :
  exists self',
    upsert_data sqlite_loader ConnOk one_stored_operation (Frame operation_columns []) 2000
      = (self', one_stored_operation, Ok (LStats 0 0 0 0)).
Proof.
  destruct (upsert_of_empty_batch sqlite_loader ConnOk one_stored_operation
              (Frame operation_columns []) 2000 eq_refl eq_refl eq_refl)
    as (self' & r & Hcall & _ & Hok & _).
  exists self'. rewrite Hcall, (Hok eq_refl). reflexivity.
Defined.

End EmptyInputRuns.

(** ** A run from end to end *)

Section PipelineMore.
Context `{PyStr} `{Loader.PyConv} `{Loader.SqlServer}.
Import Loader Pipeline.

(** The counts of a report [validate] returns, against the frames. *)
Lemma validate_report_counts (schema : DataFrameSchema) (df : DataFrame)
    (expected : option Qc) (v : DataFrame) (r : ValidationReport) :
  Validators.validate schema df expected = Ok (v, r) ->
  valid_rows r = len v /\ invalid_rows r = len df - len v.
Proof.
  intros Hv. apply validate_inv in Hv as (r0 & r1 & Hs & Hsum & ->).
  assert (Hr0 : total_rows r0 = len df /\ valid_rows r0 = len v).
  { destruct (schema df) as [v0|fcs|e]; [| |done].
    - destruct Hs as [-> ->]. done.
    - unfold Validators._handle_schema_errors in Hs. inversion Hs; subst.
      cbn. by rewrite record_errors_spec. }
  assert (Hr1 : total_rows r1 = total_rows r0 /\ valid_rows r1 = valid_rows r0).
  { destruct expected as [e|]; [|by subst].
    destruct Hsum as (actual & _ & ->). by case_bool_decide. }
  cbn. destruct Hr0 as [Ht Hval], Hr1 as [-> ->]. rewrite Ht, Hval. done.
Qed.

(** What the stages did when none raised. *)
Lemma stages_ok_inv (w : World) (st st' : RunState) (input_file : string) :
  stages w st input_file = (st', Ok tt) ->
  exists df v rep d dstats loader' lstats,
    w_read_csv w input_file = Ok df /\
    Validators.validate (w_schema w) df None = Ok (v, rep) /\
    (Dedup.deduplicate Dedup.new_engine v "hash" None).2 = Ok (d, dstats) /\
    w_to_csv w d = Ok tt /\ w_connect w = ConnOk /\ w_create_table w = Ok tt /\
    upsert_data (LoaderObj (w_db_type w) true (LStats 0 0 0 0)) ConnOk (table st) d
                (w_load_time w) = (loader', table st', Ok lstats) /\
    metrics st' =
      set_load
        (set_duplicates
           (set_validation (set_input_rows (metrics st) (len df))
              (valid_rows rep) (invalid_rows rep) (firstn 100 (errors rep)))
           (Dedup.duplicates_found dstats) (Dedup.duplicates_removed dstats))
        (rows_inserted lstats) (Loader.rows_updated lstats) (rows_failed lstats).
Proof.
  unfold stages, _extract. intros Hst.
  destruct (w_read_csv w input_file) as [df|e0] eqn:Hread; [|done].
  unfold _validate in Hst.
  destruct (Validators.validate (w_schema w) df None) as [[v rep]|e0] eqn:Hval; [|done].
  unfold _deduplicate in Hst. cbn [metrics table] in Hst.
  destruct (Dedup.deduplicate Dedup.new_engine v "hash" None).2 as [[d dstats]|e0] eqn:Hdd;
    [|done].
  cbn [metrics table] in Hst.
  destruct (w_to_csv w d) as [[]|e0] eqn:Hcsv; [|done].
  unfold _load in Hst. cbn [metrics table] in Hst.
  destruct (w_connect w) as [|e0|e0] eqn:Hconn; cbn [connect new_loader] in Hst;
    [|done|done].
  cbn [db_type load_stats] in Hst.
  destruct (w_create_table w) as [[]|e0] eqn:Hct; [|done].
  destruct (upsert_data _ ConnOk (table st) d (w_load_time w))
    as [[loader' t'] [lstats|e0]] eqn:Hup; [|done].
  inversion Hst; subst. cbn [table metrics].
  exists df, v, rep, d, dstats, loader', lstats. repeat split; done.
Qed.

(** What each stage that touches the database went through before the
    table could change. *)
Lemma stages_table (w : World) (st st' : RunState) (input_file : string)
    (r : result unit) :
  stages w st input_file = (st', r) ->
  table st' = table st \/
  exists df v rep d dstats,
    w_read_csv w input_file = Ok df /\
    Validators.validate (w_schema w) df None = Ok (v, rep) /\
    (Dedup.deduplicate Dedup.new_engine v "hash" None).2 = Ok (d, dstats) /\
    w_to_csv w d = Ok tt /\ w_connect w = ConnOk /\ w_create_table w = Ok tt /\
    table st' =
      (upsert_data (LoaderObj (w_db_type w) true (LStats 0 0 0 0)) ConnOk (table st) d
                   (w_load_time w)).1.2.
Proof.
  unfold stages, _extract. intros Hst.
  destruct (w_read_csv w input_file) as [df|e0] eqn:Hread.
  2:{ inversion Hst; subst. by left. }
  unfold _validate in Hst.
  destruct (Validators.validate (w_schema w) df None) as [[v rep]|e0] eqn:Hval.
  2:{ inversion Hst; subst. by left. }
  unfold _deduplicate in Hst. cbn [metrics table] in Hst.
  destruct (Dedup.deduplicate Dedup.new_engine v "hash" None).2 as [[d dstats]|e0] eqn:Hdd.
  2:{ inversion Hst; subst. by left. }
  cbn [metrics table] in Hst.
  destruct (w_to_csv w d) as [[]|e0] eqn:Hcsv.
  2:{ inversion Hst; subst. by left. }
  unfold _load in Hst. cbn [metrics table] in Hst.
  destruct (w_connect w) as [|e0|e0] eqn:Hconn; cbn [connect new_loader] in Hst.
  2:{ inversion Hst; subst. by left. }
  2:{ inversion Hst; subst. by left. }
  cbn [db_type load_stats] in Hst.
  destruct (w_create_table w) as [[]|e0] eqn:Hct.
  2:{ inversion Hst; subst. by left. }
  right. exists df, v, rep, d, dstats. repeat split; try done.
  destruct (upsert_data _ ConnOk (table st) d (w_load_time w))
    as [[loader' t'] [lstats|e0]] eqn:Hup; inversion Hst; subst; done.
Qed.

(** A run that returns has accounted for every input row: the record it
    returns and saves has status "success", no error message and no failed
    load; the rows that passed and failed validation add up to the input;
    the duplicates removed are those found; and the rows inserted and
    updated are the valid rows left after deduplication. *)
Theorem successful_run_accounts_for_every_row (w : World) (t : list StoredRow)
    (files : gmap string PipelineMetrics) (input_file : string)
    (m : PipelineMetrics) :
  returned (run w t files input_file) = Ok m ->
  let res := run w t files input_file in
  final_metrics res = m /\
  metrics_files res = <[w_pipeline_id w := m]> files /\
  status m = "success" /\ error_message m = "" /\
  end_time m = Some (w_end_time w) /\
  processing_time_seconds m = w_end_time w - w_start_time w /\
  load_failed m = 0 /\
  validation_passed m + validation_failed m = input_rows m /\
  Metrics.duplicates_removed m = Metrics.duplicates_found m /\
  rows_loaded m + Metrics.rows_updated m =
    validation_passed m - Metrics.duplicates_removed m /\
  input_rows m =
    validation_failed m + Metrics.duplicates_removed m + rows_loaded m +
    Metrics.rows_updated m.
Proof.
  unfold run.
  destruct (stages w _ input_file) as [st [[]|e0]] eqn:Hst; [|done].
  cbn [returned]. intros Hm. inversion Hm as [Hm']. clear Hm.
  cbn zeta. cbn [final_metrics metrics_files]. rewrite Hm'.
  apply stages_ok_inv in Hst
    as (df & v & rep & d & dstats & loader' & lstats & _ & Hval & Hdd & _ & _ & _ &
        Hup & Hmetrics).
  apply validate_report_counts in Hval as [Hvalid Hinvalid].
  apply upsert_data_ok_stats in Hup as (inserted & updated & -> & Hsum & _).
  cbn [rows_inserted Loader.rows_updated rows_failed] in Hmetrics.
  destruct (deduplicate_by_hash_returns Dedup.new_engine v None)
    as (mask & d' & dstats' & self' & Hd & _ & Hlen & Hlen' & Hres & _ & Hfound & _ &
        Hremoved).
  rewrite Hd in Hdd. cbn [snd] in Hdd.
  assert (Hdeq : d' = d) by congruence. assert (Hseq : dstats' = dstats) by congruence.
  rewrite Hseq in Hfound, Hremoved. clear Hdd Hseq.
  pose proof (length_select_negb mask _ Hlen) as Hsel.
  assert (Hd_len : len d = len v - mask_sum mask).
  { rewrite <- Hdeq, Hres, <- Hlen'. unfold len, mask_sum. cbn [df_rows]. lia. }
  assert (Hfields :
    pipeline_id m = w_pipeline_id w /\ status m = "success" /\ error_message m = "" /\
    end_time m = Some (w_end_time w) /\
    processing_time_seconds m = w_end_time w - w_start_time w /\
    input_rows m = len df /\ validation_passed m = valid_rows rep /\
    validation_failed m = invalid_rows rep /\
    Metrics.duplicates_found m = Dedup.duplicates_found dstats /\
    Metrics.duplicates_removed m = Dedup.duplicates_removed dstats /\
    rows_loaded m = inserted /\
    Metrics.rows_updated m = updated /\
    load_failed m = 0).
  { rewrite <- Hm', Hmetrics. unfold finalize. cbn. repeat split; reflexivity. }
  destruct Hfields as (Hid & Hstatus & Hmsg & Hend & Htime & Hin & Hpass & Hfail &
                       Hdf & Hdr & Hload & Hupd & Hlf).
  split; [done|]. split; [unfold save; by rewrite Hid|].
  split; [done|]. split; [done|]. split; [done|]. split; [done|].
  rewrite Hin, Hpass, Hfail, Hdf, Hdr, Hload, Hupd, Hlf. rewrite Hdeq in Hremoved.
  repeat split; lia.
Qed.

(** A run changes the table in one place only: the upsert of the
    deduplicated batch, reached after the input was read, validated,
    deduplicated and written out, the connection made and the table
    created.  A run that stops earlier leaves the table as it was. *)
Theorem run_changes_table_by_upsert_only (w : World) (t : list StoredRow)
    (files : gmap string PipelineMetrics) (input_file : string) :
  final_table (run w t files input_file) = t \/
  exists df v rep d dstats,
    w_read_csv w input_file = Ok df /\
    Validators.validate (w_schema w) df None = Ok (v, rep) /\
    (Dedup.deduplicate Dedup.new_engine v "hash" None).2 = Ok (d, dstats) /\
    w_to_csv w d = Ok tt /\ w_connect w = ConnOk /\ w_create_table w = Ok tt /\
    final_table (run w t files input_file) =
      (upsert_data (LoaderObj (w_db_type w) true (LStats 0 0 0 0)) ConnOk t d
                   (w_load_time w)).1.2.
Proof.
  unfold run.
  destruct (stages w _ input_file) as [st r] eqn:Hst.
  apply stages_table in Hst. cbn [table] in Hst.
  destruct r as [[]|e]; cbn [final_table]; exact Hst.
Qed.

End PipelineMore.

Section PipelineMoreRuns.
Import Loader Pipeline Samples.

(** Scenario A end to end: 10 rows in, 1 invalid, 1 duplicate, 8 loaded. *)
Lemma successful_run_accounts_for_every_row_witness :
  let res := run scenario_a_world [] ∅ "operaciones.csv" in
  let m := final_metrics res in
  returned res = Ok m /\
  status m = "success" /\
  input_rows m = 10 /\ validation_failed m = 1 /\
  Metrics.duplicates_removed m = 1 /\ rows_loaded m = 8 /\
  Metrics.rows_updated m = 0 /\
  input_rows m =
    validation_failed m + Metrics.duplicates_removed m + rows_loaded m +
    Metrics.rows_updated m.
Proof.
  intros res m.
  assert (Hret : returned res = Ok m) by by_evaluation.
  destruct (successful_run_accounts_for_every_row scenario_a_world [] ∅
              "operaciones.csv" m Hret)
    as (_ & _ & Hstatus & _ & _ & _ & _ & _ & _ & _ & Hall).
  split; [exact Hret|]. split; [exact Hstatus|].
  split; [by_evaluation|]. split; [by_evaluation|]. split; [by_evaluation|].
  split; [by_evaluation|]. split; [by_evaluation | exact Hall].
Defined.

End PipelineMoreRuns.

(** ** The metrics collector *)

Section CollectorFacts.
Context `{PyFormat}.

Lemma sum_over_perm (f : PipelineMetrics -> Z) (l1 l2 : list PipelineMetrics) :
  l1 ≡ₚ l2 -> sum_over f l1 = sum_over f l2.
Proof.
  unfold sum_over.
  induction 1 as [|x l1 l2 _ IH|x y l|l1 l2 l3 _ IH1 _ IH2]; cbn [fold_right].
  - done.
  - by rewrite IH.
  - lia.
  - congruence.
Qed.

Lemma sum_over_bounds (l : list PipelineMetrics) :
  0 <= sum_over (fun m => if bool_decide (status m = "success") then 1 else 0) l
    <= Z.of_nat (length l).
Proof.
  unfold sum_over. induction l as [|m l IH]; cbn [fold_right length]; [lia|].
  case_bool_decide; lia.
Qed.

(** The counters of the aggregate, whatever the directory holds. *)
Lemma aggregated_counters (files : gmap string PipelineMetrics) :
  match get_aggregated_stats files with
  | None => files = ∅
  | Some a =>
      files <> ∅ /\
      total_runs a = Z.of_nat (size files) /\
      successful_runs a =
        sum_over (fun m => if bool_decide (status m = "success") then 1 else 0)
                 (map snd (map_to_list files)) /\
      total_rows_processed a = sum_over input_rows (map snd (map_to_list files)) /\
      total_rows_loaded a = sum_over rows_loaded (map snd (map_to_list files))
  end.
Proof.
  unfold get_aggregated_stats.
  destruct (map_to_list files) as [|[k m0] rest] eqn:Hlist; cbn [map snd].
  - by apply map_to_list_empty_iff in Hlist.
  - cbn [total_runs successful_runs total_rows_processed total_rows_loaded].
    split.
    + intros ->. by rewrite map_to_list_empty in Hlist.
    + split; [|done]. rewrite <- length_map_to_list, Hlist. cbn. by rewrite length_map.
Qed.

(** Saving a run into the directory and aggregating: a run with a new
    pipeline id counts as one more run, and adds its input rows, its loaded
    rows and, when its status is "success", one successful run; a run whose
    pipeline id is already there takes the place of the stored one.  The
    successful runs never exceed the runs. *)
Theorem aggregate_after_save (m : PipelineMetrics) (files : gmap string PipelineMetrics) :
  let counters (fs : gmap string PipelineMetrics) :=
    match get_aggregated_stats fs with
    | Some a => (total_runs a, successful_runs a, total_rows_processed a,
                 total_rows_loaded a)
    | None => (0, 0, 0, 0)
    end in
  let success (x : PipelineMetrics) :=
    if bool_decide (status x = "success") then 1 else 0 in
  (exists a, get_aggregated_stats (save m files) = Some a /\
             0 <= successful_runs a <= total_runs a) /\
  match files !! pipeline_id m with
  | None =>
      counters (save m files) =
      ((counters files).1.1.1 + 1, (counters files).1.1.2 + success m,
       (counters files).1.2 + input_rows m, (counters files).2 + rows_loaded m)
  | Some old =>
      counters (save m files) =
      ((counters files).1.1.1, (counters files).1.1.2 - success old + success m,
       (counters files).1.2 - input_rows old + input_rows m,
       (counters files).2 - rows_loaded old + rows_loaded m)
  end.
Proof.
  intros counters success.
  assert (Hcount : forall fs,
    counters fs =
    (Z.of_nat (size fs), sum_over success (map snd (map_to_list fs)),
     sum_over input_rows (map snd (map_to_list fs)),
     sum_over rows_loaded (map snd (map_to_list fs)))).
  { intros fs. unfold counters. pose proof (aggregated_counters fs) as Ha.
    destruct (get_aggregated_stats fs) as [a|].
    - destruct Ha as (_ & -> & -> & -> & ->). done.
    - subst fs. by rewrite map_to_list_empty, map_size_empty. }
  split.
  { pose proof (aggregated_counters (save m files)) as Ha.
    destruct (get_aggregated_stats (save m files)) as [a|].
    - exists a. split; [done|]. destruct Ha as (_ & -> & -> & _).
      rewrite <- length_map_to_list, <- (length_map snd). apply sum_over_bounds.
    - unfold save in Ha. by apply insert_non_empty in Ha. }
  rewrite !Hcount. unfold save. cbn [fst snd].
  destruct (files !! pipeline_id m) as [old|] eqn:Hold.
  - assert (Hperm : map_to_list files ≡ₚ
                    (pipeline_id m, old) :: map_to_list (delete (pipeline_id m) files)).
    { rewrite <- (insert_delete_id files (pipeline_id m) old Hold) at 1.
      apply map_to_list_insert, lookup_delete_eq. }
    assert (Hperm' : map_to_list (<[pipeline_id m := m]> files) ≡ₚ
                     (pipeline_id m, m) :: map_to_list (delete (pipeline_id m) files)).
    { rewrite <- insert_delete_eq. apply map_to_list_insert, lookup_delete_eq. }
    rewrite !(sum_over_perm _ _ _ (Permutation_map snd Hperm)).
    rewrite !(sum_over_perm _ _ _ (Permutation_map snd Hperm')).
    rewrite <- !length_map_to_list, Hperm, Hperm'.
    unfold sum_over. cbn [map snd fold_right length]. rewrite !Nat2Z.inj_succ.
    f_equal; [f_equal; [f_equal|]|]; lia.
  - assert (Hperm' : map_to_list (<[pipeline_id m := m]> files) ≡ₚ
                     (pipeline_id m, m) :: map_to_list files).
    { by apply map_to_list_insert. }
    rewrite !(sum_over_perm _ _ _ (Permutation_map snd Hperm')).
    rewrite <- !length_map_to_list, Hperm'.
    unfold sum_over. cbn [map snd fold_right length]. rewrite !Nat2Z.inj_succ.
    f_equal; [f_equal; [f_equal|]|]; lia.
Qed.

End CollectorFacts.
